(** * STAT-Tool: segmented LOWESS detrending, systematics masking and binning

    A shallow embedding of [ffi_lowess_detrend] and [bin]
    ([ffi_lowess_detrending_as_function_CDIPS.py]) and of [clean_tess_lc]
    ([remove_tess_systematics.py]).

    numpy arrays of float64 are lists of binary64 floats, Python ints are
    [Z] (or [nat] where the source has a length or a range index), and a
    Python exception is the [Raise] case of [result].  The functions of
    statsmodels, astropy, scipy and of the modules that are not part of
    these files are parameters: the numerical ones are functions of their
    arguments, with the argument checks of [lowess], [plt.scatter] and
    [plt.plot] written out, and the writers of csv files also see the files
    that earlier calls left. *)

From Stdlib Require Import ZArith QArith Floats String.
From stdpp Require Import base list strings.

Local Open Scope Z_scope.
Local Open Scope list_scope.

(** ** Exceptions *)

Inductive exn : Type :=
  | ZeroDivisionError
  | ValueError
  | IndexError
  | NameError
  | UnboundLocalError
  | TypeError
  | RuntimeError
  | OtherError.

Inductive result (A : Type) : Type :=
  | Ok (a : A)
  | Raise (e : exn).
Arguments Ok {A} a.
Arguments Raise {A} e.

#[global] Instance result_ret : MRet result := fun A a => Ok a.
#[global] Instance result_bind : MBind result := fun A B k m =>
  match m with
  | Ok a => k a
  | Raise e => Raise e
  end.

(** [for i in range(n): st = body(i, st)], stopping at the first exception. *)
Fixpoint for_each {I S : Type} (body : I -> S -> result S) (idxs : list I) (st : S)
  : result S :=
  match idxs with
  | [] => Ok st
  | i :: rest => st' ← body i st; for_each body rest st'
  end.

Definition for_range {S : Type} (n : nat) (body : nat -> S -> result S) (st : S)
  : result S :=
  for_each body (seq 0 n) st.

(** ** The numpy operations the code uses *)

Module np.

(** [a[i]] for [0 <= i]. *)
Definition index {A : Type} (a : list A) (i : nat) : result A :=
  match a !! i with
  | Some x => Ok x
  | None => Raise IndexError
  end.

(** [a[low:high]] for non-negative bounds: out-of-range bounds are clipped
    and [high <= low] gives the empty array. *)
Definition slice {A : Type} (low high : nat) (a : list A) : list A :=
  take (high - low) (drop low a).

(** [np.diff(a)]: [a[k+1] - a[k]]. *)
Definition diff (a : list float) : list float :=
  zip_with (fun x y => PrimFloat.sub y x) a (tail a).

(** [np.concatenate((a, b))]. *)
Definition concatenate {A : Type} (a b : list A) : list A := a ++ b.

(** [a / b] on one-dimensional arrays: elementwise on equal shapes, a
    one-element operand is broadcast, any other pair of shapes raises
    [ValueError]. *)
Definition divide (a b : list float) : result (list float) :=
  if Nat.eqb (length a) (length b) then Ok (zip_with PrimFloat.div a b)
  else match a, b with
       | [x], _ => Ok (map (fun y => PrimFloat.div x y) b)
       | _, [y] => Ok (map (fun x => PrimFloat.div x y) a)
       | _, _ => Raise ValueError
       end.

(** The entries of [a] whose flag in [mask] is [False], in order. *)
Fixpoint keep_unmasked {A : Type} (a : list A) (mask : list bool) : list A :=
  match a, mask with
  | x :: a', m :: mask' =>
      if m then keep_unmasked a' mask' else x :: keep_unmasked a' mask'
  | _, _ => []
  end.

(** [a[~np.array(mask)]] for a Python list [mask] of bools.  [np.array] of
    the empty list is a float64 array, on which [~] raises [TypeError]; a
    mask of another length than [a] raises [IndexError]. *)
Definition index_not {A : Type} (a : list A) (mask : list bool)
  : result (list A) :=
  match mask with
  | [] => Raise TypeError
  | _ :: _ =>
      if Nat.eqb (length a) (length mask) then Ok (keep_unmasked a mask)
      else Raise IndexError
  end.

(** [a[np.array(mask)]] for a Python list [mask] of bools: the empty
    float64 array is no index, and a mask of another length than [a] raises
    [IndexError] too. *)
Definition index_mask {A : Type} (a : list A) (mask : list bool)
  : result (list A) :=
  match mask with
  | [] => Raise IndexError
  | _ :: _ =>
      if Nat.eqb (length a) (length mask)
      then Ok (keep_unmasked a (map negb mask))
      else Raise IndexError
  end.

End np.

(** Python's [n / d] on ints.  The quotient is kept exact; Python rounds it
    to the nearest double, which is monotone and fixes 0 and 1. *)
Definition true_divide (n d : Z) : result Q :=
  if d =? 0 then Raise ZeroDivisionError else Ok (n # Z.to_pos d).

(** ** matplotlib *)

Module plt.

(** [plt.scatter(x, y)]: [ValueError] unless [x] and [y] have one size. *)
Definition scatter (x y : list float) : result unit :=
  if Nat.eqb (length x) (length y) then Ok tt else Raise ValueError.

(** [plt.plot(x, y)]: [ValueError] unless [x] and [y] have one first
    dimension. *)
Definition plot (x y : list float) : result unit :=
  if Nat.eqb (length x) (length y) then Ok tt else Raise ValueError.

End plt.

(** ** [ffi_lowess_detrend]: the [lowess_partial] detrending block *)

Set Warnings "-inexact-float".

Module Detrend.

(** What the block reads.  [transit] is [Some (t_transit_mask,
    flux_transit_mask)] when [transit_mask == True] (the two arrays exist
    only then); [injected_planet] is the truth of
    [injected_planet != False]. *)
Record input : Type := {
  t_cut : list float;
  flux_cut : list float;
  transit : option (list float * list float);
  pipeline : string;
  n_bins : Z;
  injected_planet : bool
}.

(** One call of [sm.nonparametric.lowess], with the bounds of the section
    it was made for. *)
Record lowess_call : Type := {
  seg_low : nat;
  seg_high : nat;
  frac : Q;
  endog : list float;
  exog : list float
}.

(** The variables the block updates, the calls of the smoother it has made,
    the lines it has printed and the figures it has saved. *)
Record state : Type := {
  low_bound : nat;
  residual_flux_lowess : list float;
  time_from_lowess_detrend : list float;
  full_lowess_flux : list float;
  calls : list lowess_call;
  stdout : list string;
  figures : list string
}.

Definition gap_threshold : float := 0.1%float.

(** Statements of the block: they update the state and return or raise; an
    exception leaves the state as it was when it was raised. *)
Definition M (A : Type) : Type := state -> result A * state.

#[global] Instance M_ret : MRet M := fun A a st => (Ok a, st).
#[global] Instance M_bind : MBind M := fun A B k m st =>
  match m st with
  | (Ok a, st') => k a st'
  | (Raise e, st') => (Raise e, st')
  end.

Definition lift {A : Type} (r : result A) : M A := fun st => (r, st).

Definition get : M state := fun st => (Ok st, st).

Definition modify (f : state -> state) : M unit := fun st => (Ok tt, f st).

(** [for i in idxs: body(i)], stopping at the first exception. *)
Fixpoint loop_over {I : Type} (body : I -> M unit) (idxs : list I) : M unit :=
  match idxs with
  | [] => mret tt
  | i :: rest => _ ← body i; loop_over body rest
  end.

(** The state of a statement that returned. *)
Definition returned {A : Type} (r : result A * state) : result state :=
  match r with
  | (Ok _, st) => Ok st
  | (Raise e, _) => Raise e
  end.

Definition record_call (c : lowess_call) (st : state) : state :=
  {| low_bound := low_bound st;
     residual_flux_lowess := residual_flux_lowess st;
     time_from_lowess_detrend := time_from_lowess_detrend st;
     full_lowess_flux := full_lowess_flux st;
     calls := calls st ++ [c];
     stdout := stdout st;
     figures := figures st |}.

(** [print(line)]. *)
Definition print (line : string) : M unit :=
  modify (fun st =>
    {| low_bound := low_bound st;
       residual_flux_lowess := residual_flux_lowess st;
       time_from_lowess_detrend := time_from_lowess_detrend st;
       full_lowess_flux := full_lowess_flux st;
       calls := calls st;
       stdout := stdout st ++ [line];
       figures := figures st |}).

(** [overplotted_detrending_fig.savefig(save_path + '{} - ' + name)]. *)
Definition savefig (name : string) : M unit :=
  modify (fun st =>
    {| low_bound := low_bound st;
       residual_flux_lowess := residual_flux_lowess st;
       time_from_lowess_detrend := time_from_lowess_detrend st;
       full_lowess_flux := full_lowess_flux st;
       calls := calls st;
       stdout := stdout st;
       figures := figures st ++ [name] |}).

(** The three [np.concatenate] of a section. *)
Definition append_section (residuals_section t_section lowess_flux_section : list float)
  : M unit :=
  modify (fun st =>
    {| low_bound := low_bound st;
       residual_flux_lowess :=
         np.concatenate (residual_flux_lowess st) residuals_section;
       time_from_lowess_detrend :=
         np.concatenate (time_from_lowess_detrend st) t_section;
       full_lowess_flux :=
         np.concatenate (full_lowess_flux st) lowess_flux_section;
       calls := calls st;
       stdout := stdout st;
       figures := figures st |}).

(** [low_bound = high_bound]. *)
Definition set_low_bound (high_bound : nat) : M unit :=
  modify (fun st =>
    {| low_bound := high_bound;
       residual_flux_lowess := residual_flux_lowess st;
       time_from_lowess_detrend := time_from_lowess_detrend st;
       full_lowess_flux := full_lowess_flux st;
       calls := calls st;
       stdout := stdout st;
       figures := figures st |}).

Definition overplotted_figure : string :=
  "Overplotted lowess detrending - partial lc.pdf".

Section WithLowess.

(** The smoothing of [sm.nonparametric.lowess(endog, exog, frac=frac)[:,1]],
    a function of its arguments. *)
Variable lowess : Q -> list float -> list float -> list float.

(** [sm.nonparametric.lowess(endog, exog, frac=frac)[:,1]]: the library
    raises [ValueError] for arrays of two lengths and for a [frac] outside
    [0, 1]. *)
Definition sm_lowess (fr : Q) (endog exog : list float) : result (list float) :=
  if negb (Nat.eqb (length endog) (length exog)) then Raise ValueError
  else if Qle_bool 0 fr && Qle_bool fr 1 then Ok (lowess fr endog exog)
  else Raise ValueError.

(** A call of the smoother, recorded when it is made. *)
Definition call_lowess (c : lowess_call) : M (list float) := fun st =>
  (sm_lowess (frac c) (endog c) (exog c), record_call c st).

Definition initial : state :=
  {| low_bound := 0;
     residual_flux_lowess := [];
     time_from_lowess_detrend := [];
     full_lowess_flux := [];
     calls := [];
     stdout := [];
     figures := [] |}.

(** [n_bins] as the block uses it. *)
Definition effective_n_bins (inp : input) : Z :=
  if String.eqb (pipeline inp) "2min" then 450 else n_bins inp.

(** The arrays handed to [lowess] for the section [low:high]. *)
Definition lowess_args (inp : input) (low high : nat)
  : list float * list float :=
  match transit inp with
  | Some (t_transit_mask, flux_transit_mask) =>
      (np.slice low high flux_transit_mask, np.slice low high t_transit_mask)
  | None =>
      (np.slice low high (flux_cut inp), np.slice low high (t_cut inp))
  end.

(** The body of [for i in range(len(t_cut)-1)]. *)
Definition loop_body (inp : input) (time_diff : list float) (i : nat) : M unit :=
  d ← lift (np.index time_diff i);
  if PrimFloat.ltb gap_threshold d then
    st ← get;
    let high_bound := (i + 1)%nat in
    let t_section := np.slice (low_bound st) high_bound (t_cut inp) in
    let flux_section := np.slice (low_bound st) high_bound (flux_cut inp) in
    if Z.of_nat (length t_section) >=? effective_n_bins inp then
      fr ← lift (true_divide (effective_n_bins inp) (Z.of_nat (length t_section)));
      let '(en, ex) := lowess_args inp (low_bound st) high_bound in
      lowess_flux_section ←
        call_lowess {| seg_low := low_bound st; seg_high := high_bound;
                       frac := fr; endog := en; exog := ex |};
      _ ← lift (plt.plot t_section lowess_flux_section);
      residuals_section ← lift (np.divide flux_section lowess_flux_section);
      _ ← append_section residuals_section t_section lowess_flux_section;
      set_low_bound high_bound
    else print "Skipped one gap"
  else mret tt.

(** Lines 428-466: [plt.scatter(t_cut, flux_cut)] and the loop over the
    gaps. *)
Definition gaps (inp : input) : M unit :=
  let time_diff := np.diff (t_cut inp) in
  _ ← lift (plt.scatter (t_cut inp) (flux_cut inp));
  loop_over (loop_body inp time_diff) (seq 0 (length (t_cut inp) - 1)).

(** Lines 468-490: "Carries out same process for final line (up to end of
    data)". *)
Definition final_section (inp : input) : M unit :=
  st ← get;
  let high_bound := length (t_cut inp) in
  let t_section := np.slice (low_bound st) high_bound (t_cut inp) in
  let flux_section := np.slice (low_bound st) high_bound (flux_cut inp) in
  fr ← lift (true_divide (effective_n_bins inp) (Z.of_nat (length t_section)));
  let '(en, ex) := lowess_args inp (low_bound st) high_bound in
  lowess_flux_section ←
    call_lowess {| seg_low := low_bound st; seg_high := high_bound;
                   frac := fr; endog := en; exog := ex |};
  _ ← lift (plt.plot t_section lowess_flux_section);
  (* [savefig(... params.rp, params.per)]: no [params] is ever bound *)
  _ ← (if injected_planet inp then lift (Raise NameError)
       else savefig overplotted_figure);
  residuals_section ← lift (np.divide flux_section lowess_flux_section);
  append_section residuals_section t_section lowess_flux_section.

(** The whole [if detrending == 'lowess_partial':] block up to line 490,
    from the first statement. *)
Definition run (inp : input) : result unit * state :=
  (_ ← gaps inp; final_section inp) initial.

(** The state after the loop over the gaps, and after the block, when they
    return. *)
Definition gap_loop (inp : input) : result state :=
  returned (gaps inp initial).

Definition lowess_partial (inp : input) : result state :=
  returned (run inp).

(** The smoothed values a recorded call returned. *)
Definition trend (c : lowess_call) : list float :=
  lowess (frac c) (endog c) (exog c).

(** [c] is the call the code makes for the section [low:high]. *)
Definition call_for (inp : input) (c : lowess_call) : Prop :=
  true_divide (effective_n_bins inp)
    (Z.of_nat (length (np.slice (seg_low c) (seg_high c) (t_cut inp))))
    = Ok (frac c)
  /\ lowess_args inp (seg_low c) (seg_high c) = (endog c, exog c).

(** The residuals the code computes for the section of a call when the
    shapes agree. *)
Definition section_residuals (inp : input) (c : lowess_call) : list float :=
  zip_with PrimFloat.div
    (np.slice (seg_low c) (seg_high c) (flux_cut inp)) (trend c).

End WithLowess.

(** The sections the smoother was called for, in order. *)
Definition segments (st : state) : list (nat * nat) :=
  map (fun c => (seg_low c, seg_high c)) (calls st).

(** The calls cover the index range [lo, hi) by consecutive non-empty
    sections. *)
Fixpoint tiles (lo : nat) (cs : list lowess_call) (hi : nat) : Prop :=
  match cs with
  | [] => lo = hi
  | c :: cs' => seg_low c = lo /\ (lo < seg_high c)%nat /\ tiles (seg_high c) cs' hi
  end.

(** The arrays of one light curve have one length. *)
Definition paired (inp : input) : Prop :=
  length (flux_cut inp) = length (t_cut inp)
  /\ match transit inp with
     | Some (t_transit_mask, flux_transit_mask) =>
         length t_transit_mask = length (t_cut inp)
     | None => True
     end.

Definition non_decreasing (a : list float) : Prop :=
  forall i x y, a !! i = Some x -> a !! Datatypes.S i = Some y ->
                PrimFloat.leb x y = true.

(** The number of points of the section [low:high] of the input. *)
Definition section_points (inp : input) (c : lowess_call) : Z :=
  Z.of_nat (length (np.slice (seg_low c) (seg_high c) (t_cut inp))).

(** What holds of the loop variables after the iterations [0 .. i-1]. *)
Definition loop_inv (lowess : Q -> list float -> list float -> list float)
    (inp : input) (i : nat) (st : state) : Prop :=
  (low_bound st <= i)%nat
  /\ time_from_lowess_detrend st = take (low_bound st) (t_cut inp)
  /\ tiles 0 (calls st) (low_bound st)
  /\ Forall (call_for inp) (calls st)
  /\ Forall (fun c => effective_n_bins inp <= section_points inp c) (calls st)
  /\ full_lowess_flux st = concat (map (trend lowess) (calls st)).

(** A smoother to run the block with: the flat trend 1. *)
Definition flat_lowess (_ : Q) (_ exog : list float) : list float :=
  map (fun _ => 1%float) exog.

(** [time_diff[i] > 0.1], the test of the loop, for [i] in range. *)
Definition is_gap (inp : input) (i : nat) : bool :=
  match np.diff (t_cut inp) !! i with
  | Some d => PrimFloat.ltb gap_threshold d
  | None => false
  end.

(** The residuals are those of the calls made so far. *)
Definition residual_inv (lowess : Q -> list float -> list float -> list float)
    (inp : input) (st : state) : Prop :=
  residual_flux_lowess st
  = concat (map (section_residuals lowess inp) (calls st)).

End Detrend.

(** ** [clean_tess_lc] *)

(** [l[i] = x] on a Python list. *)
Definition setitem {A : Type} (l : list A) (i : nat) (x : A) : result (list A) :=
  if decide (i < length l)%nat then Ok (<[i := x]> l) else Raise IndexError.

Module Clean.

Section WithPickles.

(** [bad_times k]: the array unpickled from ['s{k}_bad_times.pkl']. *)
Variable bad_times : Z -> list float.

(** [for i in range(len(time)): <body with time[i]>]. *)
Definition over_samples (time : list float)
    (body : float -> nat -> list bool -> result (list bool))
    (for_removal : list bool) : result (list bool) :=
  for_range (length time)
    (fun i fr => x ← np.index time i; body x i fr) for_removal.

Definition sector3_body (x : float) (i : nat) (fr : list bool)
  : result (list bool) :=
  if PrimFloat.ltb x 1385.8966%float then setitem fr i true
  else if PrimFloat.ltb 1406.2925%float x then setitem fr i true
  else if PrimFloat.ltb 1395.4800%float x && PrimFloat.ltb x 1396.6050%float
       then setitem fr i true
  else Ok fr.

Definition sector4_body (x : float) (i : nat) (fr : list bool)
  : result (list bool) :=
  if PrimFloat.ltb 1418.53691%float x && PrimFloat.ltb x 1421.21168%float
  then setitem fr i true
  else Ok fr.

Definition sector15_body (x : float) (i : nat) (fr : list bool)
  : result (list bool) :=
  if PrimFloat.ltb 1737.3%float x then setitem fr i true else Ok fr.

Definition sector18_body (x : float) (i : nat) (fr : list bool)
  : result (list bool) :=
  fr1 ← (if PrimFloat.ltb x 1791.5%float then setitem fr i true else Ok fr);
  if PrimFloat.ltb 1813.48%float x then setitem fr1 i true else Ok fr1.

(** The [if sector == 1: ... elif sector == 19: ...] chain: the value of
    [mom_dumps] ([None] when no branch binds it) and [for_removal]. *)
Definition sector_branch (sector : Z) (time : list float)
    (for_removal : list bool)
  : result (option (list float) * list bool) :=
  if sector =? 1 then Ok (Some (bad_times 1), for_removal)
  else if sector =? 2 then Ok (Some (bad_times 2), for_removal)
  else if sector =? 3 then
    fr ← over_samples time sector3_body for_removal;
    Ok (Some (bad_times 3), fr)
  else if sector =? 4 then
    fr ← over_samples time sector4_body for_removal;
    Ok (Some (bad_times 4), fr)
  else if sector =? 5 then Ok (Some (bad_times 5), for_removal)
  else if sector =? 6 then Ok (Some (bad_times 6), for_removal)
  else if sector =? 7 then Ok (Some (bad_times 7), for_removal)
  else if sector =? 8 then Ok (Some (bad_times 8), for_removal)
  else if sector =? 9 then Ok (Some (bad_times 9), for_removal)
  else if sector =? 10 then Ok (Some (bad_times 10), for_removal)
  else if sector =? 11 then Ok (Some (bad_times 11), for_removal)
  else if sector =? 12 then Ok (Some (bad_times 12), for_removal)
  else if sector =? 13 then Ok (Some (bad_times 13), for_removal)
  else if sector =? 14 then Ok (Some (bad_times 14), for_removal)
  else if sector =? 15 then
    fr ← over_samples time sector15_body for_removal;
    Ok (Some (bad_times 15), fr)
  else if sector =? 16 then Ok (Some (bad_times 16), for_removal)
  else if sector =? 17 then Ok (Some (bad_times 17), for_removal)
  else if sector =? 18 then
    fr ← over_samples time sector18_body for_removal;
    Ok (Some (bad_times 18), fr)
  else if sector =? 19 then Ok (Some (bad_times 19), for_removal)
  else Ok (None, for_removal).

(** [if abs(time[j] - i) < 0.015: for_removal[j] = True]. *)
Definition dump_body (i : float) (x : float) (j : nat) (fr : list bool)
  : result (list bool) :=
  if PrimFloat.ltb (PrimFloat.abs (PrimFloat.sub x i)) 0.015%float
  then setitem fr j true
  else Ok fr.

(** The removal mask: [for_removal] just before [np.array(for_removal)]. *)
Definition removal_mask (time : list float) (sector : Z)
  : result (list bool) :=
  let for_removal := replicate (length time) false in
  '(mom_dumps, for_removal) ← sector_branch sector time for_removal;
  mom_dumps ← match mom_dumps with
              | Some m => Ok m
              | None => Raise UnboundLocalError
              end;
  for_each (fun i fr => over_samples time (dump_body i) fr)
    mom_dumps for_removal.

Definition clean_tess_lc (time flux flux_err : list float) (sector : Z)
  : result (list float * list float * list float) :=
  for_removal ← removal_mask time sector;
  clean_time ← np.index_not time for_removal;
  clean_flux ← np.index_not flux for_removal;
  clean_flux_err ← np.index_not flux_err for_removal;
  Ok (clean_time, clean_flux, clean_flux_err).

End WithPickles.

(** A loop body that returns and leaves the length of the mask alone. *)
Definition keeps_length
    (body : float -> nat -> list bool -> result (list bool)) : Prop :=
  forall x i fr, (i < length fr)%nat ->
                 exists fr', body x i fr = Ok fr' /\ length fr' = length fr.

(** Pickles to run the function with: one bad time, 1.5, in sector 1. *)
Definition sample_pickles (k : Z) : list float :=
  if k =? 1 then [1.5%float] else [].

End Clean.

(** ** [bin] *)

Module Bin.

(** [np.array_split(ary, sections)] for an int [sections]: [ValueError]
    unless [sections > 0]; otherwise the first [len % sections] parts have
    [len // sections + 1] entries and the others [len // sections], cut
    at the running sums of these sizes. *)
Definition section_sizes (ntotal nsections : nat) : list nat :=
  replicate (ntotal mod nsections) (ntotal / nsections + 1)%nat
  ++ replicate (nsections - ntotal mod nsections) (ntotal / nsections)%nat.

Fixpoint sub_arys {A : Type} (st : nat) (sizes : list nat) (ary : list A)
  : list (list A) :=
  match sizes with
  | [] => []
  | k :: sizes' => np.slice st (st + k) ary :: sub_arys (st + k) sizes' ary
  end.

Definition array_split {A : Type} (ary : list A) (sections : Z)
  : result (list (list A)) :=
  if sections <=? 0 then Raise ValueError
  else Ok (sub_arys 0 (section_sizes (length ary) (Z.to_nat sections)) ary).

(** [a[idx]] for an array of indices. *)
Fixpoint take_indices {A : Type} (a : list A) (idx : list nat)
  : result (list A) :=
  match idx with
  | [] => Ok []
  | i :: idx' => x ← np.index a i; xs ← take_indices a idx'; Ok (x :: xs)
  end.

(** [a // b] on ints. *)
Definition floor_divide (a b : Z) : result Z :=
  if b =? 0 then Raise ZeroDivisionError else Ok (a / b).

Section WithStatistics.

(** [np.nanmean] and [np.nanmedian]. *)
Variables nanmean nanmedian : list float -> float.

(** [[methodf(a[idx]) for idx in indexes]]. *)
Fixpoint summarise (methodf : list float -> float) (a : list float)
    (indexes : list (list nat)) : result (list float) :=
  match indexes with
  | [] => Ok []
  | idx :: indexes' =>
      sel ← take_indices a idx;
      rest ← summarise methodf a indexes';
      Ok (methodf sel :: rest)
  end.

(** The local [indexes] of [bin]. *)
Definition bin_indexes (time flux : list float) (binsize : Z)
  : result (list (list nat)) :=
  n_bins ← floor_divide (Z.of_nat (length flux)) binsize;
  array_split (seq 0 (length time)) n_bins.

Definition bin (time flux : list float) (binsize : Z) (method : string)
  : result (list float * list float) :=
  if negb (String.eqb method "mean" || String.eqb method "median")
  then Raise ValueError
  else
    let methodf := if String.eqb method "mean" then nanmean else nanmedian in
    indexes ← bin_indexes time flux binsize;
    binned_time ← summarise methodf time indexes;
    binned_flux ← summarise methodf flux indexes;
    Ok (binned_time, binned_flux).

End WithStatistics.

(** The entries of [a] at the indices [idx]. *)
Definition entries_at {A : Type} (a : list A) (idx : list nat) : list A :=
  omap (fun i => a !! i) idx.

(** A statistic to run [bin] with: the first entry of the bin. *)
Definition first_entry (a : list float) : float := hd 0%float a.

End Bin.

(** ** [ffi_lowess_detrend]: the whole call *)

Module Pipeline.

Record lightcurve : Type := {
  lc_time : list float;
  lc_flux : list float;
  lc_flux_err : list float
}.

(** [BoxLeastSquares(...).autopower(...)]. *)
Record bls_results : Type := {
  bls_period : list float;
  bls_power : list float;
  bls_transit_time : list float;
  bls_duration : list float
}.

(** What a call leaves behind: lines printed, figures saved, rows and files
    written. *)
Inductive event : Type :=
  | Printed (line : string)
  | SavedFigure (path : string)
  | AppendedRow (path : string) (target : string) (sect : Z) (row : list float)
  | WroteLightCurve (path : string).

Definition world : Type := list event.

(** The functions of other modules and libraries the call uses; one that
    can fail returns a [result].  The numerical ones and the reading of the
    input light curve are functions of their arguments; what the two writers
    of csv files do depends on the files that are there, that is, on what
    earlier calls left in the [world]. *)
Record library : Type := {
  (** [fits_handling.get_lc_from_fits(filename, source, save_path)] *)
  get_lc_from_fits : string -> string -> string -> result (lightcurve * string * Z);
  (** lines 57-74: the downloads of [multi_sector] for a bound [target_ID] *)
  multi_sector_lc : string -> list Z -> result lightcurve;
  (** ['s{k}_bad_times.pkl'] *)
  bad_times : Z -> list float;
  (** lines 139-151: [1/freq[argmax(LombScargle(t, f).power(freq))]] *)
  rotation_period : list float -> list float -> result float;
  (** [np.median] *)
  median : list float -> float;
  (** [find_peaks(x, prominence = p, width = 15)[0]] *)
  find_peaks : list float -> float -> result (list nat);
  (** [np.mod] on float64 *)
  fmod : float -> float -> float;
  (** [interpolate.interp1d(x, y, kind = 'quadratic')(x_new)] *)
  interp1d_quadratic : list float -> list float -> list float -> result (list float);
  (** [np.argsort] *)
  argsort : list float -> list nat;
  (** [sm.nonparametric.lowess(endog, exog, frac)[:,1]] *)
  lowess : Q -> list float -> list float -> list float;
  (** [BoxLeastSquares(t, y).autopower(durations, minimum_n_transit = 3,
      frequency_factor = 1.0)] *)
  bls_autopower : list float -> list float -> result bls_results;
  (** [np.argmax] *)
  argmax : list float -> result nat;
  (** [model.compute_stats(period, duration, t0)['transit_times']] *)
  bls_transit_times :
    list float -> list float -> float -> float -> float -> result (list float);
  (** [scipy.signal.find_peaks(power, width = 5, distance = 10)[0]] *)
  find_periodogram_peaks : list float -> result (list nat);
  (** [np.max] *)
  amax : list float -> float;
  (** [with open(path, 'a') as f: csv.writer(f).writerow(row)] *)
  append_row : world -> string -> string -> Z -> list float -> result unit;
  (** [TessLightCurve(time, flux, flux_err).to_csv(path)] *)
  write_detrended_lc :
    world -> string -> list float -> list float -> list float -> result unit;
  (** ['{}'.format(x)] for a float *)
  str_of_float : float -> string
}.

(** The parameters the body reads ([target_ID_list], [use_TESSflatten],
    [binned], [injected_rp], [injected_per] and [single_target_ID] are never
    read).  [multi_sector] is [None] for [False]; [injected_planet] is the
    truth of [injected_planet != False]. *)
Record args : Type := {
  save_path : string;
  arg_sector : Z;
  pipeline : string;
  multi_sector : option (list Z);
  use_peak_cut : bool;
  transit_mask : bool;
  injected_planet : bool;
  detrending : string;
  n_bins : Z;
  filename : string
}.

(** The local variables that are read on some path before every path has
    bound them ([None]: not bound yet), with [sector] and [lc_30min]. *)
Record locals : Type := {
  target_ID : option string;
  sector : Z;
  lc_30min : lightcurve;
  t_cut : option (list float);
  BLS_flux : option (list float);
  phase : option (list float);
  epoch : option float;
  period : option float
}.

(** Statements: they read and write the locals, append to the world, and
    return or raise; an exception keeps the locals bound so far. *)
Definition M (A : Type) : Type := locals -> world -> result A * locals * world.

#[global] Instance M_ret : MRet M := fun A a l w => (Ok a, l, w).
#[global] Instance M_bind : MBind M := fun A B k m l w =>
  match m l w with
  | (Ok a, l', w') => k a l' w'
  | (Raise e, l', w') => (Raise e, l', w')
  end.

Definition lift {A : Type} (r : result A) : M A := fun l w => (r, l, w).

Definition emit (e : event) : M unit := fun l w => (Ok tt, l, w ++ [e]).

(** A library call that sees the files that are there. *)
Definition in_world {A : Type} (f : world -> result A) : M A :=
  fun l w => (f w, l, w).

Definition get : M locals := fun l w => (Ok l, l, w).

Definition modify (f : locals -> locals) : M unit := fun l w => (Ok tt, f l, w).

(** Reading a local: [UnboundLocalError] when it is not bound. *)
Definition read {A : Type} (var : locals -> option A) : M A := fun l w =>
  match var l with
  | Some a => (Ok a, l, w)
  | None => (Raise UnboundLocalError, l, w)
  end.

(** [try: body except: handler]. *)
Definition try_except {A : Type} (body : M A) (handler : exn -> M A) : M A :=
  fun l w =>
    match body l w with
    | (Ok a, l', w') => (Ok a, l', w')
    | (Raise e, l', w') => handler e l' w'
    end.

Definition set_target_ID (x : string) (l : locals) : locals :=
  {| target_ID := Some x; sector := sector l; lc_30min := lc_30min l;
     t_cut := t_cut l; BLS_flux := BLS_flux l; phase := phase l;
     epoch := epoch l; period := period l |}.

Definition set_sector (x : Z) (l : locals) : locals :=
  {| target_ID := target_ID l; sector := x; lc_30min := lc_30min l;
     t_cut := t_cut l; BLS_flux := BLS_flux l; phase := phase l;
     epoch := epoch l; period := period l |}.

Definition set_lc_30min (x : lightcurve) (l : locals) : locals :=
  {| target_ID := target_ID l; sector := sector l; lc_30min := x;
     t_cut := t_cut l; BLS_flux := BLS_flux l; phase := phase l;
     epoch := epoch l; period := period l |}.

Definition set_t_cut (x : list float) (l : locals) : locals :=
  {| target_ID := target_ID l; sector := sector l; lc_30min := lc_30min l;
     t_cut := Some x; BLS_flux := BLS_flux l; phase := phase l;
     epoch := epoch l; period := period l |}.

Definition set_BLS_flux (x : list float) (l : locals) : locals :=
  {| target_ID := target_ID l; sector := sector l; lc_30min := lc_30min l;
     t_cut := t_cut l; BLS_flux := Some x; phase := phase l;
     epoch := epoch l; period := period l |}.

Definition set_phase (x : list float) (l : locals) : locals :=
  {| target_ID := target_ID l; sector := sector l; lc_30min := lc_30min l;
     t_cut := t_cut l; BLS_flux := BLS_flux l; phase := Some x;
     epoch := epoch l; period := period l |}.

Definition set_epoch (x : float) (l : locals) : locals :=
  {| target_ID := target_ID l; sector := sector l; lc_30min := lc_30min l;
     t_cut := t_cut l; BLS_flux := BLS_flux l; phase := phase l;
     epoch := Some x; period := period l |}.

Definition set_period (x : float) (l : locals) : locals :=
  {| target_ID := target_ID l; sector := sector l; lc_30min := lc_30min l;
     t_cut := t_cut l; BLS_flux := BLS_flux l; phase := phase l;
     epoch := epoch l; period := Some x |}.

(** The locals on entry. *)
Definition entry (a : args) : locals :=
  {| target_ID := None; sector := arg_sector a;
     lc_30min := {| lc_time := []; lc_flux := []; lc_flux_err := [] |};
     t_cut := None; BLS_flux := None; phase := None;
     epoch := None; period := None |}.

(** [a[-k]] for [k >= 1]. *)
Definition index_from_end {A : Type} (a : list A) (k : nat) : result A :=
  if decide (k <= length a)%nat then np.index a (length a - k) else Raise IndexError.

(** [np.where(a == v)[0]]. *)
Definition where_equal (a : list float) (v : float) : list nat :=
  List.filter (fun i => match a !! i with
                        | Some x => PrimFloat.eqb x v
                        | None => false
                        end) (seq 0 (length a)).

(** [print(line)] for each line. *)
Fixpoint print_lines (lines : list string) : M unit :=
  match lines with
  | [] => mret tt
  | line :: rest => _ ← emit (Printed line); print_lines rest
  end.

Section WithLibrary.

Variable L : library.

(** [np.mod(t - epoch - period/2, period)/period]. *)
Definition fold_phase (t : list float) (epoch period : float) : list float :=
  map (fun x =>
         PrimFloat.div
           (fmod L (PrimFloat.sub (PrimFloat.sub x epoch) (PrimFloat.div period 2%float))
              period)
           period) t.

(** Lines 54-125: the light curve of the target. *)
Definition download (a : args) : M unit :=
  _ ← modify (set_lc_30min {| lc_time := []; lc_flux := []; lc_flux_err := [] |});
  match multi_sector a with
  | Some sectors =>
      tid ← read target_ID;
      lc ← lift (multi_sector_lc L tid sectors);
      modify (set_lc_30min lc)
  | None =>
      try_except
        (if String.eqb (pipeline a) "CDIPS" then
           '(lc, tid, sec) ← lift (get_lc_from_fits L (filename a) (pipeline a)
                                     (save_path a));
           _ ← modify (fun l => set_sector sec (set_target_ID tid (set_lc_30min lc l)));
           emit (Printed tid)
         else emit (Printed "Invalid pipeline"))
        (fun _ =>
           tid ← read target_ID;
           emit (Printed ("Lightcurve for " +:+ tid +:+ " not available")))
  end.

(** Lines 128-132. *)
Definition clean (a : args) : M unit :=
  match multi_sector a with
  | None =>
      l ← get;
      tid ← read target_ID;
      '(clean_time, clean_flux, clean_flux_err) ←
        lift (Clean.clean_tess_lc (bad_times L) (lc_time (lc_30min l))
                (lc_flux (lc_30min l)) (lc_flux_err (lc_30min l)) (sector l));
      modify (set_lc_30min {| lc_time := clean_time; lc_flux := clean_flux;
                              lc_flux_err := clean_flux_err |})
  | Some _ => mret tt
  end.

(** Lines 287-299: the samples within 0.1 of a peak or trough. *)
Definition mark_near (time : list float) (around : list nat) (near : list bool)
  : result (list bool) :=
  for_each
    (fun i near =>
       for_range (length time)
         (fun j near =>
            tj ← np.index time j;
            ti ← np.index time i;
            if PrimFloat.ltb (PrimFloat.abs (PrimFloat.sub tj ti)) 0.1%float
            then setitem near j true
            else Ok near)
         near)
    around near.

(** Lines 266-341: [(t_cut, flux_cut, flux_err_cut)], with [combined_flux];
    [t_cut] is bound here. *)
Definition peak_cut (a : args) (tid : string) (lc : lightcurve)
  : M (list float * list float * list float * list float) :=
  let combined_flux :=
    map (fun x => PrimFloat.div x (median L (lc_flux lc))) (lc_flux lc) in
  if use_peak_cut a then
    peaks ← lift (find_peaks L combined_flux 0.001%float);
    troughs ← lift (find_peaks L (map PrimFloat.opp combined_flux) (-0.001)%float);
    flux_peaks ← lift (Bin.take_indices combined_flux peaks);
    flux_troughs ← lift (Bin.take_indices combined_flux troughs);
    p0 ← lift (np.index flux_peaks 0);
    q0 ← lift (np.index flux_troughs 0);
    let amplitude_peaks :=
      PrimFloat.div
        (PrimFloat.add (PrimFloat.sub p0 1%float) (PrimFloat.sub 1%float q0))
        2%float in
    _ ← emit (Printed ("Absolute amplitude of main variability = "
                       +:+ str_of_float L amplitude_peaks));
    _ ← lift (plt.scatter (lc_time lc) combined_flux);
    _ ← lift (Bin.take_indices (lc_time lc) peaks);
    _ ← lift (Bin.take_indices (lc_time lc) troughs);
    near ← lift (mark_near (lc_time lc) peaks
                   (replicate (length combined_flux) false));
    near ← lift (mark_near (lc_time lc) troughs near);
    t ← lift (np.index_not (lc_time lc) near);
    _ ← modify (set_t_cut t);
    f ← lift (np.index_not combined_flux near);
    e ← lift (np.index_not (lc_flux_err lc) near);
    _ ← lift (plt.scatter t f);
    mret (t, f, e, combined_flux)
  else
    _ ← modify (set_t_cut (lc_time lc));
    _ ← emit (Printed "Flux cut skipped");
    mret (lc_time lc, combined_flux, lc_flux_err lc, combined_flux).

(** Lines 345-381: [Some (t_transit_mask, flux_transit_mask)] when
    [transit_mask == True]. *)
Definition apply_transit_mask (a : args) (t_cut flux_cut flux_err_cut : list float)
  : M (option (list float * list float)) :=
  if transit_mask a then
    let period := 8.138%float in
    let epoch := 1332.31%float in
    let duration := 0.15%float in
    _ ← modify (fun l => set_epoch epoch (set_period period l));
    let phase := fold_phase t_cut epoch period in
    _ ← modify (set_phase phase);
    near_transit ←
      lift (for_range (length t_cut)
              (fun i near =>
                 p ← np.index phase i;
                 if PrimFloat.ltb (PrimFloat.abs (PrimFloat.sub p 0.5%float))
                      (PrimFloat.div duration period)
                 then setitem near i true
                 else Ok near)
              (replicate (length flux_cut) false));
    t_masked ← lift (np.index_not t_cut near_transit);
    flux_masked ← lift (np.index_not flux_cut near_transit);
    _ ← lift (np.index_not flux_err_cut near_transit);
    t_new ← lift (np.index_mask t_cut near_transit);
    flux_new ← lift (interp1d_quadratic L t_masked flux_masked t_new);
    _ ← lift (plt.scatter t_cut flux_cut);
    _ ← lift (plt.scatter t_new flux_new);
    let t_transit_mask := np.concatenate t_masked t_new in
    let flux_transit_mask := np.concatenate flux_masked flux_new in
    let sorted_order := argsort L t_transit_mask in
    t_sorted ← lift (Bin.take_indices t_transit_mask sorted_order);
    flux_sorted ← lift (Bin.take_indices flux_transit_mask sorted_order);
    mret (Some (t_sorted, flux_sorted))
  else mret None.

(** [fig.savefig(save_path + '{} - ' + name)] for each name. *)
Fixpoint save_figures (a : args) (tid : string) (names : list string) : M unit :=
  match names with
  | [] => mret tt
  | name :: rest =>
      _ ← emit (SavedFigure (save_path a +:+ tid +:+ " - " +:+ name));
      save_figures a tid rest
  end.

(** Lines 387-517: [BLS_flux].  What the [lowess_partial] block printed and
    saved before it returned or raised is in the world either way. *)
Definition detrend (a : args) (tid : string) (t_cut flux_cut combined_flux : list float)
    (transit : option (list float * list float)) : M (list float) :=
  full ←
    (if String.eqb (detrending a) "lowess_full" then
       let '(en, ex) := match transit with
                        | Some (t_transit_mask, flux_transit_mask) =>
                            (flux_transit_mask, t_transit_mask)
                        | None => (flux_cut, t_cut)
                        end in
       lowess_flux ← lift (Detrend.sm_lowess (lowess L) (3 # 100) en ex);
       _ ← lift (plt.scatter t_cut flux_cut);
       r ← lift (np.divide flux_cut lowess_flux);
       _ ← lift (plt.scatter t_cut r);
       mret (Some r)
     else mret None);
  partial ←
    (if String.eqb (detrending a) "lowess_partial" then
       let '(r, out) :=
         Detrend.run (lowess L)
           {| Detrend.t_cut := t_cut; Detrend.flux_cut := flux_cut;
              Detrend.transit := transit;
              Detrend.pipeline := pipeline a;
              Detrend.n_bins := n_bins a;
              Detrend.injected_planet := injected_planet a |} in
       _ ← print_lines (Detrend.stdout out);
       _ ← save_figures a tid (Detrend.figures out);
       _ ← lift r;
       _ ← lift (plt.scatter (Detrend.time_from_lowess_detrend out)
                   (Detrend.residual_flux_lowess out));
       _ ← (if injected_planet a then lift (Raise NameError)
            else emit (SavedFigure (save_path a +:+ tid
                                    +:+ " lc after LOWESS partial lc detrending.pdf")));
       mret (Some (Detrend.residual_flux_lowess out))
     else mret full);
  match partial with
  | Some residual_flux_lowess => mret residual_flux_lowess
  | None => mret combined_flux
  end.

(** [phase_fold_plot] with [binned = False]. *)
Definition phase_fold_plot (a : args) (tid : string) (t lc : list float)
    (period epoch : float) : M unit :=
  let phase := fold_phase t epoch period in
  _ ← lift (plt.scatter phase lc);
  emit (SavedFigure (save_path a +:+ tid +:+ " - Phase folded by "
                     +:+ str_of_float L period +:+ " days.pdf")).

(** The second and third highest periodogram peaks, lines 562-576. *)
Definition lesser_peak (r : bls_results) (sorted_peak_powers : list float) (k : nat)
  : result (float * float) :=
  v ← index_from_end sorted_peak_powers k;
  i ← np.index (where_equal (bls_power r) v) 0;
  p ← np.index (bls_period r) i;
  t0 ← np.index (bls_transit_time r) i;
  Ok (p, t0).

(** Lines 513-653: the search for a period, the plots, and the binding of
    [epoch], [period] and [phase]; the row for the table is returned. *)
Definition search (a : args) (tid : string) (l0 : locals)
    (p_rot : float) (t_cut BLS_flux combined_flux : list float)
  : M (list float) :=
  r ← lift (bls_autopower L t_cut BLS_flux);
  index ← lift (argmax L (bls_power r));
  period ← lift (np.index (bls_period r) index);
  _ ← modify (set_period period);
  t0 ← lift (np.index (bls_transit_time r) index);
  duration ← lift (np.index (bls_duration r) index);
  transit_times ← lift (bls_transit_times L t_cut BLS_flux period duration t0);
  _ ← emit (Printed "transit_info");
  epoch ← lift (np.index transit_times 0);
  _ ← modify (set_epoch epoch);
  _ ← lift (plt.plot (bls_period r) (bls_power r));
  _ ← emit (SavedFigure (save_path a +:+ tid +:+ " - BLS Periodogram after "
                         +:+ detrending a +:+ " detrending.pdf"));
  all_peaks ← lift (find_periodogram_peaks L (bls_power r));
  all_peak_powers ← lift (Bin.take_indices (bls_power r) all_peaks);
  sorted_peak_powers ←
    lift (Bin.take_indices all_peak_powers (argsort L all_peak_powers));
  '(period_2, t0_2) ← lift (lesser_peak r sorted_peak_powers 2);
  '(period_3, t0_3) ← lift (lesser_peak r sorted_peak_powers 3);
  _ ← phase_fold_plot a tid t_cut BLS_flux period t0;
  _ ← phase_fold_plot a tid t_cut BLS_flux period_2 t0_2;
  _ ← phase_fold_plot a tid t_cut BLS_flux period_3 t0_3;
  _ ← lift (plt.scatter (lc_time (lc_30min l0)) combined_flux);
  _ ← lift (plt.scatter t_cut BLS_flux);
  _ ← lift (plt.plot (bls_period r) (bls_power r));
  _ ← modify (set_epoch t0);
  _ ← modify (set_period period);
  _ ← modify (set_phase (fold_phase t_cut t0 period));
  _ ← lift (plt.scatter (fold_phase t_cut t0 period) BLS_flux);
  _ ← emit (SavedFigure (save_path a +:+ tid +:+ " - Full eyeballing fig.pdf"));
  mret [amax L (bls_power r); period; t0; period_2; period_3; p_rot].

(** Lines 658-703: the row appended to the table of periods and the
    detrended light curve written out.  Both writers see the files that
    earlier calls left. *)
Definition save (a : args) (tid : string) (l0 : locals)
    (t_cut BLS_flux : list float) (row : list float) : M unit :=
  _ ← in_world (fun w => append_row L w (save_path a +:+ "Period_info_table.csv")
                           tid (sector l0) row);
  _ ← emit (AppendedRow (save_path a +:+ "Period_info_table.csv") tid (sector l0) row);
  _ ← in_world (fun w => write_detrended_lc L w
                           (save_path a +:+ "Detrended_lcs/" +:+ tid
                            +:+ "_detrended_lc.csv")
                           t_cut BLS_flux (lc_flux_err (lc_30min l0)));
  emit (WroteLightCurve
          (save_path a +:+ "Detrended_lcs/" +:+ tid +:+ "_detrended_lc.csv")).

(** The body of the outer [try]. *)
Definition body (a : args) : M unit :=
  _ ← download a;
  _ ← clean a;
  l ← get;
  p_rot ← lift (rotation_period L (lc_time (lc_30min l)) (lc_flux (lc_30min l)));
  tid ← read target_ID;
  _ ← emit (Printed ("Rotation Period = " +:+ str_of_float L p_rot +:+ "d"));
  '(t, flux_cut, flux_err_cut, combined_flux) ← peak_cut a tid (lc_30min l);
  transit ← apply_transit_mask a t flux_cut flux_err_cut;
  bls ← detrend a tid t flux_cut combined_flux transit;
  _ ← modify (set_BLS_flux bls);
  row ← search a tid l p_rot t bls combined_flux;
  save a tid l t bls row.

(** The handlers of the outer [try]. *)
Definition handler (e : exn) : M unit :=
  match e with
  | RuntimeError =>
      tid ← read target_ID;
      emit (Printed ("No DiffImage lc exists for " +:+ tid))
  | _ =>
      tid ← read target_ID;
      emit (Printed ("Some other error for " +:+ tid))
  end.

Definition ffi_lowess_detrend (a : args)
  : M (list float * list float * list float * float * float) :=
  _ ← try_except (body a) handler;
  t ← read t_cut;
  b ← read BLS_flux;
  p ← read phase;
  e ← read epoch;
  per ← read period;
  mret (t, b, p, e, per).

(** One call, from the world [w]: what it returns or raises, and the world
    after it. *)
Definition call (a : args) (w : world)
  : result (list float * list float * list float * float * float) * world :=
  let '(r, _, w') := ffi_lowess_detrend a (entry a) w in (r, w').

End WithLibrary.

(** A statement whose outcome and locals do not depend on the world. *)
Definition oblivious {A : Type} (m : M A) : Prop :=
  forall l w1 w2, (m l w1).1 = (m l w2).1.

(** A statement that leaves [target_ID] as it is. *)
Definition keeps_target {A : Type} (m : M A) : Prop :=
  forall l w, target_ID (m l w).1.2 = target_ID l.

(** Two runs of a statement end with the same locals, and with the same
    outcome unless [target_ID] is bound. *)
Definition agree {A : Type} (o1 o2 : result A * locals * world) : Prop :=
  o1.1.2 = o2.1.2 /\ (o1.1.1 = o2.1.1 \/ target_ID o1.1.2 <> None).

(** A statement whose runs from any two worlds agree, from any locals or
    from locals in which [target_ID] is bound. *)
Definition steady {A : Type} (m : M A) : Prop :=
  forall l w1 w2, agree (m l w1) (m l w2).

Definition steady_once_bound {A : Type} (m : M A) : Prop :=
  forall l w1 w2, target_ID l <> None -> agree (m l w1) (m l w2).

End Pipeline.

(** ** Light curves to run the block on *)

Module Samples.

Import Detrend.

(** Three samples a day apart, [n_bins = 2]: the gap after the first
    sample closes a one-point section. *)
Definition short_first : input :=
  {| t_cut := [0%float; 1%float; 2%float];
     flux_cut := [10%float; 11%float; 12%float];
     transit := None; pipeline := "CDIPS"; n_bins := 2;
     injected_planet := false |}.

(** Two pairs of samples a day apart, [n_bins = 2]. *)
Definition two_pairs : input :=
  {| t_cut := [0%float; 0.0625%float; 1%float; 1.0625%float];
     flux_cut := [10%float; 11%float; 12%float; 13%float];
     transit := None; pipeline := "CDIPS"; n_bins := 2;
     injected_planet := false |}.

(** Three evenly spaced samples with the default [n_bins = 30]. *)
Definition three_points : input :=
  {| t_cut := [0%float; 0.0625%float; 0.125%float];
     flux_cut := [10%float; 11%float; 12%float];
     transit := None; pipeline := "CDIPS"; n_bins := 30;
     injected_planet := false |}.

(** One sample, a gap of a day, then three samples, [n_bins = 2]: the gap
    closes a one-point section and the final section has all four. *)
Definition short_then_long : input :=
  {| t_cut := [0%float; 1%float; 1.0625%float; 1.125%float];
     flux_cut := [10%float; 11%float; 12%float; 13%float];
     transit := None; pipeline := "CDIPS"; n_bins := 2;
     injected_planet := false |}.

(** One sample, a gap of a day, then two samples, [n_bins = 2]. *)
Definition short_then_pair : input :=
  {| t_cut := [0%float; 1%float; 1.0625%float];
     flux_cut := [10%float; 11%float; 12%float];
     transit := None; pipeline := "CDIPS"; n_bins := 2;
     injected_planet := false |}.


(** [short_first]: the final section has one point and the smoother rejects
    the fraction 2/1. *)
Definition short_first_out : state :=
  {| low_bound := 2;
     residual_flux_lowess := [10%float; 11%float];
     time_from_lowess_detrend := [0%float; 1%float];
     full_lowess_flux := [1%float; 1%float];
     calls :=
       [{| seg_low := 0; seg_high := 2; frac := 2 # 2;
           endog := [10%float; 11%float]; exog := [0%float; 1%float] |};
        {| seg_low := 2; seg_high := 3; frac := 2 # 1;
           endog := [12%float]; exog := [2%float] |}];
     stdout := ["Skipped one gap"%string];
     figures := [] |}.

(** [three_points]: the smoother rejects the fraction 30/3. *)
Definition three_points_out : state :=
  {| low_bound := 0;
     residual_flux_lowess := [];
     time_from_lowess_detrend := [];
     full_lowess_flux := [];
     calls :=
       [{| seg_low := 0; seg_high := 3; frac := 30 # 3;
           endog := [10%float; 11%float; 12%float];
           exog := [0%float; 0.0625%float; 0.125%float] |}];
     stdout := [];
     figures := [] |}.

Definition short_then_long_out : state :=
  {| low_bound := 0;
     residual_flux_lowess := [10%float; 11%float; 12%float; 13%float];
     time_from_lowess_detrend := [0%float; 1%float; 1.0625%float; 1.125%float];
     full_lowess_flux := [1%float; 1%float; 1%float; 1%float];
     calls :=
       [{| seg_low := 0; seg_high := 4; frac := 2 # 4;
           endog := [10%float; 11%float; 12%float; 13%float];
           exog := [0%float; 1%float; 1.0625%float; 1.125%float] |}];
     stdout := ["Skipped one gap"%string];
     figures := [overplotted_figure] |}.

Definition short_then_pair_out : state :=
  {| low_bound := 0;
     residual_flux_lowess := [10%float; 11%float; 12%float];
     time_from_lowess_detrend := [0%float; 1%float; 1.0625%float];
     full_lowess_flux := [1%float; 1%float; 1%float];
     calls :=
       [{| seg_low := 0; seg_high := 3; frac := 2 # 3;
           endog := [10%float; 11%float; 12%float];
           exog := [0%float; 1%float; 1.0625%float] |}];
     stdout := ["Skipped one gap"%string];
     figures := [overplotted_figure] |}.

(** Four samples with their flux and flux error, for [clean_tess_lc]. *)
Definition four_times : list float := [1%float; 1.49%float; 1.51%float; 2%float].
Definition four_flux : list float := [10%float; 11%float; 12%float; 13%float].
Definition four_flux_err : list float :=
  [0.5%float; 0.25%float; 0.125%float; 0.0625%float].

(** Seven samples, for [bin]. *)
Definition seven_times : list float :=
  [1%float; 2%float; 3%float; 4%float; 5%float; 6%float; 7%float].
Definition seven_flux : list float :=
  [10%float; 11%float; 12%float; 13%float; 14%float; 15%float; 16%float].

Definition two_pairs_out : state :=
  {| low_bound := 2;
     residual_flux_lowess := [10%float; 11%float; 12%float; 13%float];
     time_from_lowess_detrend := [0%float; 0.0625%float; 1%float; 1.0625%float];
     full_lowess_flux := [1%float; 1%float; 1%float; 1%float];
     calls :=
       [{| seg_low := 0; seg_high := 2; frac := 2 # 2;
           endog := [10%float; 11%float]; exog := [0%float; 0.0625%float] |};
        {| seg_low := 2; seg_high := 4; frac := 2 # 2;
           endog := [12%float; 13%float]; exog := [1%float; 1.0625%float] |}];
     stdout := [];
     figures := [overplotted_figure] |}.

(** A library to run the whole call with: the light curve of ["ok.fits"]
    has three samples a day apart, every other file is missing, the searches
    return fixed small tables, the row is always appended, and [to_csv]
    refuses to overwrite a file that an earlier call wrote. *)
Definition toy_library : Pipeline.library :=
  {| Pipeline.get_lc_from_fits := fun filename _ _ =>
       if String.eqb filename "ok.fits"
       then Ok ({| Pipeline.lc_time := [1%float; 2%float; 3%float];
                   Pipeline.lc_flux := [10%float; 11%float; 12%float];
                   Pipeline.lc_flux_err := [0.5%float; 0.5%float; 0.5%float] |},
                "TIC 1"%string, 1)
       else Raise OtherError;
     Pipeline.multi_sector_lc := fun _ _ => Raise OtherError;
     Pipeline.bad_times := fun _ => [];
     Pipeline.rotation_period := fun _ _ => Ok 4%float;
     Pipeline.median := fun _ => 1%float;
     Pipeline.find_peaks := fun _ _ => Ok [];
     Pipeline.fmod := fun x _ => x;
     Pipeline.interp1d_quadratic := fun _ _ x_new => Ok x_new;
     Pipeline.argsort := fun x => seq 0 (length x);
     Pipeline.lowess := flat_lowess;
     Pipeline.bls_autopower := fun _ _ =>
       Ok {| Pipeline.bls_period := [2%float; 3%float; 5%float];
             Pipeline.bls_power := [7%float; 8%float; 9%float];
             Pipeline.bls_transit_time := [1%float; 1.5%float; 2%float];
             Pipeline.bls_duration := [0.5%float; 0.5%float; 0.5%float] |};
     Pipeline.argmax := fun _ => Ok 2%nat;
     Pipeline.bls_transit_times := fun _ _ _ _ t0 => Ok [t0];
     Pipeline.find_periodogram_peaks := fun _ => Ok [0%nat; 1%nat; 2%nat];
     Pipeline.amax := fun _ => 9%float;
     Pipeline.append_row := fun _ _ _ _ _ => Ok tt;
     Pipeline.write_detrended_lc := fun w path _ _ _ =>
       if existsb (fun e => match e with
                            | Pipeline.WroteLightCurve p => String.eqb p path
                            | _ => false
                            end) w
       then Raise OtherError else Ok tt;
     Pipeline.str_of_float := fun _ => "x"%string |}.

(** The call of the script's last loop, for one file, with [n_bins]. *)
Definition script_args_with (n_bins : Z) (filename : string) : Pipeline.args :=
  {| Pipeline.save_path := "out/";
     Pipeline.arg_sector := 1;
     Pipeline.pipeline := "CDIPS";
     Pipeline.multi_sector := None;
     Pipeline.use_peak_cut := false;
     Pipeline.transit_mask := false;
     Pipeline.injected_planet := false;
     Pipeline.detrending := "lowess_partial";
     Pipeline.n_bins := n_bins;
     Pipeline.filename := filename |}.

(** The call of the script's last loop, for one file. *)
Definition script_args (filename : string) : Pipeline.args :=
  {| Pipeline.save_path := "out/";
     Pipeline.arg_sector := 1;
     Pipeline.pipeline := "CDIPS";
     Pipeline.multi_sector := None;
     Pipeline.use_peak_cut := false;
     Pipeline.transit_mask := false;
     Pipeline.injected_planet := false;
     Pipeline.detrending := "lowess_partial";
     Pipeline.n_bins := 30;
     Pipeline.filename := filename |}.

End Samples.

(** ** Further notions for the detrending block *)

(** The number of indexes below [k] at which the loop sees a gap. *)
Definition gap_count (inp : Detrend.input) (k : nat) : nat :=
  length (List.filter (Detrend.is_gap inp) (seq 0 k)).

(** The index just after the last gap among the first [k] differences, 0
    when there is none. *)
Fixpoint last_boundary (inp : Detrend.input) (k : nat) : nat :=
  match k with
  | O => 0
  | Datatypes.S k' =>
      if Detrend.is_gap inp k' then Datatypes.S k' else last_boundary inp k'
  end.

(** The number of samples after the last gap of the light curve. *)
Definition points_after_last_gap (inp : Detrend.input) : Z :=
  Z.of_nat (length (Detrend.t_cut inp)
            - last_boundary inp (length (Detrend.t_cut inp) - 1)).

(** The two arrays of the transit mask, when there is one, have one
    length. *)
Definition mask_paired (inp : Detrend.input) : Prop :=
  match Detrend.transit inp with
  | Some (t_transit_mask, flux_transit_mask) =>
      length flux_transit_mask = length t_transit_mask
  | None => True
  end.

(** A light curve with a planet to inject (any value of [injected_planet]
    but [False]). *)
Definition with_injected_planet (inp : Detrend.input) : Detrend.input :=
  {| Detrend.t_cut := Detrend.t_cut inp;
     Detrend.flux_cut := Detrend.flux_cut inp;
     Detrend.transit := Detrend.transit inp;
     Detrend.pipeline := Detrend.pipeline inp;
     Detrend.n_bins := Detrend.n_bins inp;
     Detrend.injected_planet := true |}.

(** ** The [lowess_partial] block of [ffi_lowess_detrending_with_binning.py] *)

Module Binning.

(** [transit] is [Some (t_transit_mask, flux_transit_mask)] when
    [transit_mask == True]. *)
Record input : Type := {
  t_cut : list float;
  flux_cut : list float;
  transit : option (list float * list float)
}.

Record state : Type := {
  low_bound : nat;
  residual_flux_lowess : list float;
  time_from_lowess_detrend : list float;
  calls : list Detrend.lowess_call
}.

Section WithLowess.

Variable lowess : Q -> list float -> list float -> list float.

Definition initial : state :=
  {| low_bound := 0; residual_flux_lowess := [];
     time_from_lowess_detrend := []; calls := [] |}.

(** The arguments of the call for the section [low:high]: the bandwidth is
    20 points with the transit mask and 750 points without. *)
Definition lowess_args (inp : input) (low high : nat)
  : result (Q * list float * list float) :=
  let t_section := np.slice low high (t_cut inp) in
  let flux_section := np.slice low high (flux_cut inp) in
  match transit inp with
  | Some (t_transit_mask, flux_transit_mask) =>
      fr ← true_divide 20 (Z.of_nat (length t_section));
      Ok (fr, np.slice low high flux_transit_mask, np.slice low high t_transit_mask)
  | None =>
      fr ← true_divide 750 (Z.of_nat (length t_section));
      Ok (fr, flux_section, t_section)
  end.

(** The section [low:high], detrended and appended. *)
Definition detrend_section (inp : input) (low high : nat) (st : state)
  : result state :=
  let t_section := np.slice low high (t_cut inp) in
  let flux_section := np.slice low high (flux_cut inp) in
  '(fr, en, ex) ← lowess_args inp low high;
  lowess_flux_section ← Detrend.sm_lowess lowess fr en ex;
  _ ← plt.plot t_section lowess_flux_section;
  residuals_section ← np.divide flux_section lowess_flux_section;
  Ok {| low_bound := high;
        residual_flux_lowess :=
          np.concatenate (residual_flux_lowess st) residuals_section;
        time_from_lowess_detrend :=
          np.concatenate (time_from_lowess_detrend st) t_section;
        calls := calls st ++
          [{| Detrend.seg_low := low; Detrend.seg_high := high;
              Detrend.frac := fr; Detrend.endog := en; Detrend.exog := ex |}] |}.

(** The body of [for i in range(len(t_cut)-1)]: every gap closes a section. *)
Definition loop_body (inp : input) (time_diff : list float)
    (i : nat) (st : state) : result state :=
  d ← np.index time_diff i;
  if PrimFloat.ltb Detrend.gap_threshold d
  then detrend_section inp (low_bound st) (i + 1) st
  else Ok st.

Definition gap_loop (inp : input) : result state :=
  let time_diff := np.diff (t_cut inp) in
  _ ← plt.scatter (t_cut inp) (flux_cut inp);
  for_range (length (t_cut inp) - 1) (loop_body inp time_diff) initial.

(** The final section; [low_bound] is not assigned after it. *)
Definition final_section (inp : input) (st : state) : result state :=
  st' ← detrend_section inp (low_bound st) (length (t_cut inp)) st;
  Ok {| low_bound := low_bound st;
        residual_flux_lowess := residual_flux_lowess st';
        time_from_lowess_detrend := time_from_lowess_detrend st';
        calls := calls st' |}.

Definition lowess_partial (inp : input) : result state :=
  st ← gap_loop inp;
  final_section inp st.

End WithLowess.

Definition is_gap (inp : input) (i : nat) : bool :=
  match np.diff (t_cut inp) !! i with
  | Some d => PrimFloat.ltb Detrend.gap_threshold d
  | None => false
  end.

(** The indexes just after a gap, among the first [k] differences. *)
Definition boundaries (inp : input) (k : nat) : list nat :=
  map Datatypes.S (List.filter (is_gap inp) (seq 0 k)).

Definition segments (st : state) : list (nat * nat) :=
  map (fun c => (Detrend.seg_low c, Detrend.seg_high c)) (calls st).

(** What holds after the iterations [0 .. k-1]. *)
Definition loop_inv (inp : input) (k : nat) (st : state) : Prop :=
  (low_bound st <= k)%nat
  /\ last (0%nat :: boundaries inp k) = Some (low_bound st)
  /\ segments st = zip (0%nat :: boundaries inp k) (boundaries inp k)
  /\ time_from_lowess_detrend st = take (low_bound st) (t_cut inp).

(** Twenty samples 1/64 apart from [start]. *)
Definition burst (start : float) : list float :=
  map (fun k => PrimFloat.add start
                  (PrimFloat.div (PrimFloat.of_uint63 (Uint63.of_Z (Z.of_nat k)))
                     64%float))
    (seq 0 20).

(** Two bursts of twenty samples a day apart, with the arrays of a transit
    mask that changed nothing: the bandwidth is 20 points. *)
Definition two_bursts : input :=
  {| t_cut := burst 0%float ++ burst 1%float;
     flux_cut := replicate 40 10%float;
     transit := Some (burst 0%float ++ burst 1%float, replicate 40 10%float) |}.

(** What the block computes on them with the flat smoother. *)
Definition two_bursts_out : state :=
  {| low_bound := 20;
     residual_flux_lowess := replicate 40 10%float;
     time_from_lowess_detrend := burst 0%float ++ burst 1%float;
     calls :=
       [{| Detrend.seg_low := 0; Detrend.seg_high := 20; Detrend.frac := 20 # 20;
           Detrend.endog := replicate 20 10%float;
           Detrend.exog := burst 0%float |};
        {| Detrend.seg_low := 20; Detrend.seg_high := 40; Detrend.frac := 20 # 20;
           Detrend.endog := replicate 20 10%float;
           Detrend.exog := burst 1%float |}] |}.

End Binning.

(** ** Which samples [clean_tess_lc] removes *)

(** The hard-coded time windows of a sector. *)
Definition sector_window (sector : Z) (x : float) : bool :=
  if sector =? 3 then
    PrimFloat.ltb x 1385.8966%float
    || PrimFloat.ltb 1406.2925%float x
    || (PrimFloat.ltb 1395.4800%float x && PrimFloat.ltb x 1396.6050%float)
  else if sector =? 4 then
    PrimFloat.ltb 1418.53691%float x && PrimFloat.ltb x 1421.21168%float
  else if sector =? 15 then PrimFloat.ltb 1737.3%float x
  else if sector =? 18 then
    PrimFloat.ltb x 1791.5%float || PrimFloat.ltb 1813.48%float x
  else false.

(** The time [x] is within 0.015 of one of the bad times. *)
Definition near_dump (dumps : list float) (x : float) : bool :=
  existsb (fun d => PrimFloat.ltb (PrimFloat.abs (PrimFloat.sub x d)) 0.015%float)
    dumps.

Definition removed (bad_times : Z -> list float) (sector : Z) (x : float) : bool :=
  sector_window sector x || near_dump (bad_times sector) x.

(** ** Calls to run *)

(** [ffi_lowess_detrend()] with the defaults of its signature. *)
Definition default_args : Pipeline.args :=
  {| Pipeline.save_path :=
       "/Users/mbattley/Documents/PhD/New detrending methods/Smoothing/lowess/QLP lcs/";
     Pipeline.arg_sector := 1;
     Pipeline.pipeline := "2min";
     Pipeline.multi_sector := None;
     Pipeline.use_peak_cut := false;
     Pipeline.transit_mask := false;
     Pipeline.injected_planet := true;
     Pipeline.detrending := "lowess_partial";
     Pipeline.n_bins := 30;
     Pipeline.filename := "" |}.

(** The script's call with [multi_sector = [14, 15]]. *)
Definition multi_sector_args : Pipeline.args :=
  {| Pipeline.save_path := "out/";
     Pipeline.arg_sector := 1;
     Pipeline.pipeline := "CDIPS";
     Pipeline.multi_sector := Some [14; 15];
     Pipeline.use_peak_cut := false;
     Pipeline.transit_mask := false;
     Pipeline.injected_planet := false;
     Pipeline.detrending := "lowess_partial";
     Pipeline.n_bins := 30;
     Pipeline.filename := "ok.fits" |}.

(** * Proofs *)

(** ** Loops *)

Lemma bind_Ok {A B : Type} (m : result A) (k : A -> result B) (b : B) :
  (x ← m; k x) = Ok b -> exists a, m = Ok a /\ k a = Ok b.
Proof. destruct m as [a|e]; simpl; [eauto | discriminate]. Qed.

Lemma for_each_snoc {I S : Type} (body : I -> S -> result S) idxs i st :
  for_each body (idxs ++ [i]) st = (st' ← for_each body idxs st; body i st').
Proof.
  revert st. induction idxs as [|j idxs IH]; intros st; simpl.
  - destruct (body i st); reflexivity.
  - destruct (body j st) as [s1|e]; simpl; [apply IH | reflexivity].
Qed.

(** An invariant indexed by the number of iterations done. *)
Lemma for_range_inv {S : Type} (Inv : nat -> S -> Prop) body (n : nat) st0 st :
  Inv 0%nat st0 ->
  (forall i s s', (i < n)%nat -> Inv i s -> body i s = Ok s' -> Inv (Datatypes.S i) s') ->
  for_range n body st0 = Ok st -> Inv n st.
Proof.
  unfold for_range. intros H0 Hstep. revert st.
  induction n as [|n IH]; intros st.
  - simpl. intros [= <-]. exact H0.
  - rewrite seq_S, for_each_snoc. simpl. intros Hrun.
    apply bind_Ok in Hrun as (s & Hs & Hb).
    apply (Hstep n s st); [lia | | exact Hb].
    apply IH; [|exact Hs]. intros i s1 s2 Hi. apply Hstep. lia.
Qed.

(** The loop returns when every iteration does. *)
Lemma for_range_total {S : Type} (Inv : nat -> S -> Prop) body (n : nat) st0 :
  Inv 0%nat st0 ->
  (forall i s, (i < n)%nat -> Inv i s -> exists s', body i s = Ok s' /\ Inv (Datatypes.S i) s') ->
  exists st, for_range n body st0 = Ok st /\ Inv n st.
Proof.
  unfold for_range. intros H0 Hstep.
  induction n as [|n IH].
  - simpl. eauto.
  - destruct IH as (s & Hs & Hinv); [intros i s Hi; apply Hstep; lia|].
    destruct (Hstep n s) as (s' & Hb & Hinv'); [lia | exact Hinv |].
    exists s'. rewrite seq_S, for_each_snoc, Hs. simpl. auto.
Qed.

(** ** Slices *)

Lemma slice_length {A : Type} (low high : nat) (a : list A) :
  length (np.slice low high a) = Nat.min (high - low) (length a - low).
Proof. unfold np.slice. rewrite length_take, length_drop. reflexivity. Qed.

Lemma take_slice {A : Type} (low high : nat) (a : list A) :
  (low <= high)%nat -> take low a ++ np.slice low high a = take high a.
Proof.
  intros Hle. unfold np.slice.
  rewrite take_take_drop. f_equal. lia.
Qed.

(** ** Statements of the detrending block *)

Lemma loop_over_snoc {I : Type} (body : I -> Detrend.M unit) idxs i st :
  Detrend.loop_over body (idxs ++ [i]) st
  = (_ ← Detrend.loop_over body idxs; body i) st.
Proof.
  revert st. induction idxs as [|j idxs IH]; intros st; simpl.
  - unfold mbind, Detrend.M_bind, mret, Detrend.M_ret.
    destruct (body i st) as [[[]|e] s]; reflexivity.
  - unfold mbind, Detrend.M_bind in *.
    destruct (body j st) as [[[]|e] s]; [apply IH | reflexivity].
Qed.

(** An invariant indexed by the number of iterations done. *)
Lemma loop_over_inv (Inv : nat -> Detrend.state -> Prop) body (n : nat) st0 st :
  Inv 0%nat st0 ->
  (forall i s s', (i < n)%nat -> Inv i s -> body i s = (Ok tt, s') ->
                  Inv (Datatypes.S i) s') ->
  Detrend.loop_over body (seq 0 n) st0 = (Ok tt, st) -> Inv n st.
Proof.
  intros H0 Hstep. revert st.
  induction n as [|n IH]; intros st.
  - simpl. intros [= <-]. exact H0.
  - rewrite seq_S, loop_over_snoc. simpl.
    unfold mbind, Detrend.M_bind.
    destruct (Detrend.loop_over body (seq 0 n) st0) as [[[]|e] s] eqn:Hs;
      [|discriminate].
    intros Hb. apply (Hstep n s st); [lia | | exact Hb].
    apply IH; [|reflexivity]. intros i s1 s2 Hi. apply Hstep. lia.
Qed.

(** The loop returns when every iteration does. *)
Lemma loop_over_total (Inv : nat -> Detrend.state -> Prop) body (n : nat) st0 :
  Inv 0%nat st0 ->
  (forall i s, (i < n)%nat -> Inv i s ->
               exists s', body i s = (Ok tt, s') /\ Inv (Datatypes.S i) s') ->
  exists st, Detrend.loop_over body (seq 0 n) st0 = (Ok tt, st) /\ Inv n st.
Proof.
  intros H0 Hstep.
  induction n as [|n IH].
  - simpl. eauto.
  - destruct IH as (s & Hs & Hinv); [intros i s Hi; apply Hstep; lia|].
    destruct (Hstep n s) as (s' & Hb & Hinv'); [lia | exact Hinv |].
    exists s'. rewrite seq_S, loop_over_snoc. simpl.
    unfold mbind, Detrend.M_bind. rewrite Hs. auto.
Qed.

Lemma returned_Ok (r : result unit * Detrend.state) (st : Detrend.state) :
  Detrend.returned r = Ok st <-> r = (Ok tt, st).
Proof.
  destruct r as [[[]|e] s]; simpl; split; intros H;
    try discriminate; injection H as <-; reflexivity.
Qed.

Lemma scatter_Ok (x y : list float) :
  plt.scatter x y = Ok tt <-> length x = length y.
Proof.
  unfold plt.scatter. destruct (Nat.eqb_spec (length x) (length y));
    split; intros H; try reflexivity; try assumption; try discriminate.
  contradiction.
Qed.

Lemma plot_Ok (x y : list float) :
  plt.plot x y = Ok tt <-> length x = length y.
Proof. apply scatter_Ok. Qed.

Lemma sm_lowess_Ok lowess fr en ex v :
  Detrend.sm_lowess lowess fr en ex = Ok v ->
  v = lowess fr en ex /\ length en = length ex /\ (0 <= fr)%Q /\ (fr <= 1)%Q.
Proof.
  unfold Detrend.sm_lowess.
  destruct (Nat.eqb_spec (length en) (length ex)) as [Hlen|]; simpl; [|discriminate].
  destruct (Qle_bool 0 fr) eqn:H0; simpl; [|discriminate].
  destruct (Qle_bool fr 1) eqn:H1; simpl; [|discriminate].
  intros [= <-]. apply Qle_bool_iff in H0, H1. auto.
Qed.

Lemma sm_lowess_returns lowess fr en ex :
  length en = length ex -> (0 <= fr)%Q -> (fr <= 1)%Q ->
  Detrend.sm_lowess lowess fr en ex = Ok (lowess fr en ex).
Proof.
  intros Hlen H0 H1. unfold Detrend.sm_lowess.
  rewrite Hlen, Nat.eqb_refl. simpl.
  apply Qle_bool_iff in H0, H1. rewrite H0, H1. reflexivity.
Qed.

(** Unfolding the statements of the block in a hypothesis or in the goal. *)
Ltac block_unfold_in H :=
  cbv beta iota delta [mbind mret Detrend.M_bind Detrend.M_ret Detrend.lift
                       Detrend.get Detrend.modify Detrend.print Detrend.savefig
                       Detrend.append_section Detrend.set_low_bound
                       Detrend.call_lowess] in H.

Ltac block_unfold :=
  cbv beta iota delta [mbind mret Detrend.M_bind Detrend.M_ret Detrend.lift
                       Detrend.get Detrend.modify Detrend.print Detrend.savefig
                       Detrend.append_section Detrend.set_low_bound
                       Detrend.call_lowess].

(** ** The detrending loop *)

Section DetrendProofs.

Import Detrend.

Variable lowess : Q -> list float -> list float -> list float.
Variable inp : input.

Lemma tiles_snoc lo cs mid c :
  tiles lo cs mid -> seg_low c = mid -> (mid < seg_high c)%nat ->
  tiles lo (cs ++ [c]) (seg_high c).
Proof.
  revert lo. induction cs as [|c0 cs IH]; simpl; intros lo.
  - intros -> Hlow Hlt. auto.
  - intros (H1 & H2 & H3) Hlow Hlt. auto.
Qed.

Lemma tiles_le lo cs hi : tiles lo cs hi -> (lo <= hi)%nat.
Proof.
  revert lo. induction cs as [|c0 cs IH]; simpl; intros lo.
  - lia.
  - intros (H1 & H2 & H3). apply IH in H3. lia.
Qed.

(** What one iteration can do when it returns. *)
Lemma loop_body_cases i st st' :
  loop_body lowess inp (np.diff (t_cut inp)) i st = (Ok tt, st') ->
  (is_gap inp i = false /\ st' = st)
  \/ (is_gap inp i = true
      /\ Z.of_nat (length (np.slice (low_bound st) (i + 1) (t_cut inp)))
        < effective_n_bins inp
      /\ st' = {| low_bound := low_bound st;
                  residual_flux_lowess := residual_flux_lowess st;
                  time_from_lowess_detrend := time_from_lowess_detrend st;
                  full_lowess_flux := full_lowess_flux st;
                  calls := calls st;
                  stdout := stdout st ++ ["Skipped one gap"%string];
                  figures := figures st |})
  \/ (exists c res,
        is_gap inp i = true
        /\ seg_low c = low_bound st /\ seg_high c = (i + 1)%nat
        /\ effective_n_bins inp <= section_points inp c
        /\ call_for inp c
        /\ np.divide (np.slice (low_bound st) (i + 1) (flux_cut inp))
             (trend lowess c) = Ok res
        /\ st' = {| low_bound := (i + 1)%nat;
                    residual_flux_lowess := residual_flux_lowess st ++ res;
                    time_from_lowess_detrend :=
                      time_from_lowess_detrend st
                      ++ np.slice (low_bound st) (i + 1) (t_cut inp);
                    full_lowess_flux := full_lowess_flux st ++ trend lowess c;
                    calls := calls st ++ [c];
                    stdout := stdout st;
                    figures := figures st |}).
Proof.
  unfold loop_body, is_gap, np.index. intros H. block_unfold_in H.
  destruct (np.diff (t_cut inp) !! i) as [d|]; [|discriminate].
  destruct (PrimFloat.ltb gap_threshold d);
    [|left; split; [reflexivity | congruence]].
  destruct (Z.geb_spec (Z.of_nat (length (np.slice (low_bound st) (i + 1) (t_cut inp))))
              (effective_n_bins inp)) as [Hge|Hlt].
  - right; right.
    destruct (true_divide _ _) as [fr|] eqn:Hfr; [|discriminate].
    destruct (lowess_args inp (low_bound st) (i + 1)) as [en ex] eqn:Hargs.
    cbv beta iota delta [frac endog exog] in H.
    destruct (sm_lowess lowess fr en ex) as [v|] eqn:Hsm; [|discriminate].
    apply sm_lowess_Ok in Hsm as (-> & _).
    destruct (plt.plot _ _) as [[]|]; [|discriminate].
    destruct (np.divide _ _) as [res|] eqn:Hres; [|discriminate].
    exists {| seg_low := low_bound st; seg_high := (i + 1)%nat;
              frac := fr; endog := en; exog := ex |}, res.
    unfold call_for, section_points, trend, record_call in *; simpl in *.
    injection H as <-.
    repeat split; try assumption; try lia.
  - right; left. repeat split; [lia | congruence].
Qed.

Lemma loop_inv_initial : loop_inv lowess inp 0 initial.
Proof. unfold loop_inv, initial; simpl. repeat split; auto. Qed.

Lemma loop_inv_step i st st' :
  loop_inv lowess inp i st ->
  loop_body lowess inp (np.diff (t_cut inp)) i st = (Ok tt, st') ->
  loop_inv lowess inp (Datatypes.S i) st'.
Proof.
  intros (Hlow & Htime & Htiles & Hcalls & Hlong & Hfull) Hbody.
  apply loop_body_cases in Hbody
    as [(_ & ->) | [(_ & _ & ->) | (c & res & _ & Hlo & Hhi & Hn & Hc & _ & ->)]];
    unfold loop_inv; simpl.
  - repeat split; auto.
  - repeat split; auto.
  - repeat split.
    + lia.
    + rewrite Htime. apply take_slice. lia.
    + rewrite <- Hhi. apply (tiles_snoc _ _ (low_bound st)); [exact Htiles | exact Hlo | lia].
    + apply Forall_app; split; [exact Hcalls | apply Forall_singleton; exact Hc].
    + apply Forall_app; split; [exact Hlong | apply Forall_singleton; exact Hn].
    + rewrite map_app, concat_app, Hfull. simpl. rewrite app_nil_r. reflexivity.
Qed.

(** The loop over the gaps returned: the first [plt.scatter] accepted the
    arrays and every iteration returned. *)
Lemma gap_loop_Ok st :
  gap_loop lowess inp = Ok st <->
  length (t_cut inp) = length (flux_cut inp)
  /\ loop_over (loop_body lowess inp (np.diff (t_cut inp)))
       (seq 0 (length (t_cut inp) - 1)) initial = (Ok tt, st).
Proof.
  unfold gap_loop. rewrite returned_Ok. unfold gaps. block_unfold.
  rewrite <- scatter_Ok.
  destruct (plt.scatter (t_cut inp) (flux_cut inp)) as [[]|e]; split.
  - auto.
  - intros [_ H]. exact H.
  - discriminate.
  - intros [H _]. discriminate.
Qed.

Lemma gap_loop_inv st :
  gap_loop lowess inp = Ok st -> loop_inv lowess inp (length (t_cut inp) - 1) st.
Proof.
  rewrite gap_loop_Ok. intros [_ Hloop]. revert Hloop. apply loop_over_inv.
  - exact loop_inv_initial.
  - intros i s s' _. apply loop_inv_step.
Qed.

(** What the final section does when it returns. *)
Lemma final_section_cases st out :
  final_section lowess inp st = (Ok tt, out) ->
  exists c res,
    seg_low c = low_bound st /\ seg_high c = length (t_cut inp)
    /\ (low_bound st < length (t_cut inp))%nat
    /\ injected_planet inp = false
    /\ call_for inp c
    /\ ((0 <= frac c)%Q /\ (frac c <= 1)%Q)
    /\ np.divide (np.slice (low_bound st) (length (t_cut inp)) (flux_cut inp))
         (trend lowess c) = Ok res
    /\ out = {| low_bound := low_bound st;
                residual_flux_lowess := residual_flux_lowess st ++ res;
                time_from_lowess_detrend :=
                  time_from_lowess_detrend st
                  ++ np.slice (low_bound st) (length (t_cut inp)) (t_cut inp);
                full_lowess_flux := full_lowess_flux st ++ trend lowess c;
                calls := calls st ++ [c];
                stdout := stdout st;
                figures := figures st ++ [overplotted_figure] |}.
Proof.
  unfold final_section. intros H. block_unfold_in H.
  destruct (true_divide _ _) as [fr|] eqn:Hfr; [|discriminate].
  destruct (lowess_args inp (low_bound st) (length (t_cut inp))) as [en ex] eqn:Hargs.
  cbv beta iota delta [frac endog exog] in H.
  destruct (sm_lowess lowess fr en ex) as [v|] eqn:Hsm; [|discriminate].
  apply sm_lowess_Ok in Hsm as (-> & _ & Hfr0 & Hfr1).
  destruct (plt.plot _ _) as [[]|]; [|discriminate].
  destruct (injected_planet inp) eqn:Hinj; [discriminate|].
  block_unfold_in H.
  destruct (np.divide _ _) as [res|] eqn:Hres; [|discriminate].
  injection H as <-.
  exists {| seg_low := low_bound st; seg_high := length (t_cut inp);
            frac := fr; endog := en; exog := ex |}, res.
  unfold call_for, trend, record_call; simpl.
  repeat split; try assumption.
  unfold true_divide in Hfr.
  destruct (Z.eqb_spec (Z.of_nat (length (np.slice (low_bound st)
              (length (t_cut inp)) (t_cut inp)))) 0) as [Hz|Hnz];
    [discriminate|].
  rewrite slice_length in Hnz. lia.
Qed.

(** The block returned: the loop did, and then the final section. *)
Lemma lowess_partial_Ok out :
  lowess_partial lowess inp = Ok out <->
  exists st, gap_loop lowess inp = Ok st
             /\ final_section lowess inp st = (Ok tt, out).
Proof.
  unfold lowess_partial, gap_loop, run. rewrite returned_Ok.
  unfold mbind at 1. unfold M_bind.
  destruct (gaps lowess inp initial) as [[[]|e] s]; simpl; split.
  - intros H. exists s. auto.
  - intros (st & [= <-] & H). exact H.
  - discriminate.
  - intros (st & H & _). discriminate.
Qed.

(** The block as a whole: every input sample is in the output, in order,
    and the calls cover the whole index range. *)
Lemma lowess_partial_structure out :
  lowess_partial lowess inp = Ok out ->
  time_from_lowess_detrend out = t_cut inp
  /\ tiles 0 (calls out) (length (t_cut inp))
  /\ Forall (call_for inp) (calls out)
  /\ full_lowess_flux out = concat (map (trend lowess) (calls out)).
Proof.
  rewrite lowess_partial_Ok. intros (st & Hloop & Hfinal).
  apply gap_loop_inv in Hloop as (Hlow & Htime & Htiles & Hcalls & _ & Hfull).
  apply final_section_cases in Hfinal
    as (c & res & Hlo & Hhi & Hlt & _ & Hc & _ & _ & ->); simpl.
  repeat split.
  - rewrite Htime, take_slice by lia. apply take_ge. lia.
  - rewrite <- Hhi. apply (tiles_snoc _ _ (low_bound st)); [exact Htiles | exact Hlo | lia].
  - apply Forall_app; split; [exact Hcalls | apply Forall_singleton; exact Hc].
  - rewrite map_app, concat_app, Hfull. simpl. rewrite app_nil_r. reflexivity.
Qed.

End DetrendProofs.
(** ** Residuals, for a smoother that returns one value per sample *)

Lemma slice_app {A : Type} (low mid high : nat) (a : list A) :
  (low <= mid)%nat -> (mid <= high)%nat ->
  np.slice low mid a ++ np.slice mid high a = np.slice low high a.
Proof.
  intros H1 H2. unfold np.slice.
  replace (drop mid a) with (drop (mid - low) (drop low a))
    by (rewrite drop_drop; f_equal; lia).
  rewrite take_take_drop. f_equal. lia.
Qed.

Lemma divide_same_length (a b : list float) :
  length a = length b -> np.divide a b = Ok (zip_with PrimFloat.div a b).
Proof. intros H. unfold np.divide. rewrite H, Nat.eqb_refl. reflexivity. Qed.

Section DetrendValues.

Import Detrend.

Variable lowess : Q -> list float -> list float -> list float.
Variable inp : input.
Hypothesis lowess_length : forall f y x, length (lowess f y x) = length x.
Hypothesis inp_paired : paired inp.

Lemma call_trend_length c :
  call_for inp c ->
  length (trend lowess c)
  = length (np.slice (seg_low c) (seg_high c) (flux_cut inp)).
Proof.
  intros [_ Hargs]. unfold trend. rewrite lowess_length.
  destruct inp_paired as [Hflux Htransit].
  unfold lowess_args in Hargs.
  destruct (transit inp) as [[tm fm]|]; injection Hargs as _ <-;
    rewrite !slice_length; lia.
Qed.

Lemma divide_call c :
  call_for inp c ->
  np.divide (np.slice (seg_low c) (seg_high c) (flux_cut inp)) (trend lowess c)
  = Ok (section_residuals lowess inp c).
Proof.
  intros Hc. apply divide_same_length. symmetry. apply call_trend_length, Hc.
Qed.

(** Residuals of consecutive sections are the elementwise quotient over
    the range they cover. *)
Lemma tiles_residuals cs : forall lo hi,
  tiles lo cs hi -> Forall (call_for inp) cs ->
  concat (map (section_residuals lowess inp) cs)
  = zip_with PrimFloat.div (np.slice lo hi (flux_cut inp))
      (concat (map (trend lowess) cs)).
Proof.
  induction cs as [|c cs IH]; simpl; intros lo hi.
  - intros -> _. unfold np.slice. rewrite Nat.sub_diag. reflexivity.
  - intros (Hlo & Hlt & Htl) Hall.
    apply Forall_cons in Hall as [Hc Hall].
    pose proof (tiles_le _ _ _ Htl) as Hle.
    rewrite <- (slice_app lo (seg_high c) hi) by lia.
    rewrite zip_with_app by (rewrite <- Hlo; symmetry; apply call_trend_length, Hc).
    rewrite (IH _ _ Htl Hall). unfold section_residuals. rewrite Hlo. reflexivity.
Qed.

Lemma tiles_trend_length cs : forall lo hi,
  tiles lo cs hi -> Forall (call_for inp) cs -> (hi <= length (t_cut inp))%nat ->
  length (concat (map (trend lowess) cs)) = (hi - lo)%nat.
Proof.
  induction cs as [|c cs IH]; simpl; intros lo hi.
  - intros -> _ _. lia.
  - intros (Hlo & Hlt & Htl) Hall Hhi.
    apply Forall_cons in Hall as [Hc Hall].
    pose proof (tiles_le _ _ _ Htl) as Hle.
    rewrite length_app, (IH _ _ Htl Hall Hhi), (call_trend_length c Hc).
    rewrite slice_length. destruct inp_paired as [-> _]. lia.
Qed.

Lemma residual_inv_loop st :
  gap_loop lowess inp = Ok st -> residual_inv lowess inp st.
Proof.
  rewrite gap_loop_Ok. intros [_ Hloop]. revert Hloop.
  apply (loop_over_inv (fun _ s => residual_inv lowess inp s)).
  - reflexivity.
  - intros i s s' _ Hinv Hbody.
    apply loop_body_cases in Hbody
      as [(_ & ->) | [(_ & _ & ->) | (c & res & _ & Hlo & Hhi & _ & Hc & Hres & ->)]];
      unfold residual_inv in *; simpl; auto.
    rewrite <- Hlo, <- Hhi, (divide_call c Hc) in Hres. injection Hres as <-.
    rewrite map_app, concat_app, Hinv. simpl. rewrite app_nil_r. reflexivity.
Qed.

Lemma lowess_partial_residuals out :
  lowess_partial lowess inp = Ok out ->
  residual_flux_lowess out
  = concat (map (section_residuals lowess inp) (calls out)).
Proof.
  rewrite lowess_partial_Ok. intros (st & Hloop & Hfinal).
  apply residual_inv_loop in Hloop.
  apply final_section_cases in Hfinal
    as (c & res & Hlo & Hhi & _ & _ & Hc & _ & Hres & ->); simpl.
  rewrite <- Hlo, <- Hhi, (divide_call c Hc) in Hres. injection Hres as <-.
  rewrite map_app, concat_app, Hloop. simpl. rewrite app_nil_r. reflexivity.
Qed.

Lemma lowess_args_length lo hi fr en ex :
  lowess_args inp lo hi = (en, ex) ->
  length (np.slice lo hi (flux_cut inp)) = length (lowess fr en ex).
Proof.
  intros Hargs. rewrite lowess_length.
  destruct inp_paired as [Hflux Htransit].
  unfold lowess_args in Hargs.
  destruct (transit inp) as [[tm fm]|]; injection Hargs as _ <-;
    rewrite !slice_length; lia.
Qed.

Lemma diff_length (a : list float) : length (np.diff a) = (length a - 1)%nat.
Proof.
  unfold np.diff. rewrite length_zip_with.
  destruct a as [|x a]; [reflexivity|].
  cbn [tail length]. lia.
Qed.

Lemma true_divide_in_range (n d : Z) :
  0 <= n -> n <= d -> 0 < d ->
  exists fr, true_divide n d = Ok fr /\ (0 <= fr)%Q /\ (fr <= 1)%Q.
Proof.
  intros Hn Hle Hd. unfold true_divide.
  destruct (Z.eqb_spec d 0) as [Hz|Hnz]; [lia|].
  eexists. split; [reflexivity|].
  unfold Qle. simpl. rewrite Z2Pos.id by lia. lia.
Qed.

Lemma last_boundary_le k : (last_boundary inp k <= k)%nat.
Proof.
  induction k as [|k IH]; simpl; [lia|].
  destruct (is_gap inp k); lia.
Qed.

(** When the arrays of the mask are paired too, and [n_bins] is not
    negative, no statement of the loop raises. *)
Section DetrendReturns.

Hypothesis inp_mask_paired : mask_paired inp.
Hypothesis n_bins_positive : 0 < effective_n_bins inp.

Lemma lowess_args_paired lo hi en ex :
  lowess_args inp lo hi = (en, ex) ->
  length en = length ex
  /\ length ex = length (np.slice lo hi (t_cut inp)).
Proof.
  destruct inp_paired as [Hflux Htransit].
  unfold mask_paired in inp_mask_paired. unfold lowess_args.
  destruct (transit inp) as [[tm fm]|]; intros [= <- <-];
    rewrite !slice_length; lia.
Qed.

(** The call and the three statements after it, for a section of at least
    [n_bins] points. *)
Lemma section_returns lo hi :
  (lo < hi)%nat -> (hi <= length (t_cut inp))%nat ->
  effective_n_bins inp <= Z.of_nat (length (np.slice lo hi (t_cut inp))) ->
  exists fr en ex,
    true_divide (effective_n_bins inp)
      (Z.of_nat (length (np.slice lo hi (t_cut inp)))) = Ok fr
    /\ lowess_args inp lo hi = (en, ex)
    /\ sm_lowess lowess fr en ex = Ok (lowess fr en ex)
    /\ plt.plot (np.slice lo hi (t_cut inp)) (lowess fr en ex) = Ok tt
    /\ np.divide (np.slice lo hi (flux_cut inp)) (lowess fr en ex)
       = Ok (zip_with PrimFloat.div (np.slice lo hi (flux_cut inp))
               (lowess fr en ex)).
Proof.
  intros Hlt Hhi Hn.
  assert (0 < Z.of_nat (length (np.slice lo hi (t_cut inp)))) as Hpos
    by (rewrite slice_length; lia).
  destruct (true_divide_in_range (effective_n_bins inp) _ ltac:(lia) Hn Hpos)
    as (fr & Hfr & H0 & H1).
  destruct (lowess_args inp lo hi) as [en ex] eqn:Hargs.
  destruct (lowess_args_paired _ _ _ _ Hargs) as [Hen Hex].
  exists fr, en, ex. repeat split; try assumption.
  - apply sm_lowess_returns; assumption.
  - apply plot_Ok. rewrite lowess_length. symmetry. exact Hex.
  - apply divide_same_length. apply lowess_args_length. exact Hargs.
Qed.

(** An iteration of the loop never raises. *)
Lemma loop_body_returns i st :
  (i < length (t_cut inp) - 1)%nat -> (low_bound st <= i)%nat ->
  exists st', loop_body lowess inp (np.diff (t_cut inp)) i st = (Ok tt, st').
Proof.
  intros Hi Hlow. unfold loop_body, np.index. block_unfold.
  destruct (lookup_lt_is_Some_2 (np.diff (t_cut inp)) i) as [d ->];
    [rewrite diff_length; exact Hi|].
  destruct (PrimFloat.ltb gap_threshold d); [|eauto].
  destruct (Z.geb_spec (Z.of_nat (length (np.slice (low_bound st) (i + 1) (t_cut inp))))
              (effective_n_bins inp)) as [Hge|Hshort]; [|eauto].
  destruct (section_returns (low_bound st) (i + 1))
    as (fr & en & ex & Hfr & Hargs & Hsm & Hplot & Hdiv); [lia | lia | lia |].
  rewrite Hfr, Hargs. cbv beta iota delta [frac endog exog].
  rewrite Hsm, Hplot, Hdiv. eauto.
Qed.

(** The loop returns, and [low_bound] is then 0 or just after a gap. *)
Lemma gap_loop_returns :
  exists st, gap_loop lowess inp = Ok st
             /\ loop_inv lowess inp (length (t_cut inp) - 1) st
             /\ (low_bound st
                 <= last_boundary inp (length (t_cut inp) - 1))%nat.
Proof.
  destruct (loop_over_total
              (fun i s => loop_inv lowess inp i s
                          /\ (low_bound s <= last_boundary inp i)%nat)
              (loop_body lowess inp (np.diff (t_cut inp)))
              (length (t_cut inp) - 1) initial) as (st & Hst & Hinv & Hlast).
  - split; [apply loop_inv_initial | simpl; lia].
  - intros i s Hi [Hs Hlast].
    destruct (loop_body_returns i s Hi) as [s' Hs']; [apply Hs|].
    exists s'. split; [exact Hs'|]. split; [eapply loop_inv_step; eauto|].
    pose proof (last_boundary_le i) as Hle.
    apply loop_body_cases in Hs'
      as [(Hg & ->) | [(Hg & _ & ->) | (c & res & Hg & _ & _ & _ & _ & _ & ->)]];
      simpl; rewrite Hg; simpl; lia.
  - exists st. split; [|auto]. apply gap_loop_Ok. split; [|exact Hst].
    destruct inp_paired as [-> _]. reflexivity.
Qed.

(** The final section, from a state of the loop, when the samples after
    the last gap are at least [n_bins]. *)
Lemma final_section_runs st :
  (low_bound st <= last_boundary inp (length (t_cut inp) - 1))%nat ->
  effective_n_bins inp <= points_after_last_gap inp ->
  exists fr en ex,
    lowess_args inp (low_bound st) (length (t_cut inp)) = (en, ex)
    /\ final_section lowess inp st
       = if injected_planet inp
         then (Raise NameError,
               record_call {| seg_low := low_bound st;
                              seg_high := length (t_cut inp);
                              frac := fr; endog := en; exog := ex |} st)
         else (Ok tt,
               {| low_bound := low_bound st;
                  residual_flux_lowess :=
                    residual_flux_lowess st
                    ++ zip_with PrimFloat.div
                         (np.slice (low_bound st) (length (t_cut inp)) (flux_cut inp))
                         (lowess fr en ex);
                  time_from_lowess_detrend :=
                    time_from_lowess_detrend st
                    ++ np.slice (low_bound st) (length (t_cut inp)) (t_cut inp);
                  full_lowess_flux := full_lowess_flux st ++ lowess fr en ex;
                  calls := calls st
                           ++ [{| seg_low := low_bound st;
                                  seg_high := length (t_cut inp);
                                  frac := fr; endog := en; exog := ex |}];
                  stdout := stdout st;
                  figures := figures st ++ [overplotted_figure] |}).
Proof.
  intros Hlast Hn. unfold points_after_last_gap in Hn.
  pose proof (last_boundary_le (length (t_cut inp) - 1)) as Hle.
  destruct (section_returns (low_bound st) (length (t_cut inp)))
    as (fr & en & ex & Hfr & Hargs & Hsm & Hplot & Hdiv);
    [lia | lia | rewrite slice_length; lia |].
  exists fr, en, ex. split; [exact Hargs|].
  unfold final_section. block_unfold. rewrite Hfr, Hargs.
  cbv beta iota delta [frac endog exog]. rewrite Hsm, Hplot.
  destruct (injected_planet inp); block_unfold; [reflexivity|].
  rewrite Hdiv. reflexivity.
Qed.

End DetrendReturns.

End DetrendValues.

(** ** The detrending block: results *)

Lemma flat_lowess_length f y x :
  length (Detrend.flat_lowess f y x) = length x.
Proof. unfold Detrend.flat_lowess. apply length_map. Qed.

Lemma slice_all {A : Type} (a : list A) (n : nat) :
  (length a <= n)%nat -> np.slice 0 n a = a.
Proof.
  intros H. unfold np.slice. rewrite drop_0, Nat.sub_0_r. apply take_ge, H.
Qed.

Section DetrendResults.

Import Detrend.

Variable lowess : Q -> list float -> list float -> list float.
Variable inp : input.
Hypothesis lowess_length : forall f y x, length (lowess f y x) = length x.
Hypothesis inp_paired : paired inp.

(** The residuals are the input flux over the concatenated trend. *)
Lemma lowess_partial_values out :
  lowess_partial lowess inp = Ok out ->
  residual_flux_lowess out
  = zip_with PrimFloat.div (flux_cut inp) (full_lowess_flux out)
  /\ length (full_lowess_flux out) = length (t_cut inp).
Proof.
  intros Hout.
  pose proof (lowess_partial_residuals lowess inp lowess_length inp_paired out Hout)
    as Hres.
  apply lowess_partial_structure in Hout as (_ & Htiles & Hcalls & Hfull).
  destruct inp_paired as [Hflux _].
  split.
  - rewrite Hres, Hfull.
    rewrite (tiles_residuals lowess inp lowess_length inp_paired _ _ _ Htiles Hcalls).
    rewrite slice_all by lia. reflexivity.
  - rewrite Hfull.
    rewrite (tiles_trend_length lowess inp lowess_length inp_paired _ _ _ Htiles Hcalls)
      by lia.
    lia.
Qed.

End DetrendResults.

(** The loop from any index: an invariant indexed by the iteration. *)
Lemma loop_over_app {I : Type} (body : I -> Detrend.M unit) l1 l2 st :
  Detrend.loop_over body (l1 ++ l2) st
  = (_ ← Detrend.loop_over body l1; Detrend.loop_over body l2) st.
Proof.
  revert st. induction l1 as [|j l1 IH]; intros st; simpl.
  - reflexivity.
  - unfold mbind, Detrend.M_bind in *.
    destruct (body j st) as [[[]|e] s]; [apply IH | reflexivity].
Qed.

Lemma loop_over_inv_from (Inv : nat -> Detrend.state -> Prop) body (a n : nat) st0 st :
  Inv a st0 ->
  (forall i s s', (a <= i < a + n)%nat -> Inv i s -> body i s = (Ok tt, s') ->
                  Inv (Datatypes.S i) s') ->
  Detrend.loop_over body (seq a n) st0 = (Ok tt, st) -> Inv (a + n)%nat st.
Proof.
  intros H0 Hstep. revert st.
  induction n as [|n IH]; intros st.
  - simpl. intros [= <-]. rewrite Nat.add_0_r. exact H0.
  - rewrite seq_S, loop_over_snoc.
    unfold mbind, Detrend.M_bind.
    destruct (Detrend.loop_over body (seq a n) st0) as [[[]|e] s] eqn:Hs;
      [|discriminate].
    intros Hb. rewrite Nat.add_succ_r.
    apply (Hstep (a + n)%nat s st); [lia | | exact Hb].
    apply IH; [|reflexivity]. intros i s1 s2 Hi. apply Hstep. lia.
Qed.

(** C3: the residual sequence of the [lowess_partial] block is no longer
    than the input flux sequence, and the residual and timestamp arrays it
    builds have one length (for a light curve whose arrays are paired and a
    smoother that returns one value per sample). *)
Theorem residual_length_bounded
    (lowess : Q -> list float -> list float -> list float)
    (inp : Detrend.input) (out : Detrend.state) :
  (forall f y x, length (lowess f y x) = length x) ->
  Detrend.paired inp ->
  Detrend.lowess_partial lowess inp = Ok out ->
  (length (Detrend.residual_flux_lowess out) <= length (Detrend.flux_cut inp))%nat
  /\ length (Detrend.residual_flux_lowess out)
     = length (Detrend.time_from_lowess_detrend out).
Proof.
  intros Hlen Hpaired Hout.
  destruct (lowess_partial_values lowess inp Hlen Hpaired out Hout) as [Hres Hfull].
  apply lowess_partial_structure in Hout as (Htime & _).
  rewrite Hres, Htime, length_zip_with, Hfull.
  destruct Hpaired as [Hflux _]. lia.
Qed.

Lemma residual_length_bounded_witness :
  (length (Detrend.residual_flux_lowess Samples.short_then_long_out)
   <= length (Detrend.flux_cut Samples.short_then_long))%nat
  /\ length (Detrend.residual_flux_lowess Samples.short_then_long_out)
     = length (Detrend.time_from_lowess_detrend Samples.short_then_long_out).
Proof.
  apply (residual_length_bounded Detrend.flat_lowess Samples.short_then_long).
  - apply flat_lowess_length.
  - split; [reflexivity | exact I].
  - vm_compute. reflexivity.
Defined.

(** C1 (as the code has it): a candidate section closed by a gap and
    shorter than [n_bins] is not detrended on its own and is not removed.
    At such a gap, met in the state [st] that the iterations before [i]
    left, the iteration does nothing but print 'Skipped one gap':
    [low_bound] stays and no call is made.  When the block returns, every
    input sample is in the output, and the samples of the short section were
    detrended in one call with the samples that follow them: a section that
    starts at the same [low_bound] and ends beyond the gap. *)
Theorem short_section_joins_next
    (lowess : Q -> list float -> list float -> list float)
    (inp : Detrend.input) (i : nat) (st : Detrend.state) :
  (i < length (Detrend.t_cut inp) - 1)%nat ->
  Detrend.is_gap inp i = true ->
  Detrend.loop_over (Detrend.loop_body lowess inp (np.diff (Detrend.t_cut inp)))
    (seq 0 i) Detrend.initial = (Ok tt, st) ->
  Z.of_nat (length (np.slice (Detrend.low_bound st) (i + 1) (Detrend.t_cut inp)))
  < Detrend.effective_n_bins inp ->
  Detrend.loop_body lowess inp (np.diff (Detrend.t_cut inp)) i st
  = Detrend.print "Skipped one gap" st
  /\ forall out,
       Detrend.lowess_partial lowess inp = Ok out ->
       Detrend.time_from_lowess_detrend out = Detrend.t_cut inp
       /\ exists c,
            In c (Detrend.calls out)
            /\ Detrend.seg_low c = Detrend.low_bound st
            /\ (i + 1 < Detrend.seg_high c)%nat.
Proof.
  intros Hi Hgap Hprefix Hshort.
  assert (Detrend.loop_body lowess inp (np.diff (Detrend.t_cut inp)) i st
          = Detrend.print "Skipped one gap" st) as Hstep.
  { unfold Detrend.loop_body, np.index. unfold Detrend.is_gap in Hgap.
    block_unfold.
    destruct (np.diff (Detrend.t_cut inp) !! i) as [d|]; [|discriminate].
    rewrite Hgap.
    destruct (Z.geb_spec (Z.of_nat (length (np.slice (Detrend.low_bound st) (i + 1)
                (Detrend.t_cut inp)))) (Detrend.effective_n_bins inp)); [lia|].
    reflexivity. }
  split; [exact Hstep|].
  intros out Hout.
  split; [apply (lowess_partial_structure lowess inp out Hout)|].
  apply lowess_partial_Ok in Hout as (s_end & Hloop & Hfinal).
  apply gap_loop_Ok in Hloop as [_ Hloop].
  replace (length (Detrend.t_cut inp) - 1)%nat
    with (i + Datatypes.S (length (Detrend.t_cut inp) - 1 - Datatypes.S i))%nat
    in Hloop by lia.
  rewrite seq_app, loop_over_app in Hloop.
  unfold mbind at 1 in Hloop. unfold Detrend.M_bind in Hloop.
  rewrite Hprefix in Hloop. simpl in Hloop.
  unfold mbind at 1 in Hloop. unfold Detrend.M_bind in Hloop.
  rewrite Hstep in Hloop. unfold Detrend.print, Detrend.modify in Hloop.
  cbv beta iota in Hloop.
  apply (loop_over_inv_from
           (fun _ s =>
              (Detrend.low_bound s = Detrend.low_bound st
               /\ Detrend.calls s = Detrend.calls st)
              \/ exists c, In c (Detrend.calls s)
                           /\ Detrend.seg_low c = Detrend.low_bound st
                           /\ (i + 1 < Detrend.seg_high c)%nat)) in Hloop.
  - apply final_section_cases in Hfinal
      as (c & res & Hlo & Hhi & _ & _ & _ & _ & _ & ->). simpl.
    destruct Hloop as [[Hlow Hcalls] | (c0 & Hin & Hc0)].
    + exists c. split; [apply in_or_app; right; left; reflexivity|].
      split; [congruence | lia].
    + exists c0. split; [apply in_or_app; left; exact Hin | exact Hc0].
  - left. simpl. auto.
  - intros j s s' Hj Hinv Hbody.
    apply loop_body_cases in Hbody
      as [(_ & ->) | [(_ & _ & ->) | (c & res & _ & Hlo & Hhi & _ & _ & _ & ->)]];
      simpl; [exact Hinv | exact Hinv |].
    destruct Hinv as [[Hlow Hcalls] | (c0 & Hin & Hc0)]; right.
    + exists c. split; [apply in_or_app; right; left; reflexivity|].
      split; [congruence | lia].
    + exists c0. split; [apply in_or_app; left; exact Hin | exact Hc0].
Qed.

Lemma short_section_joins_next_witness :
  Detrend.loop_body Detrend.flat_lowess Samples.short_then_long
    (np.diff (Detrend.t_cut Samples.short_then_long)) 0 Detrend.initial
  = Detrend.print "Skipped one gap" Detrend.initial
  /\ forall out,
       Detrend.lowess_partial Detrend.flat_lowess Samples.short_then_long = Ok out ->
       Detrend.time_from_lowess_detrend out = Detrend.t_cut Samples.short_then_long
       /\ exists c,
            In c (Detrend.calls out)
            /\ Detrend.seg_low c = Detrend.low_bound Detrend.initial
            /\ (0 + 1 < Detrend.seg_high c)%nat.
Proof.
  apply (short_section_joins_next Detrend.flat_lowess Samples.short_then_long 0
           Detrend.initial).
  - simpl. lia.
  - vm_compute. reflexivity.
  - reflexivity.
  - vm_compute. reflexivity.
Defined.

(** C1, as stated, fails: the first sample of [short_then_long] is a section
    of one point (< [n_bins] = 2) closed by a gap of one day; the block
    returns, after one call with the fraction 2/4, and the timestamp and the
    residual of that sample are in the output. *)
Lemma short_section_in_output :
  Detrend.is_gap Samples.short_then_long 0 = true
  /\ np.slice 0 1 (Detrend.t_cut Samples.short_then_long) = [0%float]
  /\ Detrend.effective_n_bins Samples.short_then_long = 2
  /\ Detrend.lowess_partial Detrend.flat_lowess Samples.short_then_long
     = Ok Samples.short_then_long_out
  /\ map Detrend.frac (Detrend.calls Samples.short_then_long_out) = [2 # 4]
  /\ Detrend.time_from_lowess_detrend Samples.short_then_long_out !! 0%nat
     = Some 0%float
  /\ Detrend.residual_flux_lowess Samples.short_then_long_out !! 0%nat
     = Some 10%float
  /\ Detrend.time_from_lowess_detrend Samples.short_then_long_out
     = Detrend.t_cut Samples.short_then_long.
Proof. vm_compute. repeat split. Qed.


(** C2 at a light curve of three evenly spaced samples with the default
    [n_bins = 30]: the only call is the one of the final section, its
    bandwidth fraction is 30/3, and the smoother raises [ValueError].  On
    [short_first] ([n_bins = 2]) the call of the loop gets 2/2 and the call
    of the final section 2/1. *)
Lemma final_section_frac_above_one :
  Detrend.run Detrend.flat_lowess Samples.three_points
  = (Raise ValueError, Samples.three_points_out)
  /\ map Detrend.frac (Detrend.calls Samples.three_points_out) = [30 # 3]
  /\ (1 < 30 # 3)%Q
  /\ Detrend.run Detrend.flat_lowess Samples.short_first
     = (Raise ValueError, Samples.short_first_out)
  /\ map Detrend.frac (Detrend.calls Samples.short_first_out) = [2 # 2; 2 # 1]
  /\ (1 < 2 # 1)%Q.
Proof. vm_compute. repeat split. Qed.

(** C4 (as the code has it): when the only gap is after index [i] and the
    first [i+1] samples are at least [n_bins], a run of the block that
    returns has made exactly two calls, for the samples [0 .. i] and
    [i+1 .. end]. *)
Theorem single_gap_two_segments
    (lowess : Q -> list float -> list float -> list float)
    (inp : Detrend.input) (i : nat) (out : Detrend.state) :
  (i < length (Detrend.t_cut inp) - 1)%nat ->
  (forall j, (j < length (Detrend.t_cut inp) - 1)%nat ->
             (Detrend.is_gap inp j = true <-> j = i)) ->
  Detrend.effective_n_bins inp <= Z.of_nat (i + 1) ->
  Detrend.lowess_partial lowess inp = Ok out ->
  Detrend.segments out
  = [(0%nat, (i + 1)%nat); ((i + 1)%nat, length (Detrend.t_cut inp))].
Proof.
  intros Hi Hgap Hn Hout.
  apply lowess_partial_Ok in Hout as (st & Hloop & Hfinal).
  assert (Detrend.segments st = [(0%nat, (i + 1)%nat)]
          /\ Detrend.low_bound st = (i + 1)%nat) as [Hseg Hlow].
  { apply gap_loop_Ok in Hloop as [_ Hloop].
    apply (loop_over_inv
             (fun k s => ((k <= i)%nat -> s = Detrend.initial)
                         /\ ((i < k)%nat ->
                             Detrend.segments s = [(0%nat, (i + 1)%nat)]
                             /\ Detrend.low_bound s = (i + 1)%nat)))
      in Hloop.
    - apply Hloop. lia.
    - split; [reflexivity | lia].
    - intros k s s' Hk [Hbefore Hafter] Hbody.
      apply loop_body_cases in Hbody
        as [(Hg & ->) | [(Hg & Hshort & ->) | (c & res & Hg & Hlo & Hhi & _ & _ & _ & ->)]].
      + assert (k <> i)
          by (intros ->; rewrite (proj2 (Hgap i Hi) eq_refl) in Hg; discriminate).
        split; intros Hle; [apply Hbefore; lia | apply Hafter; lia].
      + apply (Hgap k Hk) in Hg as ->.
        rewrite (Hbefore (Nat.le_refl i)) in Hshort. simpl in Hshort.
        rewrite slice_length in Hshort. lia.
      + apply (Hgap k Hk) in Hg as ->.
        rewrite (Hbefore (Nat.le_refl i)) in Hlo |- *. simpl in Hlo.
        split; [lia|]. intros _. unfold Detrend.segments. simpl.
        rewrite Hlo, Hhi. auto. }
  apply final_section_cases in Hfinal
    as (c & res & Hlo & Hhi & _ & _ & _ & _ & _ & ->).
  unfold Detrend.segments in *. simpl.
  rewrite map_app, Hseg. simpl. rewrite Hlo, Hhi, Hlow. reflexivity.
Qed.

Lemma single_gap_two_segments_witness :
  Detrend.segments Samples.two_pairs_out = [(0%nat, 2%nat); (2%nat, 4%nat)].
Proof.
  apply (single_gap_two_segments Detrend.flat_lowess Samples.two_pairs 1).
  - simpl. lia.
  - intros j Hj. simpl in Hj.
    destruct j as [|[|[|j]]]; vm_compute; split; intros H; try reflexivity;
      try discriminate; try lia.
  - vm_compute. discriminate.
  - vm_compute. reflexivity.
Defined.

(** C4, as stated, fails: the times of [short_then_pair] increase strictly
    and its only gap is after index 0, and the block, which returns, makes
    one call, with the fraction 2/3, for all three samples. *)
Lemma single_gap_one_segment :
  Detrend.t_cut Samples.short_then_pair = [0%float; 1%float; 1.0625%float]
  /\ PrimFloat.ltb 0%float 1%float = true
  /\ PrimFloat.ltb 1%float 1.0625%float = true
  /\ Detrend.is_gap Samples.short_then_pair 0 = true
  /\ Detrend.is_gap Samples.short_then_pair 1 = false
  /\ Detrend.lowess_partial Detrend.flat_lowess Samples.short_then_pair
     = Ok Samples.short_then_pair_out
  /\ map Detrend.frac (Detrend.calls Samples.short_then_pair_out) = [2 # 3]
  /\ Detrend.segments Samples.short_then_pair_out = [(0%nat, 3%nat)].
Proof. vm_compute. repeat split. Qed.

(** C5: on every section the block processes the residuals are the observed
    flux divided, sample by sample, by the smoothed trend of that section;
    the trend values ([full_lowess_flux]) and the residuals
    ([residual_flux_lowess]) are both built, section after section. *)
Theorem residual_is_flux_over_trend
    (lowess : Q -> list float -> list float -> list float)
    (inp : Detrend.input) (out : Detrend.state) :
  (forall f y x, length (lowess f y x) = length x) ->
  Detrend.paired inp ->
  Detrend.lowess_partial lowess inp = Ok out ->
  Detrend.tiles 0 (Detrend.calls out) (length (Detrend.t_cut inp))
  /\ Forall (Detrend.call_for inp) (Detrend.calls out)
  /\ Forall (fun c => length (Detrend.trend lowess c)
                      = length (np.slice (Detrend.seg_low c) (Detrend.seg_high c)
                                  (Detrend.flux_cut inp)))
       (Detrend.calls out)
  /\ Detrend.full_lowess_flux out
     = concat (map (Detrend.trend lowess) (Detrend.calls out))
  /\ Detrend.residual_flux_lowess out
     = concat (map (Detrend.section_residuals lowess inp) (Detrend.calls out))
  /\ Detrend.residual_flux_lowess out
     = zip_with PrimFloat.div (Detrend.flux_cut inp) (Detrend.full_lowess_flux out).
Proof.
  intros Hlen Hpaired Hout.
  pose proof (lowess_partial_residuals lowess inp Hlen Hpaired out Hout) as Hres.
  destruct (lowess_partial_values lowess inp Hlen Hpaired out Hout) as [Hquot _].
  apply lowess_partial_structure in Hout as (_ & Htiles & Hcalls & Hfull).
  repeat split; try assumption.
  eapply Forall_impl; [exact Hcalls|].
  intros c Hc. apply call_trend_length; assumption.
Qed.

Lemma residual_is_flux_over_trend_witness :
  Detrend.tiles 0 (Detrend.calls Samples.two_pairs_out) 4
  /\ Forall (Detrend.call_for Samples.two_pairs) (Detrend.calls Samples.two_pairs_out)
  /\ Forall (fun c => length (Detrend.trend Detrend.flat_lowess c)
                      = length (np.slice (Detrend.seg_low c) (Detrend.seg_high c)
                                  (Detrend.flux_cut Samples.two_pairs)))
       (Detrend.calls Samples.two_pairs_out)
  /\ Detrend.full_lowess_flux Samples.two_pairs_out
     = concat (map (Detrend.trend Detrend.flat_lowess)
                 (Detrend.calls Samples.two_pairs_out))
  /\ Detrend.residual_flux_lowess Samples.two_pairs_out
     = concat (map (Detrend.section_residuals Detrend.flat_lowess Samples.two_pairs)
                 (Detrend.calls Samples.two_pairs_out))
  /\ Detrend.residual_flux_lowess Samples.two_pairs_out
     = zip_with PrimFloat.div (Detrend.flux_cut Samples.two_pairs)
         (Detrend.full_lowess_flux Samples.two_pairs_out).
Proof.
  apply (residual_is_flux_over_trend Detrend.flat_lowess Samples.two_pairs).
  - apply flat_lowess_length.
  - split; [reflexivity | exact I].
  - vm_compute. reflexivity.
Defined.

(** C6: the output of the block keeps the input order.  The output
    timestamps are a subsequence of [t_cut] in the same order (all of it, in
    fact), non-decreasing when [t_cut] is, and the residual at position [i]
    is the flux over the trend of the sample whose timestamp is at position
    [i]. *)
Theorem output_keeps_input_order
    (lowess : Q -> list float -> list float -> list float)
    (inp : Detrend.input) (out : Detrend.state) :
  (forall f y x, length (lowess f y x) = length x) ->
  Detrend.paired inp ->
  Detrend.non_decreasing (Detrend.t_cut inp) ->
  Detrend.lowess_partial lowess inp = Ok out ->
  Detrend.time_from_lowess_detrend out `sublist_of` Detrend.t_cut inp
  /\ Detrend.non_decreasing (Detrend.time_from_lowess_detrend out)
  /\ forall i ts,
       Detrend.time_from_lowess_detrend out !! i = Some ts ->
       exists f tr,
         Detrend.t_cut inp !! i = Some ts
         /\ Detrend.flux_cut inp !! i = Some f
         /\ Detrend.full_lowess_flux out !! i = Some tr
         /\ Detrend.residual_flux_lowess out !! i = Some (PrimFloat.div f tr).
Proof.
  intros Hlen Hpaired Hsorted Hout.
  destruct (lowess_partial_values lowess inp Hlen Hpaired out Hout) as [Hres Hfull].
  apply lowess_partial_structure in Hout as (Htime & _).
  rewrite Htime. split; [reflexivity|]. split; [exact Hsorted|].
  intros i ts Hts.
  pose proof (lookup_lt_Some _ _ _ Hts) as Hi.
  destruct Hpaired as [Hflux _].
  destruct (lookup_lt_is_Some_2 (Detrend.flux_cut inp) i) as [f Hf]; [lia|].
  destruct (lookup_lt_is_Some_2 (Detrend.full_lowess_flux out) i) as [tr Htr]; [lia|].
  exists f, tr. repeat split; try assumption.
  rewrite Hres, lookup_zip_with, Hf. simpl. rewrite Htr. reflexivity.
Qed.

Lemma output_keeps_input_order_witness :
  Detrend.time_from_lowess_detrend Samples.short_then_long_out
    `sublist_of` Detrend.t_cut Samples.short_then_long
  /\ Detrend.non_decreasing (Detrend.time_from_lowess_detrend Samples.short_then_long_out)
  /\ forall i ts,
       Detrend.time_from_lowess_detrend Samples.short_then_long_out !! i = Some ts ->
       exists f tr,
         Detrend.t_cut Samples.short_then_long !! i = Some ts
         /\ Detrend.flux_cut Samples.short_then_long !! i = Some f
         /\ Detrend.full_lowess_flux Samples.short_then_long_out !! i = Some tr
         /\ Detrend.residual_flux_lowess Samples.short_then_long_out !! i
            = Some (PrimFloat.div f tr).
Proof.
  apply (output_keeps_input_order Detrend.flat_lowess Samples.short_then_long).
  - apply flat_lowess_length.
  - split; [reflexivity | exact I].
  - intros i x y Hx Hy.
    destruct i as [|[|[|[|i]]]]; simpl in Hx, Hy; try discriminate;
      injection Hx as <-; injection Hy as <-; reflexivity.
  - vm_compute. reflexivity.
Defined.

(** ** [clean_tess_lc] *)

Lemma for_each_total {I S : Type} (Inv : S -> Prop) (body : I -> S -> result S) idxs :
  (forall i s, Inv s -> exists s', body i s = Ok s' /\ Inv s') ->
  forall st, Inv st -> exists st', for_each body idxs st = Ok st' /\ Inv st'.
Proof.
  intros Hstep. induction idxs as [|i idxs IH]; intros st Hst; simpl.
  - eauto.
  - destruct (Hstep i st Hst) as (s' & -> & Hs'). simpl. apply IH, Hs'.
Qed.

Lemma setitem_returns {A : Type} (l : list A) (i : nat) (x : A) :
  (i < length l)%nat ->
  exists l', setitem l i x = Ok l' /\ length l' = length l.
Proof.
  intros Hi. unfold setitem. destruct (decide (i < length l)%nat); [|lia].
  eexists. split; [reflexivity | apply length_insert].
Qed.

Lemma keep_unmasked_sublist {A : Type} (a : list A) : forall mask,
  np.keep_unmasked a mask `sublist_of` a.
Proof.
  induction a as [|x a IH]; intros [|m mask]; simpl;
    try apply sublist_nil_l.
  destruct m; [apply sublist_cons | apply sublist_skip]; apply IH.
Qed.

Lemma keep_unmasked_zip {A B : Type} (a : list A) : forall (b : list B) mask,
  np.keep_unmasked (zip a b) mask
  = zip (np.keep_unmasked a mask) (np.keep_unmasked b mask).
Proof.
  induction a as [|x a IH]; intros [|y b] [|m mask]; simpl; try reflexivity.
  - destruct m; simpl; [symmetry; apply zip_with_nil_r | reflexivity].
  - destruct m; simpl; rewrite IH; reflexivity.
Qed.

Lemma keep_unmasked_length {A B : Type} (a : list A) : forall (b : list B) mask,
  length a = length b ->
  length (np.keep_unmasked a mask) = length (np.keep_unmasked b mask).
Proof.
  induction a as [|x a IH]; intros [|y b] [|m mask]; simpl; try reflexivity;
    try discriminate.
  intros [= H]. destruct m; simpl; rewrite (IH b mask H); reflexivity.
Qed.

Lemma index_not_returns {A : Type} (a : list A) (mask : list bool) :
  length a = length mask -> mask <> [] ->
  np.index_not a mask = Ok (np.keep_unmasked a mask).
Proof.
  intros H Hne. unfold np.index_not. destruct mask; [congruence|].
  rewrite H, Nat.eqb_refl. reflexivity.
Qed.

Lemma nonempty_length {A B : Type} (a : list A) (b : list B) :
  length a = length b -> b <> [] -> a <> [].
Proof. destruct a, b; simpl; congruence. Qed.

Section CleanProofs.

Import Clean.

Variable bad_times : Z -> list float.

Ltac mark_or_skip :=
  repeat match goal with
         | |- context [if ?c then _ else _] => destruct c
         end;
  try (apply setitem_returns; assumption);
  try (eexists; split; [reflexivity | reflexivity]).

Lemma sector3_keeps_length : keeps_length sector3_body.
Proof. intros x i fr Hi. unfold sector3_body. mark_or_skip. Qed.

Lemma sector4_keeps_length : keeps_length sector4_body.
Proof. intros x i fr Hi. unfold sector4_body. mark_or_skip. Qed.

Lemma sector15_keeps_length : keeps_length sector15_body.
Proof. intros x i fr Hi. unfold sector15_body. mark_or_skip. Qed.

Lemma sector18_keeps_length : keeps_length sector18_body.
Proof.
  intros x i fr Hi. unfold sector18_body.
  destruct (PrimFloat.ltb x 1791.5%float).
  - destruct (setitem_returns fr i true Hi) as (fr1 & -> & Hlen). simpl.
    rewrite <- Hlen in Hi. rewrite <- Hlen.
    destruct (PrimFloat.ltb 1813.48%float x).
    + apply setitem_returns, Hi.
    + eauto.
  - simpl. mark_or_skip.
Qed.

Lemma dump_keeps_length d : keeps_length (dump_body d).
Proof. intros x i fr Hi. unfold dump_body. mark_or_skip. Qed.

Lemma over_samples_returns time body fr :
  keeps_length body -> length fr = length time ->
  exists fr', over_samples time body fr = Ok fr' /\ length fr' = length time.
Proof.
  intros Hbody Hlen. unfold over_samples.
  destruct (for_range_total (fun _ s => length s = length time)
              (fun i s => x ← np.index time i; body x i s)
              (length time) fr Hlen) as (fr' & Hrun & Hfr'); [|eauto].
  intros i s Hi Hs. unfold np.index.
  destruct (lookup_lt_is_Some_2 time i Hi) as [x ->]. simpl.
  destruct (Hbody x i s) as (s' & Hs' & Hlen'); [lia|].
  exists s'. split; [exact Hs' | lia].
Qed.

Lemma sector_branch_returns sector time fr :
  1 <= sector <= 19 -> length fr = length time ->
  exists m fr', sector_branch bad_times sector time fr = Ok (Some m, fr')
                /\ length fr' = length time.
Proof.
  intros Hsector Hlen. unfold sector_branch.
  pose proof (over_samples_returns time _ fr sector3_keeps_length Hlen) as (f3 & H3 & L3).
  pose proof (over_samples_returns time _ fr sector4_keeps_length Hlen) as (f4 & H4 & L4).
  pose proof (over_samples_returns time _ fr sector15_keeps_length Hlen) as (f15 & H15 & L15).
  pose proof (over_samples_returns time _ fr sector18_keeps_length Hlen) as (f18 & H18 & L18).
  rewrite H3, H4, H15, H18. simpl.
  repeat match goal with
         | |- context [sector =? ?k] =>
             destruct (Z.eqb_spec sector k); [eauto|]
         end.
  lia.
Qed.

Lemma removal_mask_returns time sector :
  1 <= sector <= 19 ->
  exists mask, removal_mask bad_times time sector = Ok mask
               /\ length mask = length time.
Proof.
  intros Hsector. unfold removal_mask.
  destruct (sector_branch_returns sector time (replicate (length time) false) Hsector)
    as (m & fr & -> & Hfr); [apply length_replicate|]. simpl.
  apply (for_each_total (fun s => length s = length time)); [|exact Hfr].
  intros d s Hs. apply over_samples_returns; [apply dump_keeps_length | exact Hs].
Qed.

End CleanProofs.

(** C9 (as the code has it): for non-empty arrays of one length and a
    sector from 1 to 19, [clean_tess_lc] returns three arrays of one common length, at most the
    input length, cut out of the three inputs by one removal mask: the
    returned times are a subsequence of the input times, and every returned
    (time, flux, flux_err) triple is a triple of the input, in order. *)
Theorem clean_tess_lc_applies_one_mask
    (bad_times : Z -> list float) (time flux flux_err : list float) (sector : Z) :
  time <> [] ->
  length flux = length time ->
  length flux_err = length time ->
  1 <= sector <= 19 ->
  exists mask clean_time clean_flux clean_flux_err,
    Clean.clean_tess_lc bad_times time flux flux_err sector
    = Ok (clean_time, clean_flux, clean_flux_err)
    /\ length mask = length time
    /\ clean_time = np.keep_unmasked time mask
    /\ clean_flux = np.keep_unmasked flux mask
    /\ clean_flux_err = np.keep_unmasked flux_err mask
    /\ length clean_flux = length clean_time
    /\ length clean_flux_err = length clean_time
    /\ (length clean_time <= length time)%nat
    /\ clean_time `sublist_of` time
    /\ zip clean_time (zip clean_flux clean_flux_err)
       `sublist_of` zip time (zip flux flux_err).
Proof.
  intros Hne Hflux Herr Hsector.
  destruct (removal_mask_returns bad_times time sector Hsector) as (mask & Hmask & Hlen).
  pose proof (nonempty_length mask time Hlen Hne) as Hmne.
  exists mask, (np.keep_unmasked time mask), (np.keep_unmasked flux mask),
    (np.keep_unmasked flux_err mask).
  unfold Clean.clean_tess_lc. rewrite Hmask. simpl.
  rewrite !index_not_returns by (lia || assumption). simpl.
  repeat split.
  - exact Hlen.
  - apply keep_unmasked_length, Hflux.
  - apply keep_unmasked_length, Herr.
  - apply sublist_length, keep_unmasked_sublist.
  - apply keep_unmasked_sublist.
  - rewrite <- !keep_unmasked_zip. apply keep_unmasked_sublist.
Qed.

Lemma clean_tess_lc_applies_one_mask_witness :
  exists mask clean_time clean_flux clean_flux_err,
    Clean.clean_tess_lc Clean.sample_pickles Samples.four_times Samples.four_flux
      Samples.four_flux_err 1
    = Ok (clean_time, clean_flux, clean_flux_err)
    /\ length mask = length Samples.four_times
    /\ clean_time = np.keep_unmasked Samples.four_times mask
    /\ clean_flux = np.keep_unmasked Samples.four_flux mask
    /\ clean_flux_err = np.keep_unmasked Samples.four_flux_err mask
    /\ length clean_flux = length clean_time
    /\ length clean_flux_err = length clean_time
    /\ (length clean_time <= length Samples.four_times)%nat
    /\ clean_time `sublist_of` Samples.four_times
    /\ zip clean_time (zip clean_flux clean_flux_err)
       `sublist_of` zip Samples.four_times (zip Samples.four_flux Samples.four_flux_err).
Proof.
  apply clean_tess_lc_applies_one_mask;
    [discriminate | reflexivity | reflexivity | lia].
Defined.

(** C9, as stated, fails on the empty arrays: [np.array([])] is a float64
    array and [~] raises [TypeError] on it. *)
Lemma clean_tess_lc_empty_arrays :
  length (@nil float) = length (@nil float)
  /\ Clean.clean_tess_lc Clean.sample_pickles [] [] [] 1 = Raise TypeError
  /\ Clean.clean_tess_lc Clean.sample_pickles [] [] [] 3 = Raise TypeError.
Proof. vm_compute. repeat split. Qed.


(** ** [bin] *)

Lemma section_sizes_length ntotal nsections :
  (0 < nsections)%nat -> length (Bin.section_sizes ntotal nsections) = nsections.
Proof.
  intros H. unfold Bin.section_sizes.
  rewrite length_app, !length_replicate.
  pose proof (Nat.mod_upper_bound ntotal nsections). lia.
Qed.

Lemma section_sizes_sum ntotal nsections :
  (0 < nsections)%nat -> sum_list (Bin.section_sizes ntotal nsections) = ntotal.
Proof.
  intros H. unfold Bin.section_sizes.
  rewrite sum_list_with_app, !sum_list_replicate.
  pose proof (Nat.mod_upper_bound ntotal nsections).
  pose proof (Nat.div_mod_eq ntotal nsections). nia.
Qed.

Lemma sub_arys_length {A : Type} (ary : list A) sizes : forall st,
  length (Bin.sub_arys st sizes ary) = length sizes.
Proof. induction sizes as [|k sizes IH]; intros st; simpl; [|rewrite IH]; reflexivity. Qed.

Lemma sub_arys_concat {A : Type} (ary : list A) sizes : forall st,
  concat (Bin.sub_arys st sizes ary) = np.slice st (st + sum_list sizes) ary.
Proof.
  induction sizes as [|k sizes IH]; intros st; simpl.
  - unfold np.slice. replace (st + 0 - st)%nat with 0%nat by lia. reflexivity.
  - rewrite IH. unfold id. rewrite slice_app by lia. f_equal. lia.
Qed.

(** [np.array_split] cuts the array into [sections] consecutive parts. *)
Lemma array_split_parts {A : Type} (ary : list A) (sections : Z) :
  0 < sections ->
  exists parts, Bin.array_split ary sections = Ok parts
                /\ Z.of_nat (length parts) = sections
                /\ concat parts = ary.
Proof.
  intros H. unfold Bin.array_split.
  destruct (Z.leb_spec sections 0); [lia|].
  eexists. split; [reflexivity|]. split.
  - rewrite sub_arys_length, section_sizes_length; lia.
  - rewrite sub_arys_concat, section_sizes_sum by lia.
    apply slice_all. lia.
Qed.

Lemma take_indices_returns {A : Type} (a : list A) idx :
  Forall (fun i => (i < length a)%nat) idx ->
  exists xs, Bin.take_indices a idx = Ok xs /\ length xs = length idx.
Proof.
  induction 1 as [|i idx Hi _ (xs & IH & Hlen)]; simpl.
  - eauto.
  - unfold np.index. destruct (lookup_lt_is_Some_2 a i Hi) as [x ->]. simpl.
    rewrite IH. simpl. eexists. split; [reflexivity | simpl; lia].
Qed.

Lemma summarise_returns methodf (a : list float) indexes :
  Forall (Forall (fun i => (i < length a)%nat)) indexes ->
  exists xs, Bin.summarise methodf a indexes = Ok xs
             /\ length xs = length indexes.
Proof.
  induction 1 as [|idx indexes Hidx _ (xs & IH & Hlen)]; simpl.
  - eauto.
  - destruct (take_indices_returns a idx Hidx) as (sel & -> & _). simpl.
    rewrite IH. simpl. eexists. split; [reflexivity | simpl; lia].
Qed.

Lemma parts_of_range_in_range parts n :
  concat parts = seq 0 n -> Forall (Forall (fun i => (i < n)%nat)) parts.
Proof.
  intros H. apply Forall_concat. rewrite H.
  apply Forall_forall. intros i Hi. apply elem_of_seq in Hi. lia.
Qed.

Lemma sub_arys_lengths {A : Type} (ary : list A) sizes : forall st,
  (st + sum_list sizes <= length ary)%nat ->
  map length (Bin.sub_arys st sizes ary) = sizes.
Proof.
  induction sizes as [|k sizes IH]; intros st Hsum; [reflexivity|].
  cbn [Bin.sub_arys map].
  change (st + (k + sum_list sizes) <= length ary)%nat in Hsum.
  rewrite slice_length. rewrite IH by lia. f_equal. lia.
Qed.

(** No part is empty when there are no more parts than entries. *)
Lemma bins_not_empty {A : Type} (ary : list A) (k : nat) :
  (0 < k)%nat -> (k <= length ary)%nat ->
  Forall (fun p => p <> [])
    (Bin.sub_arys 0 (Bin.section_sizes (length ary) k) ary).
Proof.
  intros Hk Hle.
  assert (Forall (fun s => (1 <= s)%nat) (Bin.section_sizes (length ary) k))
    as Hsizes.
  { assert (1 <= length ary / k)%nat by (apply Nat.div_le_lower_bound; lia).
    unfold Bin.section_sizes. apply Forall_app. split.
    - destruct (Nat.eq_dec (length ary mod k)%nat 0%nat) as [->|Hr]; [constructor|].
      apply Forall_replicate. lia.
    - destruct (Nat.eq_dec (k - length ary mod k)%nat 0%nat) as [->|Hr]; [constructor|].
      apply Forall_replicate. lia. }
  rewrite <- (sub_arys_lengths ary (Bin.section_sizes (length ary) k) 0) in Hsizes
    by (rewrite section_sizes_sum by lia; lia).
  apply (proj1 (List.Forall_map _ _ _)) in Hsizes.
  eapply Forall_impl; [exact Hsizes|].
  intros p Hp ->. simpl in Hp. lia.
Qed.

Lemma take_indices_entries {A : Type} (a : list A) idx :
  Forall (fun i => (i < length a)%nat) idx ->
  Bin.take_indices a idx = Ok (Bin.entries_at a idx).
Proof.
  unfold Bin.entries_at.
  induction 1 as [|i idx Hi _ IH]; simpl; [reflexivity|].
  unfold np.index. destruct (lookup_lt_is_Some_2 a i Hi) as [x Hx].
  rewrite Hx. simpl. rewrite IH. reflexivity.
Qed.

Lemma summarise_entries methodf (a : list float) indexes :
  Forall (Forall (fun i => (i < length a)%nat)) indexes ->
  Bin.summarise methodf a indexes
  = Ok (map (fun idx => methodf (Bin.entries_at a idx)) indexes).
Proof.
  induction 1 as [|idx indexes Hidx _ IH]; simpl; [reflexivity|].
  rewrite (take_indices_entries a idx Hidx). simpl. rewrite IH. reflexivity.
Qed.

(** C10 (as the code has it): on two arrays of one length [n] and for
    [1 <= binsize <= n], with method ['mean'] or ['median'], [bin] cuts the
    indices [0 .. n-1] into [n // binsize] consecutive bins, each index in
    exactly one bin, and returns, bin by bin, the statistic of the times and
    of the fluxes at the indices of the bin: two arrays of [n // binsize]
    entries, and no sample ignored.  Any other method raises
    [ValueError]. *)
Theorem bin_covers_every_index
    (nanmean nanmedian : list float -> float)
    (time flux : list float) (binsize : Z) (method : string) :
  length time = length flux ->
  (method = "mean"%string \/ method = "median"%string ->
   1 <= binsize <= Z.of_nat (length flux) ->
   exists indexes,
     Bin.bin nanmean nanmedian time flux binsize method
     = Ok (map (fun idx => (if String.eqb method "mean" then nanmean else nanmedian)
                             (Bin.entries_at time idx)) indexes,
           map (fun idx => (if String.eqb method "mean" then nanmean else nanmedian)
                             (Bin.entries_at flux idx)) indexes)
     /\ Z.of_nat (length indexes) = Z.of_nat (length flux) / binsize
     /\ concat indexes = seq 0 (length flux)
     /\ Forall (fun idx => idx <> []) indexes)
  /\ (method <> "mean"%string -> method <> "median"%string ->
      Bin.bin nanmean nanmedian time flux binsize method = Raise ValueError).
Proof.
  intros Hlen. split.
  - intros Hmethod Hsize.
    assert (0 < Z.of_nat (length flux) / binsize) as Hbins
      by (apply Z.div_str_pos; lia).
    destruct (array_split_parts (seq 0 (length time))
                (Z.of_nat (length flux) / binsize) Hbins)
      as (indexes & Hsplit & Hcount & Hcat).
    assert (Bin.bin_indexes time flux binsize = Ok indexes) as Hidx.
    { unfold Bin.bin_indexes, Bin.floor_divide.
      destruct (Z.eqb_spec binsize 0); [lia|]. simpl. exact Hsplit. }
    pose proof (parts_of_range_in_range _ _ Hcat) as Hrange.
    exists indexes. repeat split; try lia.
    + unfold Bin.bin.
      replace (String.eqb method "mean" || String.eqb method "median") with true
        by (destruct Hmethod as [-> | ->]; reflexivity).
      simpl. rewrite Hidx. simpl.
      rewrite (summarise_entries _ time indexes Hrange). simpl.
      rewrite (summarise_entries _ flux indexes)
        by (rewrite <- Hlen; exact Hrange).
      reflexivity.
    + rewrite Hcat, Hlen. reflexivity.
    + unfold Bin.array_split in Hsplit.
      destruct (Z.leb_spec (Z.of_nat (length flux) / binsize) 0); [lia|].
      injection Hsplit as <-.
      apply bins_not_empty; [lia|].
      rewrite length_seq, Hlen. apply Nat2Z.inj_le.
      rewrite Z2Nat.id by lia. apply Z.div_le_upper_bound; nia.
  - intros Hmean Hmedian. unfold Bin.bin.
    destruct (String.eqb_spec method "mean"); [contradiction|].
    destruct (String.eqb_spec method "median"); [contradiction|].
    reflexivity.
Qed.

Lemma bin_covers_every_index_witness :
  exists indexes,
    Bin.bin Bin.first_entry Bin.first_entry Samples.seven_times
      Samples.seven_flux 3 "mean"
    = Ok (map (fun idx => Bin.first_entry (Bin.entries_at Samples.seven_times idx))
            indexes,
          map (fun idx => Bin.first_entry (Bin.entries_at Samples.seven_flux idx))
            indexes)
    /\ Z.of_nat (length indexes) = Z.of_nat (length Samples.seven_flux) / 3
    /\ concat indexes = seq 0 (length Samples.seven_flux)
    /\ Forall (fun idx => idx <> []) indexes.
Proof.
  apply (proj1 (bin_covers_every_index Bin.first_entry Bin.first_entry
                  Samples.seven_times Samples.seven_flux 3 "mean" eq_refl)).
  - left. reflexivity.
  - simpl. lia.
Defined.

(** C10, as stated, fails for a bin size below 1, which no more than
    [n >= binsize] excludes: [bin] raises instead of returning. *)
Lemma bin_size_below_one :
  (Z.of_nat (length Samples.seven_flux) >= 0)
  /\ Bin.bin Bin.first_entry Bin.first_entry Samples.seven_times
       Samples.seven_flux 0 "mean" = Raise ZeroDivisionError
  /\ Bin.bin Bin.first_entry Bin.first_entry Samples.seven_times
       Samples.seven_flux (-1) "mean" = Raise ValueError.
Proof. vm_compute. repeat split; discriminate. Qed.

(** ** The whole call: statements and the world *)

Section Oblivious.

Import Pipeline.

Lemma oblivious_ret {A : Type} (a : A) : oblivious (mret a).
Proof. intros l w1 w2. reflexivity. Qed.

Lemma oblivious_lift {A : Type} (r : result A) : oblivious (lift r).
Proof. intros l w1 w2. reflexivity. Qed.

Lemma oblivious_emit (e : event) : oblivious (emit e).
Proof. intros l w1 w2. reflexivity. Qed.

Lemma oblivious_get : oblivious get.
Proof. intros l w1 w2. reflexivity. Qed.

Lemma oblivious_modify (f : locals -> locals) : oblivious (modify f).
Proof. intros l w1 w2. reflexivity. Qed.

Lemma oblivious_read {A : Type} (var : locals -> option A) : oblivious (read var).
Proof. intros l w1 w2. unfold read. destruct (var l); reflexivity. Qed.

Lemma oblivious_bind {A B : Type} (m : M A) (k : A -> M B) :
  oblivious m -> (forall a, oblivious (k a)) -> oblivious (m ≫= k).
Proof.
  intros Hm Hk l w1 w2. unfold mbind, M_bind.
  specialize (Hm l w1 w2).
  destruct (m l w1) as [[r1 l1] w1'], (m l w2) as [[r2 l2] w2'].
  simpl in Hm. injection Hm as <- <-.
  destruct r1 as [a|e]; [apply Hk | reflexivity].
Qed.

Lemma oblivious_try {A : Type} (m : M A) (h : exn -> M A) :
  oblivious m -> (forall e, oblivious (h e)) -> oblivious (try_except m h).
Proof.
  intros Hm Hh l w1 w2. unfold try_except.
  specialize (Hm l w1 w2).
  destruct (m l w1) as [[r1 l1] w1'], (m l w2) as [[r2 l2] w2'].
  simpl in Hm. injection Hm as <- <-.
  destruct r1 as [a|e]; [reflexivity | apply Hh].
Qed.

Lemma oblivious_print_lines lines : oblivious (print_lines lines).
Proof.
  induction lines as [|line lines IH]; simpl.
  - apply oblivious_ret.
  - apply oblivious_bind; [apply oblivious_emit | intros _; exact IH].
Qed.

(** Statements that leave [target_ID] alone. *)
Lemma keeps_ret {A : Type} (a : A) : keeps_target (mret a).
Proof. intros l w. reflexivity. Qed.

Lemma keeps_lift {A : Type} (r : result A) : keeps_target (lift r).
Proof. intros l w. reflexivity. Qed.

Lemma keeps_emit (e : event) : keeps_target (emit e).
Proof. intros l w. reflexivity. Qed.

Lemma keeps_get : keeps_target get.
Proof. intros l w. reflexivity. Qed.

Lemma keeps_modify (f : locals -> locals) :
  (forall l, target_ID (f l) = target_ID l) -> keeps_target (modify f).
Proof. intros Hf l w. apply Hf. Qed.

Lemma keeps_read {A : Type} (var : locals -> option A) : keeps_target (read var).
Proof. intros l w. unfold read. destruct (var l); reflexivity. Qed.

Lemma keeps_bind {A B : Type} (m : M A) (k : A -> M B) :
  keeps_target m -> (forall a, keeps_target (k a)) -> keeps_target (m ≫= k).
Proof.
  intros Hm Hk l w. unfold mbind, M_bind.
  specialize (Hm l w).
  destruct (m l w) as [[r1 l1] w1']. simpl in Hm.
  destruct r1 as [a|e]; [rewrite Hk | simpl]; exact Hm.
Qed.

Lemma keeps_print_lines lines : keeps_target (print_lines lines).
Proof.
  induction lines as [|line lines IH]; simpl.
  - apply keeps_ret.
  - apply keeps_bind; [apply keeps_emit | intros _; exact IH].
Qed.

(** Agreement of two runs, statement by statement. *)
Lemma steady_bind {A B : Type} (m : M A) (k : A -> M B) :
  oblivious m -> (forall a, steady (k a)) -> steady (m ≫= k).
Proof.
  intros Hm Hk l w1 w2. unfold mbind, M_bind.
  specialize (Hm l w1 w2).
  destruct (m l w1) as [[r1 l1] w1'], (m l w2) as [[r2 l2] w2'].
  simpl in Hm. injection Hm as <- <-.
  destruct r1 as [a|e]; [apply Hk | split; [reflexivity | left; reflexivity]].
Qed.

Lemma steady_once_bound_bind {A B : Type} (m : M A) (k : A -> M B) :
  oblivious m -> keeps_target m -> (forall a, steady_once_bound (k a)) ->
  steady_once_bound (m ≫= k).
Proof.
  intros Hm Hkeep Hk l w1 w2 Hbound. unfold mbind, M_bind.
  specialize (Hm l w1 w2). specialize (Hkeep l w1).
  destruct (m l w1) as [[r1 l1] w1'], (m l w2) as [[r2 l2] w2'].
  simpl in Hm, Hkeep. injection Hm as <- <-.
  destruct r1 as [a|e].
  - apply Hk. congruence.
  - split; [reflexivity | left; reflexivity].
Qed.

(** Once [target_ID] has been read it is bound. *)
Lemma steady_read_target {B : Type} (k : string -> M B) :
  (forall tid, steady_once_bound (k tid)) -> steady (read target_ID ≫= k).
Proof.
  intros Hk l w1 w2. unfold mbind, M_bind, read.
  destruct (target_ID l) as [tid|] eqn:Htid.
  - apply Hk. congruence.
  - split; [reflexivity | left; reflexivity].
Qed.

End Oblivious.

Create HintDb oblivious discriminated.
Create HintDb keeps discriminated.

(** One step through a statement, by its head. *)
Ltac oblivious_step :=
  lazymatch goal with
  | |- Pipeline.oblivious (mret _) => apply oblivious_ret
  | |- Pipeline.oblivious (Pipeline.lift _) => apply oblivious_lift
  | |- Pipeline.oblivious (Pipeline.emit _) => apply oblivious_emit
  | |- Pipeline.oblivious Pipeline.get => apply oblivious_get
  | |- Pipeline.oblivious (Pipeline.modify _) => apply oblivious_modify
  | |- Pipeline.oblivious (Pipeline.read _) => apply oblivious_read
  | |- Pipeline.oblivious (Pipeline.print_lines _) => apply oblivious_print_lines
  | |- Pipeline.oblivious (mbind _ _) => apply oblivious_bind; [|intros ?]
  | |- Pipeline.oblivious (Pipeline.try_except _ _) => apply oblivious_try; [|intros ?]
  | |- Pipeline.oblivious (match ?x with _ => _ end) => destruct x
  | |- _ => solve [auto 1 with oblivious nocore]
  end.

Ltac oblivious := repeat oblivious_step.

Ltac keeps_step :=
  lazymatch goal with
  | |- Pipeline.keeps_target (mret _) => apply keeps_ret
  | |- Pipeline.keeps_target (Pipeline.lift _) => apply keeps_lift
  | |- Pipeline.keeps_target (Pipeline.emit _) => apply keeps_emit
  | |- Pipeline.keeps_target Pipeline.get => apply keeps_get
  | |- Pipeline.keeps_target (Pipeline.modify _) =>
      apply keeps_modify; intros ?; reflexivity
  | |- Pipeline.keeps_target (Pipeline.read _) => apply keeps_read
  | |- Pipeline.keeps_target (Pipeline.print_lines _) => apply keeps_print_lines
  | |- Pipeline.keeps_target (mbind _ _) => apply keeps_bind; [|intros ?]
  | |- Pipeline.keeps_target (match ?x with _ => _ end) => destruct x
  | |- _ => solve [auto 1 with keeps nocore]
  end.

Ltac keeps := repeat keeps_step.

Section WholeCall.

Import Pipeline.

Variable L : library.

Lemma oblivious_save_figures a tid names : oblivious (save_figures a tid names).
Proof.
  induction names as [|name names IH]; simpl.
  - apply oblivious_ret.
  - apply oblivious_bind; [apply oblivious_emit | intros _; exact IH].
Qed.

Lemma keeps_save_figures a tid names : keeps_target (save_figures a tid names).
Proof.
  induction names as [|name names IH]; simpl.
  - apply keeps_ret.
  - apply keeps_bind; [apply keeps_emit | intros _; exact IH].
Qed.

Hint Resolve oblivious_save_figures : oblivious.
Hint Resolve keeps_save_figures : keeps.

Lemma oblivious_download a : oblivious (download L a).
Proof. unfold download. oblivious. Qed.

Lemma oblivious_clean a : oblivious (clean L a).
Proof. unfold clean. oblivious. Qed.

Lemma oblivious_peak_cut a tid lc : oblivious (peak_cut L a tid lc).
Proof. unfold peak_cut. oblivious. Qed.

Lemma oblivious_apply_transit_mask a t f e : oblivious (apply_transit_mask L a t f e).
Proof. unfold apply_transit_mask. oblivious. Qed.

Lemma oblivious_detrend a tid t f c tr : oblivious (detrend L a tid t f c tr).
Proof. unfold detrend. oblivious. Qed.

Lemma oblivious_phase_fold_plot a tid t lc p e :
  oblivious (phase_fold_plot L a tid t lc p e).
Proof. unfold phase_fold_plot. oblivious. Qed.

Hint Resolve oblivious_phase_fold_plot : oblivious.

Lemma oblivious_search a tid l0 p t b c : oblivious (search L a tid l0 p t b c).
Proof. unfold search. oblivious. Qed.

Lemma oblivious_handler e : oblivious (handler e).
Proof. unfold handler. oblivious. Qed.

Lemma keeps_peak_cut a tid lc : keeps_target (peak_cut L a tid lc).
Proof. unfold peak_cut. keeps. Qed.

Lemma keeps_apply_transit_mask a t f e : keeps_target (apply_transit_mask L a t f e).
Proof. unfold apply_transit_mask. keeps. Qed.

Lemma keeps_detrend a tid t f c tr : keeps_target (detrend L a tid t f c tr).
Proof. unfold detrend. keeps. Qed.

Lemma keeps_phase_fold_plot a tid t lc p e :
  keeps_target (phase_fold_plot L a tid t lc p e).
Proof. unfold phase_fold_plot. keeps. Qed.

Hint Resolve keeps_phase_fold_plot : keeps.

Lemma keeps_search a tid l0 p t b c : keeps_target (search L a tid l0 p t b c).
Proof. unfold search. keeps. Qed.

(** The two writers may do as the files that are there make them, but
    nothing after them binds a variable: the locals stay as they are, and
    [target_ID] is bound by then. *)
Lemma steady_save a tid l0 t b row : steady_once_bound (save L a tid l0 t b row).
Proof.
  intros l w1 w2 Hbound. unfold save, in_world, emit, mbind, M_bind.
  split.
  - destruct (append_row L w1 _ _ _ _), (append_row L w2 _ _ _ _);
      cbn; try reflexivity;
      repeat match goal with
             | |- context [write_detrended_lc L ?w ?p ?x ?y ?z] =>
                 destruct (write_detrended_lc L w p x y z)
             end; reflexivity.
  - right.
    destruct (append_row L w1 _ _ _ _); cbn; try exact Hbound;
      destruct (write_detrended_lc L _ _ _ _ _); exact Hbound.
Qed.

Hint Resolve oblivious_download oblivious_clean oblivious_peak_cut
  oblivious_apply_transit_mask oblivious_detrend oblivious_search
  oblivious_handler : oblivious.
Hint Resolve keeps_peak_cut keeps_apply_transit_mask keeps_detrend keeps_search
  : keeps.

(** Two runs of the body, from two worlds. *)
Lemma steady_body a : steady (body L a).
Proof.
  unfold body.
  apply steady_bind; [oblivious | intros _].
  apply steady_bind; [oblivious | intros _].
  apply steady_bind; [oblivious | intros l].
  apply steady_bind; [oblivious | intros p_rot].
  apply steady_read_target. intros tid.
  apply steady_once_bound_bind; [oblivious | keeps | intros _].
  apply steady_once_bound_bind; [oblivious | keeps | intros [[[t f] e] c]].
  apply steady_once_bound_bind; [oblivious | keeps | intros transit].
  apply steady_once_bound_bind; [oblivious | keeps | intros bls].
  apply steady_once_bound_bind; [oblivious | keeps | intros _].
  apply steady_once_bound_bind; [oblivious | keeps | intros row].
  apply steady_save.
Qed.

(** The handlers and the [return] read the locals only. *)
Lemma returned_values_agree a l w1 w2 :
  (ffi_lowess_detrend L a l w1).1.1 = (ffi_lowess_detrend L a l w2).1.1.
Proof.
  unfold ffi_lowess_detrend.
  match goal with |- context [mbind ?k (try_except _ _)] => set (K := k) end.
  assert (forall u l0 u1 u2, (K u l0 u1).1.1 = (K u l0 u2).1.1) as HK.
  { intros [] l0 u1 u2. subst K. cbv beta.
    unfold mbind, M_bind, read, mret, M_ret.
    destruct (t_cut l0), (BLS_flux l0), (phase l0), (epoch l0), (period l0);
      reflexivity. }
  destruct (steady_body a l w1 w2) as [Hlocals Hresult].
  unfold mbind, M_bind, try_except.
  destruct (body L a l w1) as [[r1 l1] w1'], (body L a l w2) as [[r2 l2] w2'].
  simpl in Hlocals, Hresult. subst l2.
  assert (forall e w, target_ID l1 <> None ->
                      exists w', handler e l1 w = (Ok tt, l1, w')) as Hhandler.
  { intros e w Hb.
    destruct (target_ID l1) as [tid|] eqn:Htid; [|congruence].
    destruct e; cbv beta iota delta [handler mbind M_bind read emit];
      rewrite Htid; eexists; reflexivity. }
  destruct Hresult as [<- | Hbound].
  - destruct r1 as [[]|e]; [apply HK|].
    pose proof (oblivious_handler e l1 w1' w2') as Ho.
    destruct (handler e l1 w1') as [[ra la] wa], (handler e l1 w2') as [[rb lb] wb].
    simpl in Ho. injection Ho as <- <-.
    destruct ra as [[]|]; [apply HK | reflexivity].
  - destruct r1 as [[]|e1], r2 as [[]|e2].
    + apply HK.
    + destruct (Hhandler e2 w2' Hbound) as [w2'' ->]. apply HK.
    + destruct (Hhandler e1 w1' Hbound) as [w1'' ->]. apply HK.
    + destruct (Hhandler e1 w1' Hbound) as [w1'' ->].
      destruct (Hhandler e2 w2' Hbound) as [w2'' ->]. apply HK.
Qed.

End WholeCall.

(** C8: the outputs of a call do not depend on what earlier calls left
    behind, whatever the two writers of csv files make of it.  From any two
    worlds the call returns the same tuple
    [(t_cut, BLS_flux, phase, epoch, period)] or raises the same exception:
    the five variables are bound before the first writer is called, and an
    exception of a writer is caught.  In particular a second run, started in
    the world the first run left, gives the result of the first. *)
Theorem rerun_gives_identical_outputs
    (L : Pipeline.library) (a : Pipeline.args) (w1 w2 : Pipeline.world) :
  (Pipeline.call L a w1).1 = (Pipeline.call L a w2).1
  /\ (Pipeline.call L a (Pipeline.call L a w1).2).1 = (Pipeline.call L a w1).1.
Proof.
  assert (forall u v, (Pipeline.call L a u).1 = (Pipeline.call L a v).1) as Hsame.
  { intros u v. unfold Pipeline.call.
    pose proof (returned_values_agree L a (Pipeline.entry a) u v) as H.
    destruct (Pipeline.ffi_lowess_detrend L a (Pipeline.entry a) u) as [[r1 l1] u'].
    destruct (Pipeline.ffi_lowess_detrend L a (Pipeline.entry a) v) as [[r2 l2] v'].
    simpl in H |- *. exact H. }
  split; apply Hsame.
Qed.

(** C7 at an unavailable light curve: when [get_lc_from_fits] raises, both
    handlers raise in turn while formatting the still unbound [target_ID];
    the call raises [UnboundLocalError] and prints nothing. *)
Theorem unavailable_light_curve_escapes
    (L : Pipeline.library) (a : Pipeline.args) (w : Pipeline.world) (e : exn) :
  Pipeline.multi_sector a = None ->
  Pipeline.pipeline a = "CDIPS"%string ->
  Pipeline.get_lc_from_fits L (Pipeline.filename a) (Pipeline.pipeline a)
    (Pipeline.save_path a) = Raise e ->
  Pipeline.call L a w = (Raise UnboundLocalError, w).
Proof.
  intros Hms Hp Hget.
  unfold Pipeline.call, Pipeline.ffi_lowess_detrend, Pipeline.body, Pipeline.download.
  rewrite Hms. rewrite Hp in *. 
  cbn [String.eqb Ascii.eqb Bool.eqb].
  unfold mbind, Pipeline.M_bind, Pipeline.try_except, Pipeline.lift, Pipeline.modify,
    Pipeline.read, Pipeline.handler.
  rewrite Hget. cbn.
  destruct e; reflexivity.
Qed.

Lemma unavailable_light_curve_escapes_witness :
  Pipeline.call Samples.toy_library (Samples.script_args "missing.fits") []
  = (Raise UnboundLocalError, []).
Proof.
  apply (unavailable_light_curve_escapes Samples.toy_library
           (Samples.script_args "missing.fits") [] OtherError);
    reflexivity.
Defined.

(** With any pipeline other than ['CDIPS'] (the default ['2min'] too) no
    branch binds [target_ID]: the call prints 'Invalid pipeline' and raises
    [UnboundLocalError] out of its own handler. *)
Lemma invalid_pipeline_escapes
    (L : Pipeline.library) (a : Pipeline.args) (w : Pipeline.world) :
  Pipeline.multi_sector a = None ->
  Pipeline.pipeline a <> "CDIPS"%string ->
  Pipeline.call L a w
  = (Raise UnboundLocalError, w ++ [Pipeline.Printed "Invalid pipeline"]).
Proof.
  intros Hms Hp.
  unfold Pipeline.call, Pipeline.ffi_lowess_detrend, Pipeline.body,
    Pipeline.download, Pipeline.clean.
  rewrite Hms.
  destruct (String.eqb_spec (Pipeline.pipeline a) "CDIPS"); [contradiction|].
  reflexivity.
Qed.

(** Two runs in a row with a [to_csv] that does not overwrite: the first
    writes the detrended light curve, the second finds it there, prints
    'Some other error for TIC 1', and returns the five values of the
    first. *)
Lemma second_run_repeats_first :
  (Pipeline.call Samples.toy_library (Samples.script_args_with 3 "ok.fits") []).1
  = Ok ([1%float; 2%float; 3%float], [10%float; 11%float; 12%float],
        Pipeline.fold_phase Samples.toy_library [1%float; 2%float; 3%float]
          2%float 5%float,
        2%float, 5%float)
  /\ last (Pipeline.call Samples.toy_library (Samples.script_args_with 3 "ok.fits")
             []).2
     = Some (Pipeline.WroteLightCurve "out/Detrended_lcs/TIC 1_detrended_lc.csv")
  /\ (Pipeline.call Samples.toy_library (Samples.script_args_with 3 "ok.fits")
        (Pipeline.call Samples.toy_library (Samples.script_args_with 3 "ok.fits")
           []).2).1
     = (Pipeline.call Samples.toy_library (Samples.script_args_with 3 "ok.fits") []).1
  /\ last (Pipeline.call Samples.toy_library (Samples.script_args_with 3 "ok.fits")
             (Pipeline.call Samples.toy_library
                (Samples.script_args_with 3 "ok.fits") []).2).2
     = Some (Pipeline.Printed "Some other error for TIC 1").
Proof. vm_compute. repeat split. Qed.

(** With the default [n_bins = 30] the three samples of the toy light curve
    make a final section of three points: the smoother rejects the fraction
    30/3, the handler prints its line, and the [return] finds [BLS_flux]
    unbound. *)
Lemma short_light_curve_escapes :
  Pipeline.call Samples.toy_library (Samples.script_args "ok.fits") []
  = (Raise UnboundLocalError,
     [Pipeline.Printed "TIC 1"; Pipeline.Printed "Rotation Period = xd";
      Pipeline.Printed "Flux cut skipped";
      Pipeline.Printed "Skipped one gap"; Pipeline.Printed "Skipped one gap";
      Pipeline.Printed "Some other error for TIC 1"]).
Proof. vm_compute. reflexivity. Qed.

(** * Further properties *)

(** ** The detrending block: errors and accounting *)

(** An empty light curve: the loop does nothing and the final section
    divides [n_bins] by zero; with a flux array that is not empty the first
    [plt.scatter] raises before that. *)
Theorem empty_light_curve_raises
    (lowess : Q -> list float -> list float -> list float)
    (flux : list float) (transit : option (list float * list float))
    (pipeline : string) (n_bins : Z) (injected : bool) :
  Detrend.lowess_partial lowess
    {| Detrend.t_cut := []; Detrend.flux_cut := flux; Detrend.transit := transit;
       Detrend.pipeline := pipeline; Detrend.n_bins := n_bins;
       Detrend.injected_planet := injected |}
  = match flux with
    | [] => Raise ZeroDivisionError
    | _ :: _ => Raise ValueError
    end.
Proof. destruct flux; reflexivity. Qed.

(** A light curve of fewer than [n_bins] samples is never detrended: every
    gap is skipped, the final section is the whole light curve, and the
    smoother rejects its arguments, a fraction above 1 among them. *)
Theorem short_light_curve_raises
    (lowess : Q -> list float -> list float -> list float) (inp : Detrend.input) :
  Detrend.t_cut inp <> [] ->
  Z.of_nat (length (Detrend.t_cut inp)) < Detrend.effective_n_bins inp ->
  Detrend.lowess_partial lowess inp = Raise ValueError.
Proof.
  intros Hne Hshort.
  assert (0 < length (Detrend.t_cut inp))%nat as Hlen
    by (destruct (Detrend.t_cut inp); [congruence | simpl; lia]).
  unfold Detrend.lowess_partial, Detrend.run, Detrend.gaps.
  unfold mbind at 1. unfold Detrend.M_bind.
  unfold mbind at 1. unfold Detrend.M_bind, Detrend.lift.
  destruct (plt.scatter _ _) as [[]|e] eqn:Hscatter;
    [|unfold plt.scatter in Hscatter;
      destruct (Nat.eqb _ _); [discriminate | injection Hscatter as <-; reflexivity]].
  destruct (loop_over_total
              (fun _ s => Detrend.low_bound s = 0%nat)
              (Detrend.loop_body lowess inp (np.diff (Detrend.t_cut inp)))
              (length (Detrend.t_cut inp) - 1) Detrend.initial)
    as (st & -> & Hlow); [reflexivity | |].
  - intros i s Hi Hs. unfold Detrend.loop_body, np.index. block_unfold.
    destruct (lookup_lt_is_Some_2 (np.diff (Detrend.t_cut inp)) i) as [d ->];
      [rewrite diff_length; exact Hi|].
    destruct (PrimFloat.ltb Detrend.gap_threshold d); [|eauto].
    destruct (Z.geb_spec (Z.of_nat (length (np.slice (Detrend.low_bound s) (i + 1)
                (Detrend.t_cut inp)))) (Detrend.effective_n_bins inp)) as [Hge|_];
      [rewrite slice_length in Hge; lia|].
    eexists. split; [reflexivity | exact Hs].
  - unfold Detrend.final_section. block_unfold. rewrite Hlow.
    unfold true_divide.
    destruct (Z.eqb_spec (Z.of_nat (length (np.slice 0 (length (Detrend.t_cut inp))
                (Detrend.t_cut inp)))) 0) as [Hz|Hnz];
      [rewrite slice_length in Hz; lia|].
    destruct (Detrend.lowess_args inp 0 (length (Detrend.t_cut inp))) as [en ex].
    cbv beta iota delta [Detrend.frac Detrend.endog Detrend.exog].
    unfold Detrend.sm_lowess.
    destruct (negb (Nat.eqb (length en) (length ex))); [reflexivity|].
    replace (Qle_bool
               (Detrend.effective_n_bins inp
                # Z.to_pos (Z.of_nat (length (np.slice 0 (length (Detrend.t_cut inp))
                                                (Detrend.t_cut inp))))) 1)
      with false; [rewrite andb_false_r; reflexivity|].
    symmetry. apply not_true_is_false. rewrite Qle_bool_iff.
    unfold Qle. simpl. rewrite Z2Pos.id by lia.
    rewrite slice_length in *. lia.
Qed.

Lemma short_light_curve_raises_witness :
  Detrend.lowess_partial Detrend.flat_lowess Samples.three_points = Raise ValueError.
Proof.
  apply short_light_curve_raises.
  - discriminate.
  - vm_compute. reflexivity.
Defined.

(** When the arrays are paired, [n_bins] is positive, the samples after the
    last gap are at least [n_bins] and no planet is injected, the block
    returns: no division by zero, no fraction out of range, no shape
    error. *)
Theorem detrending_returns
    (lowess : Q -> list float -> list float -> list float) (inp : Detrend.input) :
  (forall f y x, length (lowess f y x) = length x) ->
  Detrend.paired inp ->
  mask_paired inp ->
  0 < Detrend.effective_n_bins inp <= points_after_last_gap inp ->
  Detrend.injected_planet inp = false ->
  exists out, Detrend.lowess_partial lowess inp = Ok out.
Proof.
  intros Hlen Hpaired Hmask [Hpos Hn] Hinj.
  destruct (gap_loop_returns lowess inp Hlen Hpaired Hmask Hpos)
    as (st & Hloop & _ & Hlast).
  destruct (final_section_runs lowess inp Hlen Hpaired Hmask Hpos st Hlast Hn)
    as (fr & en & ex & _ & Hfinal).
  rewrite Hinj in Hfinal.
  eexists. apply lowess_partial_Ok. exists st. split; [exact Hloop | exact Hfinal].
Qed.

Lemma detrending_returns_witness :
  exists out, Detrend.lowess_partial Detrend.flat_lowess Samples.two_pairs = Ok out.
Proof.
  apply detrending_returns.
  - apply flat_lowess_length.
  - split; [reflexivity | exact I].
  - exact I.
  - vm_compute. split; [reflexivity | discriminate].
  - reflexivity.
Defined.

(** With a planet to inject the block never returns: on a light curve on
    which it would return otherwise, it raises [NameError] at the first
    [savefig], whose file name reads [params], a name the function never
    binds. *)
Theorem injected_planet_raises_name_error
    (lowess : Q -> list float -> list float -> list float) (inp : Detrend.input) :
  (forall f y x, length (lowess f y x) = length x) ->
  Detrend.paired inp ->
  mask_paired inp ->
  0 < Detrend.effective_n_bins inp <= points_after_last_gap inp ->
  Detrend.injected_planet inp = true ->
  Detrend.lowess_partial lowess inp = Raise NameError.
Proof.
  intros Hlen Hpaired Hmask [Hpos Hn] Hinj.
  destruct (gap_loop_returns lowess inp Hlen Hpaired Hmask Hpos)
    as (st & Hloop & _ & Hlast).
  destruct (final_section_runs lowess inp Hlen Hpaired Hmask Hpos st Hlast Hn)
    as (fr & en & ex & _ & Hfinal).
  rewrite Hinj in Hfinal.
  unfold Detrend.gap_loop in Hloop. apply returned_Ok in Hloop.
  unfold Detrend.lowess_partial, Detrend.run.
  unfold mbind at 1. unfold Detrend.M_bind.
  rewrite Hloop, Hfinal. reflexivity.
Qed.

Lemma injected_planet_raises_name_error_witness :
  Detrend.lowess_partial Detrend.flat_lowess (with_injected_planet Samples.two_pairs)
  = Raise NameError.
Proof.
  apply injected_planet_raises_name_error.
  - apply flat_lowess_length.
  - split; [reflexivity | exact I].
  - exact I.
  - vm_compute. split; [reflexivity | discriminate].
  - reflexivity.
Defined.


Lemma gap_count_succ (inp : Detrend.input) (k : nat) :
  gap_count inp (Datatypes.S k)
  = (gap_count inp k + if Detrend.is_gap inp k then 1 else 0)%nat.
Proof.
  unfold gap_count. rewrite seq_S, List.filter_app, length_app. simpl.
  destruct (Detrend.is_gap inp k); reflexivity.
Qed.

(** Every gap the loop meets is either accepted (one call of the smoother)
    or logged ('Skipped one gap'); with the call of the final section, the
    calls and the log lines of a run add up to the number of gaps plus
    one. *)
Theorem every_gap_accepted_or_logged
    (lowess : Q -> list float -> list float -> list float)
    (inp : Detrend.input) (out : Detrend.state) :
  Detrend.lowess_partial lowess inp = Ok out ->
  (length (Detrend.calls out) + length (Detrend.stdout out))%nat
  = (gap_count inp (length (Detrend.t_cut inp) - 1) + 1)%nat.
Proof.
  rewrite lowess_partial_Ok. intros (st & Hloop & Hfinal).
  assert ((length (Detrend.calls st) + length (Detrend.stdout st))%nat
          = gap_count inp (length (Detrend.t_cut inp) - 1)) as Hcount.
  { apply gap_loop_Ok in Hloop as [_ Hloop].
    apply (loop_over_inv
             (fun k s => (length (Detrend.calls s) + length (Detrend.stdout s))%nat
                         = gap_count inp k)) in Hloop; [exact Hloop | reflexivity |].
    intros k s s' _ Hs Hbody. rewrite gap_count_succ.
    apply loop_body_cases in Hbody
      as [(Hg & ->) | [(Hg & _ & ->) | (c & res & Hg & _ & _ & _ & _ & _ & ->)]];
      rewrite Hg; simpl; rewrite ?length_app; simpl; lia. }
  apply final_section_cases in Hfinal as (c & res & _ & _ & _ & _ & _ & _ & _ & ->).
  simpl. rewrite length_app. simpl. lia.
Qed.

Lemma every_gap_accepted_or_logged_witness :
  (length (Detrend.calls Samples.short_then_long_out)
   + length (Detrend.stdout Samples.short_then_long_out))%nat
  = (gap_count Samples.short_then_long
       (length (Detrend.t_cut Samples.short_then_long) - 1)
     + 1)%nat.
Proof.
  apply (every_gap_accepted_or_logged Detrend.flat_lowess).
  vm_compute. reflexivity.
Defined.



(** ** The block of the binning script: a section per gap *)

Lemma zip_shift_snoc {A : Type} (b : list A) : forall (a x y : A),
  last (a :: b) = Some y ->
  zip (a :: b) (b ++ [x]) = zip (a :: b) b ++ [(y, x)].
Proof.
  induction b as [|c b IH]; intros a x y Hlast.
  - simpl in Hlast. injection Hlast as ->. reflexivity.
  - change (zip (a :: c :: b) ((c :: b) ++ [x]))
      with ((a, c) :: zip (c :: b) (b ++ [x])).
    rewrite (IH c x y) by exact Hlast. reflexivity.
Qed.

Lemma zip_longer_left {A B : Type} (l l' : list A) : forall (k : list B),
  (length k <= length l)%nat -> zip (l ++ l') k = zip l k.
Proof.
  induction l as [|a l IH]; intros [|b k] Hlen; simpl in *; try reflexivity;
    try lia.
  - destruct l'; reflexivity.
  - f_equal. apply IH. lia.
Qed.

Section BinningProofs.

Import Binning.

Variable lowess : Q -> list float -> list float -> list float.
Variable inp : input.

Lemma boundaries_succ k :
  boundaries inp (Datatypes.S k)
  = boundaries inp k ++ (if is_gap inp k then [Datatypes.S k] else []).
Proof.
  unfold boundaries. rewrite seq_S, List.filter_app, map_app. simpl.
  destruct (is_gap inp k); reflexivity.
Qed.

(** What detrending one section does when it returns. *)
Lemma detrend_section_cases low high st st' :
  detrend_section lowess inp low high st = Ok st' ->
  (low < high)%nat /\ (low < length (t_cut inp))%nat
  /\ low_bound st' = high
  /\ segments st' = segments st ++ [(low, high)]
  /\ time_from_lowess_detrend st'
     = time_from_lowess_detrend st ++ np.slice low high (t_cut inp).
Proof.
  unfold detrend_section, lowess_args. intros H.
  apply bind_Ok in H as ([[fr en] ex] & Hargs & H).
  apply bind_Ok in H as (lowess_flux_section & _ & H).
  apply bind_Ok in H as ([] & _ & H).
  apply bind_Ok in H as (res & _ & H). injection H as <-.
  assert (Z.of_nat (length (np.slice low high (t_cut inp))) <> 0) as Hnz.
  { destruct (transit inp) as [[tm fm]|];
      apply bind_Ok in Hargs as (fr' & Hfr & _); unfold true_divide in Hfr;
      destruct (Z.eqb_spec (Z.of_nat (length (np.slice low high (t_cut inp)))) 0);
      congruence. }
  rewrite slice_length in Hnz.
  unfold segments. simpl. rewrite map_app. simpl.
  repeat split; try reflexivity; lia.
Qed.

Lemma binning_loop_inv_step k st st' :
  loop_inv inp k st ->
  loop_body lowess inp (np.diff (t_cut inp)) k st = Ok st' ->
  loop_inv inp (Datatypes.S k) st'.
Proof.
  intros (Hlow & Hlast & Hseg & Htime) Hbody.
  unfold loop_body, np.index in Hbody. unfold loop_inv.
  rewrite boundaries_succ. unfold is_gap.
  destruct (np.diff (t_cut inp) !! k) as [d|]; [|discriminate]. simpl in Hbody.
  destruct (PrimFloat.ltb Detrend.gap_threshold d).
  - apply detrend_section_cases in Hbody as (_ & _ & Hlow' & Hseg' & Htime').
    repeat split.
    + lia.
    + rewrite Hlow', app_comm_cons, last_snoc. f_equal. lia.
    + rewrite Hseg', Hseg.
      rewrite app_comm_cons, zip_longer_left by (rewrite length_app; simpl; lia).
      rewrite (zip_shift_snoc _ _ _ _ Hlast). do 3 f_equal. lia.
    + rewrite Htime', Htime, Hlow'. rewrite take_slice by lia. reflexivity.
  - injection Hbody as <-. rewrite app_nil_r. repeat split; auto.
Qed.

Lemma binning_gap_loop_inv st :
  gap_loop lowess inp = Ok st -> loop_inv inp (length (t_cut inp) - 1) st.
Proof.
  unfold gap_loop. intros H. apply bind_Ok in H as ([] & _ & H).
  revert H. apply for_range_inv.
  - unfold loop_inv, initial. simpl. repeat split; auto.
  - intros k s s' _. apply binning_loop_inv_step.
Qed.

End BinningProofs.

(** In the binning script every gap closes a section, whatever its length:
    the sections of a run are cut exactly at the gaps (from 0 to the index
    after the first gap, ..., from the index after the last gap to the end),
    and the output timestamps are all of [t_cut]. *)
Theorem binning_cuts_at_every_gap
    (lowess : Q -> list float -> list float -> list float)
    (inp : Binning.input) (out : Binning.state) :
  Binning.lowess_partial lowess inp = Ok out ->
  Binning.segments out
  = zip (0%nat :: Binning.boundaries inp (length (Binning.t_cut inp) - 1))
        (Binning.boundaries inp (length (Binning.t_cut inp) - 1)
         ++ [length (Binning.t_cut inp)])
  /\ Binning.time_from_lowess_detrend out = Binning.t_cut inp.
Proof.
  unfold Binning.lowess_partial. intros H.
  apply bind_Ok in H as (st & Hloop & Hfinal).
  apply binning_gap_loop_inv in Hloop as (Hlow & Hlast & Hseg & Htime).
  unfold Binning.final_section in Hfinal.
  apply bind_Ok in Hfinal as (st' & Hsec & Hfinal). injection Hfinal as <-.
  apply detrend_section_cases in Hsec as (_ & Hlt & _ & Hseg' & Htime').
  unfold Binning.segments in *. simpl. split.
  - rewrite Hseg', Hseg. symmetry. apply zip_shift_snoc, Hlast.
  - rewrite Htime', Htime, take_slice by lia. apply take_ge. lia.
Qed.

Lemma binning_cuts_at_every_gap_witness :
  Binning.segments Binning.two_bursts_out
  = zip (0%nat :: Binning.boundaries Binning.two_bursts
                    (length (Binning.t_cut Binning.two_bursts) - 1))
        (Binning.boundaries Binning.two_bursts
           (length (Binning.t_cut Binning.two_bursts) - 1)
         ++ [length (Binning.t_cut Binning.two_bursts)])
  /\ Binning.time_from_lowess_detrend Binning.two_bursts_out
     = Binning.t_cut Binning.two_bursts.
Proof.
  apply (binning_cuts_at_every_gap Detrend.flat_lowess).
  vm_compute. reflexivity.
Defined.

(** ** [clean_tess_lc]: which samples go *)

(** A loop that marks the samples satisfying [p]. *)
Lemma over_samples_marks (p : float -> bool) body (time : list float)
    (fr : list bool) :
  (forall x i s, (i < length s)%nat ->
                 body x i s = Ok (if p x then <[i := true]> s else s)) ->
  length fr = length time ->
  Clean.over_samples time body fr = Ok (zip_with (fun x b => b || p x) time fr).
Proof.
  intros Hbody Hlen. unfold Clean.over_samples.
  set (R := zip_with (fun x b => b || p x) time fr).
  assert (length R = length time) as HR
    by (unfold R; rewrite length_zip_with; lia).
  destruct (for_range_total (fun k s => s = take k R ++ drop k fr)
              (fun i s => x ← np.index time i; body x i s) (length time) fr)
    as (st & -> & Hst).
  - rewrite take_0, drop_0. reflexivity.
  - intros k s Hk ->. unfold np.index.
    destruct (lookup_lt_is_Some_2 time k Hk) as [x Hx].
    destruct (lookup_lt_is_Some_2 fr k) as [b Hb]; [lia|].
    rewrite Hx. simpl.
    rewrite Hbody by (rewrite length_app, length_take, length_drop; lia).
    eexists. split; [reflexivity|].
    assert (R !! k = Some (b || p x)) as HRk
      by (unfold R; rewrite lookup_zip_with, Hx; simpl; rewrite Hb; reflexivity).
    rewrite (take_S_r _ _ _ HRk), (drop_S _ _ _ Hb), <- app_assoc. simpl.
    destruct (p x).
    + rewrite insert_app_r_alt by (rewrite length_take; lia).
      rewrite length_take. replace (k - k `min` length R)%nat with 0%nat by lia.
      simpl. rewrite orb_true_r. reflexivity.
    + rewrite orb_false_r. reflexivity.
  - rewrite Hst, take_ge, drop_ge by lia. rewrite app_nil_r. reflexivity.
Qed.

Lemma setitem_in_range {A : Type} (l : list A) (i : nat) (x : A) :
  (i < length l)%nat -> setitem l i x = Ok (<[i := x]> l).
Proof. intros Hi. unfold setitem. destruct (decide (i < length l)%nat); [reflexivity | lia]. Qed.

Lemma zip_with_keep (time : list float) : forall fr : list bool,
  length fr = length time -> zip_with (fun _ b => b || false) time fr = fr.
Proof.
  induction time as [|x time IH]; intros [|b fr] Hlen; simpl in *;
    try reflexivity; try lia.
  rewrite orb_false_r, IH by lia. reflexivity.
Qed.

Lemma zip_with_twice {A B : Type} (f g : A -> B -> B) (l : list A) :
  forall k : list B,
    zip_with f l (zip_with g l k) = zip_with (fun x b => f x (g x b)) l k.
Proof.
  induction l as [|x l IH]; intros [|b k]; simpl; try reflexivity.
  rewrite IH. reflexivity.
Qed.

Lemma zip_with_map_same {A B C : Type} (f : A -> B -> C) (g : A -> B) (l : list A) :
  zip_with f l (map g l) = map (fun x => f x (g x)) l.
Proof. induction l as [|x l IH]; simpl; [|rewrite IH]; reflexivity. Qed.

Lemma map_const_false {A : Type} (l : list A) :
  map (fun _ => false) l = replicate (length l) false.
Proof. induction l as [|x l IH]; simpl; [|rewrite IH]; reflexivity. Qed.

Section CleanMask.

Import Clean.

Variable bad_times : Z -> list float.

Lemma sector3_marks x i s :
  (i < length s)%nat ->
  sector3_body x i s = Ok (if sector_window 3 x then <[i := true]> s else s).
Proof.
  intros Hi. unfold sector3_body, sector_window. simpl.
  rewrite (setitem_in_range s i true Hi).
  destruct (PrimFloat.ltb x 1385.8966%float),
    (PrimFloat.ltb 1406.2925%float x),
    (PrimFloat.ltb 1395.4800%float x),
    (PrimFloat.ltb x 1396.6050%float); reflexivity.
Qed.

Lemma sector4_marks x i s :
  (i < length s)%nat ->
  sector4_body x i s = Ok (if sector_window 4 x then <[i := true]> s else s).
Proof.
  intros Hi. unfold sector4_body, sector_window. simpl.
  rewrite (setitem_in_range s i true Hi).
  destruct (PrimFloat.ltb 1418.53691%float x),
    (PrimFloat.ltb x 1421.21168%float); reflexivity.
Qed.

Lemma sector15_marks x i s :
  (i < length s)%nat ->
  sector15_body x i s = Ok (if sector_window 15 x then <[i := true]> s else s).
Proof.
  intros Hi. unfold sector15_body, sector_window. simpl.
  rewrite (setitem_in_range s i true Hi).
  destruct (PrimFloat.ltb 1737.3%float x); reflexivity.
Qed.

Lemma sector18_marks x i s :
  (i < length s)%nat ->
  sector18_body x i s = Ok (if sector_window 18 x then <[i := true]> s else s).
Proof.
  intros Hi. unfold sector18_body, sector_window. simpl.
  rewrite (setitem_in_range s i true Hi).
  destruct (PrimFloat.ltb x 1791.5%float), (PrimFloat.ltb 1813.48%float x); simpl;
    try reflexivity.
  - rewrite setitem_in_range by (rewrite length_insert; exact Hi).
    rewrite list_insert_insert_eq. reflexivity.
  - apply setitem_in_range, Hi.
Qed.

Lemma dump_marks d x i s :
  (i < length s)%nat ->
  dump_body d x i s
  = Ok (if PrimFloat.ltb (PrimFloat.abs (PrimFloat.sub x d)) 0.015%float
        then <[i := true]> s else s).
Proof.
  intros Hi. unfold dump_body. rewrite (setitem_in_range s i true Hi).
  destruct (PrimFloat.ltb _ _); reflexivity.
Qed.

Lemma sector_branch_spec sector time :
  1 <= sector <= 19 ->
  sector_branch bad_times sector time (replicate (length time) false)
  = Ok (Some (bad_times sector), map (sector_window sector) time).
Proof.
  intros Hsector. unfold sector_branch.
  assert (forall s body,
             (forall x i fr, (i < length fr)%nat ->
                body x i fr = Ok (if sector_window s x then <[i := true]> fr else fr)) ->
             over_samples time body (replicate (length time) false)
             = Ok (map (sector_window s) time)) as Hwin.
  { intros s body Hbody.
    rewrite (over_samples_marks (sector_window s)) by
      (try exact Hbody; apply length_replicate).
    rewrite <- map_const_false, zip_with_map_same. reflexivity. }
  rewrite (Hwin 3 _ sector3_marks), (Hwin 4 _ sector4_marks),
    (Hwin 15 _ sector15_marks), (Hwin 18 _ sector18_marks). simpl.
  assert (forall s, s <> 3 -> s <> 4 -> s <> 15 -> s <> 18 ->
                    map (sector_window s) time = replicate (length time) false)
    as Hnone.
  { intros s H3 H4 H15 H18. rewrite <- map_const_false.
    apply map_ext. intros x. unfold sector_window.
    destruct (Z.eqb_spec s 3); [contradiction|].
    destruct (Z.eqb_spec s 4); [contradiction|].
    destruct (Z.eqb_spec s 15); [contradiction|].
    destruct (Z.eqb_spec s 18); [contradiction|]. reflexivity. }
  repeat match goal with
         | |- context [sector =? ?k] =>
             destruct (Z.eqb_spec sector k) as [->|?];
             [first [reflexivity | rewrite Hnone by lia; reflexivity]|]
         end.
  lia.
Qed.

Lemma dumps_loop_spec time dumps : forall fr,
  length fr = length time ->
  for_each (fun d s => over_samples time (dump_body d) s) dumps fr
  = Ok (zip_with (fun x b => b || near_dump dumps x) time fr).
Proof.
  induction dumps as [|d dumps IH]; intros fr Hlen; simpl.
  - rewrite zip_with_keep by exact Hlen. reflexivity.
  - rewrite (over_samples_marks
               (fun x => PrimFloat.ltb (PrimFloat.abs (PrimFloat.sub x d)) 0.015%float))
      by (try exact Hlen; intros; apply dump_marks; assumption).
    simpl. rewrite IH by (rewrite length_zip_with; lia).
    rewrite zip_with_twice. f_equal.
    apply zip_with_ext; try reflexivity.
    intros x b. rewrite orb_assoc. reflexivity.
Qed.

(** The removal mask, sample by sample. *)
Lemma removal_mask_spec time sector :
  1 <= sector <= 19 ->
  removal_mask bad_times time sector = Ok (map (removed bad_times sector) time).
Proof.
  intros Hsector. unfold removal_mask.
  rewrite sector_branch_spec by exact Hsector. simpl.
  rewrite dumps_loop_spec by apply length_map.
  rewrite zip_with_map_same. reflexivity.
Qed.

End CleanMask.

Lemma index_not_map {A B : Type} (a : list A) (p : B -> bool) (l : list B) :
  l <> [] -> length a = length l ->
  np.index_not a (map p l) = Ok (np.keep_unmasked a (map p l)).
Proof.
  intros Hne Hlen. apply index_not_returns.
  - rewrite length_map. exact Hlen.
  - destruct l; [congruence | discriminate].
Qed.

(** From arrays that are not empty, [clean_tess_lc] removes exactly the
    samples whose time lies in a hard-coded window of the sector or within
    0.015 of one of the sector's bad times, and the flux and flux error at
    the same positions. *)
Theorem clean_tess_lc_removes_flagged_times
    (bad_times : Z -> list float) (time flux flux_err : list float) (sector : Z) :
  time <> [] ->
  length flux = length time ->
  length flux_err = length time ->
  1 <= sector <= 19 ->
  Clean.clean_tess_lc bad_times time flux flux_err sector
  = Ok (np.keep_unmasked time (map (removed bad_times sector) time),
        np.keep_unmasked flux (map (removed bad_times sector) time),
        np.keep_unmasked flux_err (map (removed bad_times sector) time)).
Proof.
  intros Hne Hflux Herr Hsector. unfold Clean.clean_tess_lc.
  rewrite removal_mask_spec by exact Hsector. simpl.
  rewrite !index_not_map by (assumption || reflexivity). reflexivity.
Qed.

Lemma clean_tess_lc_removes_flagged_times_witness :
  Clean.clean_tess_lc Clean.sample_pickles Samples.four_times Samples.four_flux
    Samples.four_flux_err 1
  = Ok (np.keep_unmasked Samples.four_times
          (map (removed Clean.sample_pickles 1) Samples.four_times),
        np.keep_unmasked Samples.four_flux
          (map (removed Clean.sample_pickles 1) Samples.four_times),
        np.keep_unmasked Samples.four_flux_err
          (map (removed Clean.sample_pickles 1) Samples.four_times)).
Proof.
  apply clean_tess_lc_removes_flagged_times;
    [discriminate | reflexivity | reflexivity | lia].
Defined.

Lemma kept_are_unflagged {A : Type} (p : A -> bool) (l : list A) :
  map p (np.keep_unmasked l (map p l))
  = replicate (length (np.keep_unmasked l (map p l))) false.
Proof.
  induction l as [|x l IH]; simpl; [reflexivity|].
  destruct (p x) eqn:Hp; simpl; [exact IH | rewrite Hp, IH; reflexivity].
Qed.

Lemma keep_unmasked_none {A : Type} (b : list A) :
  np.keep_unmasked b (replicate (length b) false) = b.
Proof. induction b as [|x b IH]; simpl; [|rewrite IH]; reflexivity. Qed.

(** Cleaning is idempotent as long as a sample is left: a light curve that
    [clean_tess_lc] returned comes back unchanged from a second cleaning for
    the same sector; when the first cleaning removed every sample, the
    second raises [TypeError]. *)
Theorem clean_tess_lc_idempotent
    (bad_times : Z -> list float) (time flux flux_err : list float) (sector : Z)
    (clean_time clean_flux clean_flux_err : list float) :
  length flux = length time ->
  length flux_err = length time ->
  1 <= sector <= 19 ->
  Clean.clean_tess_lc bad_times time flux flux_err sector
  = Ok (clean_time, clean_flux, clean_flux_err) ->
  Clean.clean_tess_lc bad_times clean_time clean_flux clean_flux_err sector
  = match clean_time with
    | [] => Raise TypeError
    | _ :: _ => Ok (clean_time, clean_flux, clean_flux_err)
    end.
Proof.
  intros Hflux Herr Hsector Hclean.
  assert (time <> []) as Hne.
  { intros ->. unfold Clean.clean_tess_lc in Hclean.
    rewrite removal_mask_spec in Hclean by exact Hsector. discriminate. }
  unfold Clean.clean_tess_lc in Hclean.
  rewrite removal_mask_spec in Hclean by exact Hsector. simpl in Hclean.
  rewrite !index_not_map in Hclean by (assumption || reflexivity).
  injection Hclean as <- <- <-.
  pose proof (keep_unmasked_length flux time
                (map (removed bad_times sector) time) Hflux) as Lflux.
  pose proof (keep_unmasked_length flux_err time
                (map (removed bad_times sector) time) Herr) as Lerr.
  unfold Clean.clean_tess_lc.
  rewrite removal_mask_spec by exact Hsector. simpl.
  rewrite kept_are_unflagged.
  destruct (np.keep_unmasked time (map (removed bad_times sector) time))
    as [|x kept] eqn:Hkept; [reflexivity|].
  rewrite !index_not_returns
    by (rewrite ?length_replicate; (lia || discriminate)). simpl.
  change (false :: replicate (length kept) false)
    with (replicate (length (x :: kept)) false).
  rewrite keep_unmasked_none.
  rewrite <- Lflux at 1. rewrite keep_unmasked_none.
  rewrite <- Lerr at 1. rewrite keep_unmasked_none.
  reflexivity.
Qed.

Lemma clean_tess_lc_idempotent_witness :
  Clean.clean_tess_lc Clean.sample_pickles [1%float; 2%float] [10%float; 13%float]
    [0.5%float; 0.0625%float] 1
  = match [1%float; 2%float] with
    | [] => Raise TypeError
    | _ :: _ =>
        Ok ([1%float; 2%float], [10%float; 13%float], [0.5%float; 0.0625%float])
    end.
Proof.
  apply (clean_tess_lc_idempotent Clean.sample_pickles Samples.four_times
           Samples.four_flux Samples.four_flux_err 1);
    [reflexivity | reflexivity | lia | vm_compute; reflexivity].
Defined.

(** A sector outside 1..19 binds no [mom_dumps]: the momentum-dump loop
    raises [UnboundLocalError], whatever the arrays. *)
Theorem clean_tess_lc_unknown_sector
    (bad_times : Z -> list float) (time flux flux_err : list float) (sector : Z) :
  sector < 1 \/ 19 < sector ->
  Clean.clean_tess_lc bad_times time flux flux_err sector = Raise UnboundLocalError.
Proof.
  intros Hsector. unfold Clean.clean_tess_lc, Clean.removal_mask, Clean.sector_branch.
  repeat match goal with
         | |- context [sector =? ?k] => destruct (Z.eqb_spec sector k); [lia|]
         end.
  reflexivity.
Qed.

Lemma clean_tess_lc_unknown_sector_witness :
  Clean.clean_tess_lc Clean.sample_pickles Samples.four_times Samples.four_flux
    Samples.four_flux_err 20
  = Raise UnboundLocalError.
Proof. apply clean_tess_lc_unknown_sector. right. lia. Defined.

(** A flux or flux-error array of another length than a time array that is
    not empty cannot be indexed by the mask: [IndexError]. *)
Theorem clean_tess_lc_length_mismatch
    (bad_times : Z -> list float) (time flux flux_err : list float) (sector : Z) :
  time <> [] ->
  1 <= sector <= 19 ->
  length flux <> length time \/ length flux_err <> length time ->
  Clean.clean_tess_lc bad_times time flux flux_err sector = Raise IndexError.
Proof.
  intros Hne Hsector Hlen. unfold Clean.clean_tess_lc.
  rewrite removal_mask_spec by exact Hsector. simpl.
  rewrite (index_not_map time) by (assumption || reflexivity). simpl.
  unfold np.index_not.
  destruct time as [|x time]; [congruence|].
  cbn [map length] in *. rewrite !length_map.
  destruct (Nat.eqb_spec (length flux) (Datatypes.S (length time))) as [Hf|Hf];
    simpl; [|reflexivity].
  destruct (Nat.eqb_spec (length flux_err) (Datatypes.S (length time))) as [He|He];
    simpl; [|reflexivity].
  destruct Hlen; contradiction.
Qed.

Lemma clean_tess_lc_length_mismatch_witness :
  Clean.clean_tess_lc Clean.sample_pickles Samples.four_times [10%float]
    Samples.four_flux_err 1
  = Raise IndexError.
Proof.
  apply clean_tess_lc_length_mismatch; [discriminate | lia | left; simpl; lia].
Defined.

(** ** [bin]: errors, bin sizes, and bins as slices *)

(** A bin size of zero: [len(flux) // binsize] raises
    [ZeroDivisionError] (for a valid method). *)
Theorem bin_zero_binsize
    (nanmean nanmedian : list float -> float) (time flux : list float)
    (method : string) :
  method = "mean"%string \/ method = "median"%string ->
  Bin.bin nanmean nanmedian time flux 0 method = Raise ZeroDivisionError.
Proof. intros [-> | ->]; reflexivity. Qed.

Lemma bin_zero_binsize_witness :
  Bin.bin Bin.first_entry Bin.first_entry Samples.seven_times Samples.seven_flux
    0 "median"
  = Raise ZeroDivisionError.
Proof. apply bin_zero_binsize. right. reflexivity. Defined.

(** Fewer samples than one bin, or a negative bin size: [np.array_split] is
    asked for no section or a negative number of sections, and [bin] raises
    [ValueError] instead of returning empty arrays. *)
Theorem bin_too_few_samples
    (nanmean nanmedian : list float -> float) (time flux : list float)
    (binsize : Z) (method : string) :
  method = "mean"%string \/ method = "median"%string ->
  binsize < 0 \/ Z.of_nat (length flux) < binsize ->
  Bin.bin nanmean nanmedian time flux binsize method = Raise ValueError.
Proof.
  intros Hmethod Hsize. unfold Bin.bin.
  replace (String.eqb method "mean" || String.eqb method "median") with true
    by (destruct Hmethod as [-> | ->]; reflexivity).
  simpl. unfold Bin.bin_indexes, Bin.floor_divide.
  destruct (Z.eqb_spec binsize 0); [lia|]. simpl.
  unfold Bin.array_split.
  destruct (Z.leb_spec (Z.of_nat (length flux) / binsize) 0) as [_|Hpos];
    [reflexivity|].
  exfalso. destruct Hsize as [Hneg|Hfew].
  - pose proof (Z.div_mod (Z.of_nat (length flux)) binsize ltac:(lia)) as Hdm.
    pose proof (Z.mod_neg_bound (Z.of_nat (length flux)) binsize Hneg) as Hr.
    nia.
  - destruct (Z.lt_ge_cases binsize 0) as [Hneg|Hnn].
    + pose proof (Z.div_mod (Z.of_nat (length flux)) binsize ltac:(lia)) as Hdm.
      pose proof (Z.mod_neg_bound (Z.of_nat (length flux)) binsize Hneg) as Hr.
      nia.
    + rewrite Z.div_small in Hpos by lia. lia.
Qed.

Lemma bin_too_few_samples_witness :
  Bin.bin Bin.first_entry Bin.first_entry Samples.seven_times Samples.seven_flux
    8 "mean"
  = Raise ValueError.
Proof.
  apply bin_too_few_samples; [left; reflexivity | right; simpl; lia].
Defined.

Lemma section_sizes_bounds (n b : nat) :
  (0 < b)%nat -> (b <= n)%nat ->
  Forall (fun s => (b <= s < 2 * b)%nat) (Bin.section_sizes n (n / b)).
Proof.
  intros Hb Hn.
  assert (0 < n / b)%nat as Hnb by (apply Nat.div_str_pos; lia).
  pose proof (Nat.div_mod_eq n b) as Hdb.
  pose proof (Nat.mod_upper_bound n b ltac:(lia)) as Hmb.
  pose proof (Nat.div_mod_eq n (n / b)) as Hdq.
  pose proof (Nat.mod_upper_bound n (n / b) ltac:(lia)) as Hmq.
  unfold Bin.section_sizes.
  set (nb := (n / b)%nat) in *. set (q := (n / nb)%nat) in *.
  set (r := (n mod nb)%nat) in *. set (m := (n mod b)%nat) in *.
  apply Forall_app. split.
  - destruct (Nat.eq_dec r 0%nat) as [->|Hr]; [constructor|].
    apply Forall_replicate. nia.
  - apply Forall_replicate. nia.
Qed.

(** Every bin holds at least [binsize] and fewer than [2 * binsize]
    samples: the remainder of the division is spread over the bins, not
    dropped. *)
Theorem bin_holds_binsize_to_twice
    (time flux : list float) (binsize : Z) (indexes : list (list nat)) :
  length time = length flux ->
  0 < binsize <= Z.of_nat (length flux) ->
  Bin.bin_indexes time flux binsize = Ok indexes ->
  Forall (fun idx => binsize <= Z.of_nat (length idx) < 2 * binsize) indexes.
Proof.
  intros Hlen Hsize Hidx.
  unfold Bin.bin_indexes, Bin.floor_divide in Hidx.
  destruct (Z.eqb_spec binsize 0); [lia|]. simpl in Hidx.
  unfold Bin.array_split in Hidx.
  destruct (Z.leb_spec (Z.of_nat (length flux) / binsize) 0) as [|_];
    [discriminate|].
  injection Hidx as <-.
  rewrite length_seq, Hlen.
  replace binsize with (Z.of_nat (Z.to_nat binsize)) at 1 by lia.
  rewrite <- Nat2Z.inj_div, Nat2Z.id.
  pose proof (section_sizes_bounds (length flux) (Z.to_nat binsize)
                ltac:(lia) ltac:(lia)) as Hbounds.
  rewrite <- (sub_arys_lengths (seq 0 (length flux))
                (Bin.section_sizes (length flux) (length flux / Z.to_nat binsize)) 0)
    in Hbounds.
  - rewrite Forall_map in Hbounds.
    eapply Forall_impl; [exact Hbounds|]. intros idx Hidx. simpl in Hidx. lia.
  - rewrite length_seq, section_sizes_sum; [lia|].
    apply Nat.div_str_pos. lia.
Qed.

Lemma bin_holds_binsize_to_twice_witness :
  Forall (fun idx => 3 <= Z.of_nat (length idx) < 2 * 3)
    [[0; 1; 2; 3]; [4; 5; 6]]%nat.
Proof.
  apply (bin_holds_binsize_to_twice Samples.seven_times Samples.seven_flux 3);
    [reflexivity | simpl; lia | vm_compute; reflexivity].
Defined.

Lemma take_indices_run {A : Type} (a : list A) (k : nat) : forall st,
  (st + k <= length a)%nat ->
  Bin.take_indices a (seq st k) = Ok (np.slice st (st + k) a).
Proof.
  induction k as [|k IH]; intros st Hle; simpl.
  - unfold np.slice. replace (st + 0 - st)%nat with 0%nat by lia. reflexivity.
  - unfold np.index.
    destruct (lookup_lt_is_Some_2 a st) as [x Hx]; [lia|].
    rewrite Hx. simpl. rewrite IH by lia. simpl.
    unfold np.slice. rewrite (drop_S _ _ _ Hx).
    replace (st + Datatypes.S k - st)%nat with (Datatypes.S k) by lia.
    simpl. do 3 f_equal. lia.
Qed.

Lemma slice_of_range (n st k : nat) :
  (st + k <= n)%nat -> np.slice st (st + k) (seq 0 n) = seq st k.
Proof.
  intros Hle. unfold np.slice. rewrite drop_seq, take_seq. simpl.
  f_equal. lia.
Qed.

Lemma summarise_runs methodf (a : list float) sizes : forall st,
  (st + sum_list sizes <= length a)%nat ->
  Bin.summarise methodf a (Bin.sub_arys st sizes (seq 0 (length a)))
  = Ok (map methodf (Bin.sub_arys st sizes a)).
Proof.
  induction sizes as [|k sizes IH]; intros st Hsum; [reflexivity|].
  change (st + (k + sum_list sizes) <= length a)%nat in Hsum.
  cbn [Bin.sub_arys Bin.summarise map].
  rewrite slice_of_range, take_indices_run by lia. simpl.
  rewrite IH by lia. reflexivity.
Qed.

(** [bin] by index arrays is [np.array_split] on the arrays themselves:
    each binned value is the statistic of a run of consecutive samples, and
    the runs, in order, make up the whole array. *)
Theorem bin_summarises_consecutive_runs
    (nanmean nanmedian : list float -> float)
    (time flux : list float) (binsize : Z) (method : string) :
  length time = length flux ->
  method = "mean"%string \/ method = "median"%string ->
  0 < binsize <= Z.of_nat (length flux) ->
  exists time_runs flux_runs,
    Bin.array_split time (Z.of_nat (length flux) / binsize) = Ok time_runs
    /\ Bin.array_split flux (Z.of_nat (length flux) / binsize) = Ok flux_runs
    /\ concat time_runs = time
    /\ concat flux_runs = flux
    /\ Bin.bin nanmean nanmedian time flux binsize method
       = Ok (map (if String.eqb method "mean" then nanmean else nanmedian) time_runs,
             map (if String.eqb method "mean" then nanmean else nanmedian) flux_runs).
Proof.
  intros Hlen Hmethod Hsize.
  assert (0 < Z.of_nat (length flux) / binsize) as Hbins
    by (apply Z.div_str_pos; lia).
  assert (0 < Z.to_nat (Z.of_nat (length flux) / binsize))%nat as Hnb by lia.
  destruct (array_split_parts time _ Hbins) as (tr & Htr & _ & Htcat).
  destruct (array_split_parts flux _ Hbins) as (fr & Hfr & _ & Hfcat).
  exists tr, fr. repeat split; try assumption.
  unfold Bin.bin.
  replace (String.eqb method "mean" || String.eqb method "median") with true
    by (destruct Hmethod as [-> | ->]; reflexivity).
  simpl. unfold Bin.bin_indexes, Bin.floor_divide.
  destruct (Z.eqb_spec binsize 0); [lia|]. simpl.
  unfold Bin.array_split in *.
  destruct (Z.leb_spec (Z.of_nat (length flux) / binsize) 0); [lia|].
  injection Htr as <-. injection Hfr as <-. simpl.
  rewrite length_seq.
  rewrite summarise_runs by (rewrite section_sizes_sum; lia). simpl.
  rewrite Hlen.
  rewrite summarise_runs by (rewrite section_sizes_sum; lia). reflexivity.
Qed.

Lemma bin_summarises_consecutive_runs_witness :
  exists time_runs flux_runs,
    Bin.array_split Samples.seven_times (Z.of_nat (length Samples.seven_flux) / 3)
    = Ok time_runs
    /\ Bin.array_split Samples.seven_flux (Z.of_nat (length Samples.seven_flux) / 3)
       = Ok flux_runs
    /\ concat time_runs = Samples.seven_times
    /\ concat flux_runs = Samples.seven_flux
    /\ Bin.bin Bin.first_entry Bin.first_entry Samples.seven_times
         Samples.seven_flux 3 "median"
       = Ok (map Bin.first_entry time_runs, map Bin.first_entry flux_runs).
Proof.
  apply (bin_summarises_consecutive_runs Bin.first_entry Bin.first_entry
           Samples.seven_times Samples.seven_flux 3 "median");
    [reflexivity | right; reflexivity | simpl; lia].
Defined.

(** ** The whole call: when it returns, and what *)

Lemma invalid_pipeline_escapes_witness :
  Pipeline.call Samples.toy_library default_args []
  = (Raise UnboundLocalError, [] ++ [Pipeline.Printed "Invalid pipeline"]).
Proof.
  apply invalid_pipeline_escapes; [reflexivity | discriminate].
Defined.

(** With a list of sectors for [multi_sector] the first statement of the
    branch reads [target_ID], which nothing has bound: the call raises
    [UnboundLocalError] out of its handler and prints nothing. *)
Theorem multi_sector_escapes
    (L : Pipeline.library) (a : Pipeline.args) (w : Pipeline.world)
    (sectors : list Z) :
  Pipeline.multi_sector a = Some sectors ->
  Pipeline.call L a w = (Raise UnboundLocalError, w).
Proof.
  intros Hms.
  unfold Pipeline.call, Pipeline.ffi_lowess_detrend, Pipeline.body, Pipeline.download.
  rewrite Hms. reflexivity.
Qed.

Lemma multi_sector_escapes_witness :
  Pipeline.call Samples.toy_library multi_sector_args []
  = (Raise UnboundLocalError, []).
Proof. apply (multi_sector_escapes _ _ _ [14; 15]). reflexivity. Defined.

Lemma print_lines_run lines l w :
  Pipeline.print_lines lines l w = (Ok tt, l, w ++ map Pipeline.Printed lines).
Proof.
  revert w. induction lines as [|line lines IH]; intros w; simpl.
  - rewrite app_nil_r. reflexivity.
  - unfold mbind, Pipeline.M_bind, Pipeline.emit. rewrite IH, <- app_assoc.
    reflexivity.
Qed.

Lemma save_figures_run a tid names l w :
  Pipeline.save_figures a tid names l w
  = (Ok tt, l,
     w ++ map (fun name => Pipeline.SavedFigure
                             (Pipeline.save_path a +:+ tid +:+ " - " +:+ name))
            names).
Proof.
  revert w. induction names as [|name names IH]; intros w; simpl.
  - rewrite app_nil_r. reflexivity.
  - unfold mbind, Pipeline.M_bind, Pipeline.emit. rewrite IH, <- app_assoc.
    reflexivity.
Qed.

(** Running a call symbolically: unfold the statements, then split on each
    library result, option and test the run is stuck on. *)
Ltac unfold_call H :=
  cbv beta iota zeta delta
    [Pipeline.call Pipeline.ffi_lowess_detrend Pipeline.body Pipeline.download
     Pipeline.clean Pipeline.peak_cut Pipeline.apply_transit_mask Pipeline.detrend
     Pipeline.search Pipeline.save Pipeline.in_world Pipeline.phase_fold_plot
     Pipeline.handler
     Pipeline.try_except mbind Pipeline.M_bind mret Pipeline.M_ret Pipeline.lift
     Pipeline.emit Pipeline.modify Pipeline.read Pipeline.get Pipeline.entry
     Pipeline.set_target_ID Pipeline.set_sector Pipeline.set_lc_30min
     Pipeline.set_t_cut Pipeline.set_BLS_flux Pipeline.set_phase
     Pipeline.set_epoch Pipeline.set_period Pipeline.target_ID Pipeline.sector
     Pipeline.lc_30min Pipeline.t_cut Pipeline.BLS_flux Pipeline.phase
     Pipeline.epoch Pipeline.period Pipeline.lc_time Pipeline.lc_flux
     Pipeline.lc_flux_err fst snd] in H.

Ltac run_step H :=
  match type of H with
  | context [match Detrend.run ?lw ?i with (_, _) => _ end] =>
      destruct (Detrend.run lw i) as [? ?] eqn:?
  | context [match ?r with Ok _ => _ | Raise _ => _ end] => destruct r eqn:?
  | context [match ?o with Some _ => _ | None => _ end] => destruct o eqn:?
  | context [if ?c then _ else _] => destruct c eqn:?
  | context [match ?p with (_, _) => _ end] => is_var p; destruct p
  | context [match ?e with RuntimeError => _ | _ => _ end] => is_var e; destruct e
  end.

Ltac run_call H :=
  unfold_call H;
  repeat (first [rewrite print_lines_run in H
                | rewrite save_figures_run in H
                | run_step H];
          unfold_call H; try discriminate H).

(** When the call returns (no transit mask), the phases it returns are the
    fold of the returned times by the returned epoch and period. *)
Theorem returned_phase_folds_returned_times
    (L : Pipeline.library) (a : Pipeline.args) (w w' : Pipeline.world)
    (t b p : list float) (e per : float) :
  Pipeline.transit_mask a = false ->
  Pipeline.call L a w = (Ok (t, b, p, e, per), w') ->
  p = Pipeline.fold_phase L t e per.
Proof.
  intros Htm H. unfold_call H. rewrite Htm in H. run_call H.
  all: injection H as <- <- <- <- <- _; reflexivity.
Qed.

Lemma returned_phase_folds_returned_times_witness :
  [(-0.7)%float; (-0.5)%float; (-0.3)%float]
  = Pipeline.fold_phase Samples.toy_library [1%float; 2%float; 3%float]
      2%float 5%float.
Proof.
  apply (returned_phase_folds_returned_times Samples.toy_library
           (Samples.script_args_with 3 "ok.fits") []
           (Pipeline.call Samples.toy_library
              (Samples.script_args_with 3 "ok.fits") []).2
           _ [10%float; 11%float; 12%float]);
    [reflexivity | vm_compute; reflexivity].
Defined.

